(** * AI-DataParser: the dynamic extractor (src/extractor.py) and its
      command line (cli.py)

    A shallow embedding of [DynamicExtractor]: the construction of the
    dynamic record model ([get_dynamic_model]), the validation of a model
    response against it ([_extract_structured_data]), the text, image and
    bulk operations, the display and the export of results, and the
    dialogue and dispatch of [main].

    Python text is modelled by [string]; a character stands for the code
    point of the same number (0 to 255), and texts with other code points
    are outside the model.  Exceptions are values of [exn] and every
    effectful method is a computation over an explicit [World] that
    returns either an exception or a value.

    What the program takes from pydantic, rich, csv and the operating
    system is given by the records [Library], [System] and [Host]; the
    properties hold for every such record, and the modules [Sample] and
    [SampleHost] give one of each to run the program on. *)

From Stdlib Require Import List String Ascii Bool ZArith NArith Arith Lia.
From Stdlib Require Import DecimalString.
Import ListNotations.

Set Warnings "-register-all".

Local Open Scope string_scope.
Local Open Scope list_scope.

(** ** Python string operations used by the extractor *)

Module PyStr.

(** [s.startswith(p)]. *)
Fixpoint startswith (p s : string) : bool :=
  match p with
  | EmptyString => true
  | String a p' =>
      match s with
      | EmptyString => false
      | String b s' => if Ascii.eqb a b then startswith p' s' else false
      end
  end.

(** [sub in s]. *)
Fixpoint contains (sub s : string) : bool :=
  if startswith sub s then true
  else match s with
       | EmptyString => false
       | String _ s' => contains sub s'
       end.

(** [str.isspace] on one character, for the code points below 256:
    TAB to CR, FS to US, SPACE, NEL (0x85) and NBSP (0xA0). *)
Definition isspace (c : ascii) : bool :=
  let n := nat_of_ascii c in
  (((9 <=? n) && (n <=? 13)) || ((28 <=? n) && (n <=? 32))
   || (n =? 133) || (n =? 160))%nat.

Fixpoint lstrip (s : string) : string :=
  match s with
  | EmptyString => EmptyString
  | String c s' => if isspace c then lstrip s' else s
  end.

Fixpoint rstrip (s : string) : string :=
  match s with
  | EmptyString => EmptyString
  | String c s' =>
      match rstrip s' with
      | EmptyString => if isspace c then EmptyString else String c EmptyString
      | r => String c r
      end
  end.

(** [s.strip()]. *)
Definition strip (s : string) : string := rstrip (lstrip s).

(** Truth value of a string: non-empty. *)
Definition truthy (s : string) : bool :=
  match s with EmptyString => false | _ => true end.

(** [str.lower] on one character, for the code points below 256. *)
Definition lower_char (c : ascii) : ascii :=
  let n := nat_of_ascii c in
  if (((65 <=? n) && (n <=? 90))
      || ((192 <=? n) && (n <=? 222) && negb (n =? 215)))%nat
  then ascii_of_nat (n + 32) else c.

Fixpoint lower (s : string) : string :=
  match s with
  | EmptyString => EmptyString
  | String c s' => String (lower_char c) (lower s')
  end.

(** [s.split(sep)] for a non-empty separator: separators are found from
    the left and do not overlap.  [skip] counts the characters of a
    separator still to be passed over, [cur] is the unit being read. *)
Fixpoint split_go (sep s : string) (skip : nat) (cur : string) : list string :=
  match s with
  | EmptyString => [cur]
  | String c s' =>
      match skip with
      | S k => split_go sep s' k cur
      | O =>
          if startswith sep s
          then cur :: split_go sep s' (String.length sep - 1) EmptyString
          else split_go sep s' 0 (cur ++ String c EmptyString)
      end
  end.

Definition split (sep s : string) : list string := split_go sep s 0 EmptyString.

(** [sep.join(parts)]. *)
Fixpoint join (sep : string) (parts : list string) : string :=
  match parts with
  | [] => EmptyString
  | [p] => p
  | p :: rest => p ++ sep ++ join sep rest
  end.

(** Index of the last occurrence of character [c], counted from 0
    ([s.rfind(c)], with [None] for -1). *)
Fixpoint rfind (c : ascii) (s : string) : option nat :=
  match s with
  | EmptyString => None
  | String a s' =>
      match rfind c s' with
      | Some i => Some (S i)
      | None => if Ascii.eqb a c then Some 0 else None
      end
  end.

Definition drop (n : nat) (s : string) : string :=
  String.substring n (String.length s - n) s.

Definition take (n : nat) (s : string) : string := String.substring 0 n s.

End PyStr.

(** ** os.path (POSIX flavour) *)

Module OsPath.

Definition sep : ascii := "/"%char.
Definition extsep : ascii := "."%char.

(** The loop of [genericpath._splitext] that passes over the leading
    dots of the file name: is there a character other than a dot at an
    index in [filenameIndex, dotIndex)? *)
Fixpoint has_non_dot (p : string) (filenameIndex count : nat) : bool :=
  match count with
  | O => false
  | S k =>
      match String.get filenameIndex p with
      | Some c => if Ascii.eqb c extsep then has_non_dot p (S filenameIndex) k else true
      | None => true
      end
  end.

(** [os.path.splitext(p)]: (root, ext). *)
Definition splitext (p : string) : string * string :=
  let filenameIndex :=
    match PyStr.rfind sep p with Some i => S i | None => 0 end in
  match PyStr.rfind extsep p with
  | Some dotIndex =>
      if (filenameIndex <=? dotIndex)%nat
         && has_non_dot p filenameIndex (dotIndex - filenameIndex)
      then (PyStr.take dotIndex p, PyStr.drop dotIndex p)
      else (p, EmptyString)
  | None => (p, EmptyString)
  end.

(** [os.path.basename(p)]. *)
Definition basename (p : string) : string :=
  match PyStr.rfind sep p with
  | Some i => PyStr.drop (S i) p
  | None => p
  end.

(** [os.path.dirname(p)]: the head, with trailing slashes removed unless
    the head consists of slashes only. *)
Fixpoint all_sep (s : string) : bool :=
  match s with
  | EmptyString => true
  | String c s' => Ascii.eqb c sep && all_sep s'
  end.

Fixpoint rstrip_sep (s : string) : string :=
  match s with
  | EmptyString => EmptyString
  | String c s' =>
      match rstrip_sep s' with
      | EmptyString => if Ascii.eqb c sep then EmptyString else String c EmptyString
      | r => String c r
      end
  end.

Definition dirname (p : string) : string :=
  match PyStr.rfind sep p with
  | Some i =>
      let head := PyStr.take (S i) p in
      if all_sep head then head else rstrip_sep head
  | None => EmptyString
  end.

End OsPath.

(** ** Python dictionaries

    A [dict] keeps its keys in insertion order; assigning to a key that is
    already present replaces the value and keeps the key's position. *)

Module PyDict.

Definition dict (V : Type) : Type := list (string * V).

Fixpoint get {V} (k : string) (d : dict V) : option V :=
  match d with
  | [] => None
  | (k', v) :: d' => if String.eqb k k' then Some v else get k d'
  end.

(** [d[k] = v]. *)
Fixpoint set {V} (k : string) (v : V) (d : dict V) : dict V :=
  match d with
  | [] => [(k, v)]
  | (k', v') :: d' =>
      if String.eqb k k' then (k, v) :: d' else (k', v') :: set k v d'
  end.

Definition keys {V} (d : dict V) : list string := map fst d.

(** [d.update(other)]. *)
Definition update {V} (d other : dict V) : dict V :=
  fold_left (fun acc kv => set (fst kv) (snd kv) acc) other d.

(** The dict built from a sequence of key/value pairs, later pairs
    overriding earlier ones. *)
Definition of_pairs {V} (kvs : list (string * V)) : dict V := update [] kvs.

End PyDict.

(** ** JSON values and Python values *)

(** A Python [float], written as the decimal it was read from:
    [Fin neg m e] stands for the binary64 value nearest to
    (-1)^neg * m * 10^e.  Rounding to binary64 is not computed. *)
Inductive pyfloat : Type :=
| Fin (neg : bool) (mant : N) (exp : Z)
| Inf (neg : bool)
| NaN.

Inductive json : Type :=
| JNull
| JBool (b : bool)
| JInt (z : Z)
| JFloat (f : pyfloat)
| JStr (s : string)
| JArr (items : list json)
| JObj (members : list (string * json)).

Inductive pyval : Type :=
| VNone
| VBool (b : bool)
| VInt (z : Z)
| VFloat (f : pyfloat)
| VStr (s : string)
| VList (items : list pyval).

(** Member lookup in a JSON object: as in a dict filled member by member,
    the last member with the key is the one found. *)
Definition obj_get (k : string) (members : list (string * json)) : option json :=
  PyDict.get k (PyDict.of_pairs members).

(** ** The field definitions and the dynamic model *)

(** One user-defined field: the dict [{'name': .., 'type': .., 'optional': ..}]. *)
Record field : Type := Field {
  name : string;
  type : string;
  optional : bool
}.

Inductive prim : Type := Pstr | Pint | Pfloat | Pbool.

(** The annotation of a model field: [str], [int], [float], [bool] or
    [List[inner_type]]. *)
Inductive pytype : Type :=
| TPrim (p : prim)
| TList (inner : prim).

(** [None] for an optional field, [...] (required) otherwise. *)
Inductive default : Type := DefaultNone | Ellipsis.

(** The body of the loop of [get_dynamic_model] that chooses [field_type]. *)
Definition inner_type (ty : string) : prim :=
  if PyStr.contains "int" ty then Pint
  else if PyStr.contains "float" ty then Pfloat
  else if PyStr.contains "bool" ty then Pbool
  else Pstr.

Definition field_type (ty : string) : pytype :=
  if String.eqb ty "int" then TPrim Pint
  else if String.eqb ty "float" then TPrim Pfloat
  else if String.eqb ty "bool" then TPrim Pbool
  else if PyStr.contains "list" ty then TList (inner_type ty)
  else TPrim Pstr.

Definition default_value (f : field) : default :=
  if optional f then DefaultNone else Ellipsis.

(** A pydantic model class: its name and its fields in definition order. *)
Record Model : Type := mkModel {
  model_name : string;
  model_fields : PyDict.dict (pytype * default)
}.

(** ** pydantic: model classes, and validation of JSON input against them

    The library behaviour the extractor relies on, for a [BaseModel] with
    the default configuration: JSON input is validated in lax mode, members
    that are not fields are ignored, a field with a default may be omitted
    (the default itself is not validated), every error found is collected
    in field and item order, and [model_dump] lists the fields in
    definition order. *)

(** The ['type'] of an error of a [ValidationError]. *)
Inductive error_type : Type :=
| json_invalid
| missing
| model_type
| list_type
| string_type
| int_type
| int_parsing
| int_parsing_size
| int_from_float
| finite_number
| float_type
| float_parsing
| bool_type
| bool_parsing.

(** Exceptions, by class; [msg] is the text [str(e)].  [OSError] stands
    for OSError (IOError is the same class) and its subclasses other than
    PermissionError (FileNotFoundError, FileExistsError, ...),
    [MarkupError] is the error of rich for a text that is not well-formed
    console markup, and [Exception] stands for every other subclass of
    Exception (TypeError, EOFError, ...).  KeyboardInterrupt and the other
    classes that are not subclasses of Exception are not modelled. *)
Inductive exn : Type :=
| ValidationError (errors : list error_type)
| JSONDecodeError (msg : string)
| PermissionError (msg : string)
| OSError (msg : string)
| ValueError (msg : string)
| IndexError (msg : string)
| MarkupError (msg : string)
| Exception (msg : string).

Inductive exn_class : Type :=
| CValidationError | CJSONDecodeError | CPermissionError | COSError | CException.

Definition isinstance (e : exn) (c : exn_class) : bool :=
  match c, e with
  | CException, _ => true
  | CValidationError, ValidationError _ => true
  | CJSONDecodeError, JSONDecodeError _ => true
  | CPermissionError, PermissionError _ => true
  | COSError, (PermissionError _ | OSError _) => true
  | _, _ => false
  end.

(** What [create_model] makes of a keyword argument [name=(type, default)]:
    a field of the model; no field at all (a name that starts with an
    underscore becomes a private attribute, and [__doc__] and [__module__]
    are parameters of [create_model] itself); or an error (a ValueError for
    [model_dump], which is a member of BaseModel, a TypeError for
    [__base__], ...). *)
Inductive name_kind : Type := IsField | NotAField | Refused.

(** Why a float is not taken for an integer: it is infinite or not a
    number, it has a fractional part, or it is too large. *)
Inductive not_an_int : Type := NotFinite | Fractional | OutOfRange.

(** Library functions taken as given.

    From pydantic: how [create_model] takes a keyword argument, and the
    exception it raises for definitions of which it refuses one; the JSON
    reader (which reads JSON texts and, beyond them, the literals [NaN],
    [Infinity] and [-Infinity]); the lax-mode readers of numbers and
    booleans written as strings; the integer that a float is, where the
    float is the binary64 value nearest to the decimal; and the text
    [str(e)] of a ValidationError.

    From rich: the parser of console markup, which gives the message of
    the MarkupError for a text that is not well-formed markup (a closing
    tag that closes nothing, a handler tag with parameters that cannot be
    evaluated) and [None] for one that is.

    From csv: the rows of a CSV text, and the text in which [DictWriter]
    lists the keys that are not field names. *)
Record Library : Type := {
  field_name_kind : string -> pytype * default -> name_kind;
  create_model_error : string -> PyDict.dict (pytype * default) -> exn;
  json_loads : string -> option json;
  str_as_int : string -> option Z;
  str_as_float : string -> option pyfloat;
  str_as_bool : string -> option bool;
  float_to_int : pyfloat -> not_an_int + Z;
  str_ValidationError : list error_type -> string;
  rich_markup : string -> option string;
  csv_reader : string -> exn + list (list string);
  csv_wrong_fields : list string -> string
}.

Definition is_field (lib : Library) (d : string * (pytype * default)) : bool :=
  match field_name_kind lib (fst d) (snd d) with
  | IsField => true
  | _ => false
  end.

Definition is_refused (lib : Library) (d : string * (pytype * default)) : bool :=
  match field_name_kind lib (fst d) (snd d) with
  | Refused => true
  | _ => false
  end.

(** [create_model(model_name, **field_definitions)]: an error when one of
    the definitions is refused; otherwise the model whose fields are the
    definitions that are taken as fields, in their order. *)
Definition create_model (lib : Library) (model_name : string)
    (field_definitions : PyDict.dict (pytype * default)) : exn + Model :=
  if existsb (is_refused lib) field_definitions
  then inl (create_model_error lib model_name field_definitions)
  else inr (mkModel model_name (filter (is_field lib) field_definitions)).

(** The dict [model_fields] that the loop of [get_dynamic_model] fills. *)
Definition field_definitions (fields : list field) : PyDict.dict (pytype * default) :=
  fold_left
    (fun model_fields f =>
       PyDict.set (name f) (field_type (type f), default_value f) model_fields)
    fields [].

Definition get_dynamic_model (lib : Library) (fields : list field) : exn + Model :=
  create_model lib "Entity" (field_definitions fields).

(** Either the errors found or the validated value. *)
Definition validated (A : Type) : Type := (list error_type + A)%type.

Definition float_of_Z (z : Z) : pyfloat := Fin (z <? 0)%Z (Z.abs_N z) 0.

Definition float_of_bool (b : bool) : pyfloat := Fin false (if b then 1 else 0)%N 0.

(** A float as an integer, when it is one. *)
Definition float_as_int (lib : Library) (f : pyfloat) : validated Z :=
  match f with
  | Inf _ | NaN => inl [finite_number]
  | Fin _ _ _ =>
      match float_to_int lib f with
      | inr z => inr z
      | inl NotFinite => inl [finite_number]
      | inl Fractional => inl [int_from_float]
      | inl OutOfRange => inl [int_parsing_size]
      end
  end.

Definition int_as_bool (z : Z) : validated bool :=
  if (z =? 0)%Z then inr false
  else if (z =? 1)%Z then inr true
  else inl [bool_parsing].

Section Validation.

Variable lib : Library.

Definition validate_str (v : json) : validated pyval :=
  match v with
  | JStr s => inr (VStr s)
  | _ => inl [string_type]
  end.

Definition validate_int (v : json) : validated pyval :=
  match v with
  | JInt z => inr (VInt z)
  | JBool b => inr (VInt (if b then 1 else 0))
  | JFloat f =>
      match float_as_int lib f with
      | inr z => inr (VInt z)
      | inl errs => inl errs
      end
  | JStr s =>
      match str_as_int lib s with
      | Some z => inr (VInt z)
      | None => inl [int_parsing]
      end
  | _ => inl [int_type]
  end.

Definition validate_float (v : json) : validated pyval :=
  match v with
  | JFloat f => inr (VFloat f)
  | JInt z => inr (VFloat (float_of_Z z))
  | JBool b => inr (VFloat (float_of_bool b))
  | JStr s =>
      match str_as_float lib s with
      | Some f => inr (VFloat f)
      | None => inl [float_parsing]
      end
  | _ => inl [float_type]
  end.

Definition validate_bool (v : json) : validated pyval :=
  match v with
  | JBool b => inr (VBool b)
  | JStr s =>
      match str_as_bool lib s with
      | Some b => inr (VBool b)
      | None => inl [bool_parsing]
      end
  | JInt z =>
      match int_as_bool z with
      | inr b => inr (VBool b)
      | inl errs => inl errs
      end
  | JFloat f =>
      match float_as_int lib f with
      | inr z =>
          match int_as_bool z with
          | inr b => inr (VBool b)
          | inl errs => inl errs
          end
      | inl _ => inl [bool_type]
      end
  | _ => inl [bool_type]
  end.

Definition validate_prim (p : prim) (v : json) : validated pyval :=
  match p with
  | Pstr => validate_str v
  | Pint => validate_int v
  | Pfloat => validate_float v
  | Pbool => validate_bool v
  end.

(** Validate every element with [f], keeping the values in order and all
    the errors in order. *)
Fixpoint validate_all {A B} (f : A -> validated B) (l : list A) : validated (list B) :=
  match l with
  | [] => inr []
  | x :: l' =>
      match f x, validate_all f l' with
      | inr y, inr ys => inr (y :: ys)
      | inr _, inl errs => inl errs
      | inl errs, inr _ => inl errs
      | inl errs, inl errs' => inl (errs ++ errs')
      end
  end.

Definition validate_type (t : pytype) (v : json) : validated pyval :=
  match t with
  | TPrim p => validate_prim p v
  | TList inner =>
      match v with
      | JArr items =>
          match validate_all (validate_prim inner) items with
          | inr vs => inr (VList vs)
          | inl errs => inl errs
          end
      | _ => inl [list_type]
      end
  end.

(** One field of a model against the members of the input object. *)
Definition validate_field (members : list (string * json))
    (fld : string * (pytype * default)) : validated (string * pyval) :=
  let '(n, (t, d)) := fld in
  match obj_get n members with
  | Some v =>
      match validate_type t v with
      | inr x => inr (n, x)
      | inl errs => inl errs
      end
  | None =>
      match d with
      | DefaultNone => inr (n, VNone)
      | Ellipsis => inl [missing]
      end
  end.

(** An instance of a model, given as the dict [model_dump] returns. *)
Definition instance : Type := PyDict.dict pyval.

Definition validate_model (m : Model) (v : json) : validated instance :=
  match v with
  | JObj members => validate_all (validate_field members) (model_fields m)
  | _ => inl [model_type]
  end.

(** [class EntitiesList(BaseModel): Entities: list[Entity]], validated
    on an already read JSON value; the result is the [Entities] list. *)
Definition validate_EntitiesList (Entity : Model) (v : json) : validated (list instance) :=
  match v with
  | JObj members =>
      match obj_get "Entities" members with
      | Some (JArr items) => validate_all (validate_model Entity) items
      | Some _ => inl [list_type]
      | None => inl [missing]
      end
  | _ => inl [model_type]
  end.

End Validation.
(** ** The world of the extractor: console, model server, file system *)

(** One extraction result: [{'input': .., 'response': ..}]. *)
Record result : Type := Result {
  input : string;
  response : instance
}.

(** A call of [client.chat]: the model, the system and user messages, the
    images attached to the user message, the model whose JSON schema is
    the response format, and the sampling temperature. *)
Record chat_request : Type := ChatRequest {
  req_model : string;
  req_system : string;
  req_user : string;
  req_images : list string;
  req_format : Model;
  req_temperature : Z
}.

(** What the extractor prints on its console. *)
Inductive message : Type :=
| ValidationErrorMsg (first_error : error_type)
| JSONDecodeErrorMsg (e : exn)
| ErrorProcessingText (e : exn)
| ErrorProcessingImage (e : exn)
| ErrorProcessingBulkText (e : exn)
| ExportedToJSON (output_file : string)
| NoResultsToExport
| ExportedToCSV (output_file : string)
| UnsupportedFileFormat (file_ext : string)
| PermissionDenied (output_file : string)
| OSErrorDuringExport (e : exn)
| UnexpectedErrorDuringExport (e : exn).

(** What the extractor does to the file system. *)
Inductive fs_event : Type :=
| Makedirs (path : string)
| OpenedForWriting (path : string)
| JsonDumped (path : string) (results : list result)
| CsvRowWritten (path : string) (cells : list pyval).

Record World : Type := mkWorld {
  console : list message;
  requests : list chat_request;
  fs : list fs_event
}.

(** The text [str(e)] of an exception. *)
Definition str_exn (lib : Library) (e : exn) : string :=
  match e with
  | ValidationError errs => str_ValidationError lib errs
  | JSONDecodeError msg | PermissionError msg | OSError msg | ValueError msg
  | IndexError msg | MarkupError msg | Exception msg => msg
  end.

(** The name of an error type, as pydantic writes it. *)
Definition type_name (e : error_type) : string :=
  match e with
  | json_invalid => "json_invalid"
  | missing => "missing"
  | model_type => "model_type"
  | list_type => "list_type"
  | string_type => "string_type"
  | int_type => "int_type"
  | int_parsing => "int_parsing"
  | int_parsing_size => "int_parsing_size"
  | int_from_float => "int_from_float"
  | finite_number => "finite_number"
  | float_type => "float_type"
  | float_parsing => "float_parsing"
  | bool_type => "bool_type"
  | bool_parsing => "bool_parsing"
  end.

(** The text of a message, as the f-string of the source builds it and as
    it is handed to [console.print], which reads it as console markup. *)
Definition markup (lib : Library) (m : message) : string :=
  match m with
  | ValidationErrorMsg first_error =>
      "[bold red]Validation Error:[/] '" ++ type_name first_error ++ "'"
  | JSONDecodeErrorMsg e => "[bold red]JSON Decode Error:[/] " ++ str_exn lib e
  | ErrorProcessingText e => "[bold red]Error processing text:[/] " ++ str_exn lib e
  | ErrorProcessingImage e => "[bold red]Error processing image:[/] " ++ str_exn lib e
  | ErrorProcessingBulkText e =>
      "[bold red]Error processing bulk text:[/] " ++ str_exn lib e
  | ExportedToJSON output_file =>
      "[bold green]Results exported to JSON: " ++ output_file ++ "[/]"
  | NoResultsToExport => "[bold yellow]No results to export.[/]"
  | ExportedToCSV output_file =>
      "[bold green]Results exported to CSV: " ++ output_file ++ "[/]"
  | UnsupportedFileFormat file_ext =>
      "[bold red]Unsupported file format: " ++ file_ext ++ ". Use .json or .csv[/]"
  | PermissionDenied output_file =>
      "[bold red]Permission denied: Unable to write to " ++ output_file ++ "[/]"
  | OSErrorDuringExport e => "[bold red]OS Error during export: " ++ str_exn lib e ++ "[/]"
  | UnexpectedErrorDuringExport e =>
      "[bold red]Unexpected error during export:[/] " ++ str_exn lib e
  end.

(** The message of the MarkupError that printing a message raises, if it
    raises one.  The text of [NoResultsToExport] is fixed and that of
    [ValidationErrorMsg] is fixed but for the name of the error type; both
    are well-formed markup.  Every other text holds the text of an
    exception, a path or an extension, and the parser of rich decides. *)
Definition markup_error (lib : Library) (m : message) : option string :=
  match m with
  | ValidationErrorMsg _ | NoResultsToExport => None
  | _ => rich_markup lib (markup lib m)
  end.

(** The outside of the program.  [client_chat] is the model server: the
    content of its answer or the exception of the call, which may depend on
    the requests made before.  [open_read] and [open_read_bytes] open a
    file in text or in binary mode and read it: the contents, or the
    exception of the opening or of the reading.  [os_makedirs] and
    [open_write] give the exception, if any, of making a directory and of
    opening a file for writing.  Writing to a file that was opened is taken
    to succeed.  The progress bars of tqdm are not modelled. *)
Record System : Type := {
  client_chat : list chat_request -> chat_request -> exn + string;
  open_read : string -> exn + string;
  open_read_bytes : string -> exn + string;
  os_makedirs : string -> option exn;
  open_write : string -> option exn
}.

(** Computations: from a world to an exception or a value, and a world. *)
Definition M (A : Type) : Type := World -> (exn + A) * World.

Definition ret {A} (a : A) : M A := fun w => (inr a, w).

Definition raise {A} (e : exn) : M A := fun w => (inl e, w).

Definition bind {A B} (m : M A) (k : A -> M B) : M B :=
  fun w =>
    match m w with
    | (inr a, w') => k a w'
    | (inl e, w') => (inl e, w')
    end.

Declare Scope py_scope.
Delimit Scope py_scope with py.
Notation "x <- m ;; k" := (bind m (fun x => k))
  (at level 61, m at next level, right associativity) : py_scope.
Notation "m ;; k" := (bind m (fun _ => k))
  (at level 61, right associativity) : py_scope.

(** [try: body except C1: h1 except C2: h2 ...]: the first clause whose
    class the exception belongs to handles it; with no such clause the
    exception goes on. *)
Fixpoint find_handler {A} (clauses : list (exn_class * (exn -> M A))) (e : exn)
  : option (M A) :=
  match clauses with
  | [] => None
  | (c, h) :: rest => if isinstance e c then Some (h e) else find_handler rest e
  end.

Definition try_except {A} (body : M A) (clauses : list (exn_class * (exn -> M A))) : M A :=
  fun w =>
    match body w with
    | (inr a, w') => (inr a, w')
    | (inl e, w') =>
        match find_handler clauses e with
        | Some h => h w'
        | None => (inl e, w')
        end
    end.

Definition lift {A} (r : exn + A) : M A :=
  match r with
  | inr a => ret a
  | inl e => raise e
  end.

(** [self.console.print(text)]: the text is parsed as console markup
    first, and nothing is printed when that fails. *)
Definition console_print (lib : Library) (m : message) : M unit :=
  fun w =>
    match markup_error lib m with
    | Some msg => (inl (MarkupError msg), w)
    | None => (inr tt, mkWorld (console w ++ [m]) (requests w) (fs w))
    end.

Definition fs_do (ev : fs_event) : M unit :=
  fun w => (inr tt, mkWorld (console w) (requests w) (fs w ++ [ev])).

(** [for x in items: results.extend(body(x))], from the list [results]. *)
Fixpoint for_extend {A B} (items : list A) (body : A -> M (list B)) (results : list B)
  : M (list B) :=
  match items with
  | [] => ret results
  | x :: rest => bind (body x) (fun r => for_extend rest body (results ++ r))
  end.

(** [for x in items: body(x)]. *)
Fixpoint for_each {A} (items : list A) (body : A -> M unit) : M unit :=
  match items with
  | [] => ret tt
  | x :: rest => bind (body x) (fun _ => for_each rest body)
  end.

(** ** DynamicExtractor *)

(** The attributes set by [__init__]. *)
Record DynamicExtractor : Type := {
  host : string;
  text_model : string;
  vision_model : string
}.

Definition newline : string := String (ascii_of_nat 10) EmptyString.

Section Extractor.

Variable lib : Library.
Variable sys : System.
Variable self : DynamicExtractor.

Local Open Scope py_scope.

(** [self.client.chat(...)], giving [response.message.content]. *)
Definition chat (req : chat_request) : M string :=
  fun w =>
    (client_chat sys (requests w) req,
     mkWorld (console w) (requests w ++ [req]) (fs w)).

Definition open_and_read (path : string) : M string := lift (open_read sys path).

Definition open_and_read_bytes (path : string) : M string :=
  lift (open_read_bytes sys path).

Definition makedirs (path : string) : M unit :=
  match os_makedirs sys path with
  | Some e => raise e
  | None => fs_do (Makedirs path)
  end.

Definition open_for_writing (path : string) : M unit :=
  match open_write sys path with
  | Some e => raise e
  | None => fs_do (OpenedForWriting path)
  end.

(** [EntitiesList.model_validate_json(response_content).Entities]. *)
Definition model_validate_json (Entity : Model) (response_content : string)
  : M (list instance) :=
  match json_loads lib response_content with
  | None => raise (ValidationError [json_invalid])
  | Some v =>
      match validate_EntitiesList lib Entity v with
      | inr entities => ret entities
      | inl errs => raise (ValidationError errs)
      end
  end.

(** [exc.errors()]. *)
Definition errors (exc : exn) : list error_type :=
  match exc with
  | ValidationError errs => errs
  | _ => []
  end.

Definition _extract_structured_data (response_content : string)
    (model_fields : list field) (input_context : string) : M (list result) :=
  Entity <- lift (get_dynamic_model lib model_fields) ;;
  try_except
    (extracted_data <- model_validate_json Entity response_content ;;
     ret (map (fun item => Result input_context item) extracted_data))
    [ (CValidationError,
       fun exc =>
         match errors exc with
         | first :: _ => console_print lib (ValidationErrorMsg first) ;; ret []
         | [] => raise (IndexError "list index out of range")
         end);
      (CJSONDecodeError,
       fun exc => console_print lib (JSONDecodeErrorMsg exc) ;; ret []) ].

Definition text_prompt (model_fields : list field) : string :=
  "Extract structured data based on these fields: "
  ++ PyStr.join ", " (map name model_fields) ++ newline
  ++ "        Provide output as a JSON-compatible list of objects.".

Definition process_text (text : string) (model_fields : list field) : M (list result) :=
  Entity <- lift (get_dynamic_model lib model_fields) ;;
  let prompt := text_prompt model_fields in
  try_except
    (content <- chat (ChatRequest (text_model self) prompt text [] Entity 0) ;;
     _extract_structured_data content model_fields text)
    [ (CException, fun e => console_print lib (ErrorProcessingText e) ;; ret []) ].

Definition image_prompt (model_fields : list field) : string :=
  "Analyze this image and extract structured data for these fields: "
  ++ PyStr.join ", " (map name model_fields) ++ newline
  ++ "        Provide output as a JSON-compatible list of objects.".

Definition process_image (image_path : string) (model_fields : list field)
  : M (list result) :=
  Entity <- lift (get_dynamic_model lib model_fields) ;;
  let prompt := image_prompt model_fields in
  try_except
    (img <- open_and_read_bytes image_path ;;
     content <- chat (ChatRequest (vision_model self) prompt EmptyString [img] Entity 0) ;;
     _extract_structured_data content model_fields (OsPath.basename image_path))
    [ (CException, fun e => console_print lib (ErrorProcessingImage e) ;; ret []) ].

(** The body of both loops of [process_bulk_text]. *)
Definition process_unit (model_fields : list field) (text : string) : M (list result) :=
  if PyStr.truthy (PyStr.strip text) then process_text text model_fields else ret [].

Definition process_bulk_text (file_path : string) (model_fields : list field)
  : M (list result) :=
  let file_ext := PyStr.lower (snd (OsPath.splitext file_path)) in
  let results := [] in
  try_except
    (if String.eqb file_ext ".txt" then
       contents <- open_and_read file_path ;;
       let texts := PyStr.split ",," contents in
       for_extend texts (process_unit model_fields) results
     else if String.eqb file_ext ".csv" then
       contents <- open_and_read file_path ;;
       rows <- lift (csv_reader lib contents) ;;
       for_extend rows (fun row => process_unit model_fields (PyStr.join " " row)) results
     else ret results)
    [ (CException, fun e => console_print lib (ErrorProcessingBulkText e) ;; ret []) ].

(** The keys of a row that are not field names. *)
Definition wrong_fields (fieldnames : list string) (row : PyDict.dict pyval)
  : list string :=
  filter (fun k => negb (existsb (String.eqb k) fieldnames)) (PyDict.keys row).

(** [csv.DictWriter(f, fieldnames).writerow(row)]: keys of [row] that are
    not field names are an error, whose text lists them; a field name that
    is not a key gives an empty cell. *)
Definition writerow (path : string) (fieldnames : list string)
    (row : PyDict.dict pyval) : M unit :=
  match wrong_fields fieldnames row with
  | (_ :: _) as wrong =>
      raise (ValueError ("dict contains fields not in fieldnames: "
                         ++ csv_wrong_fields lib wrong)%string)
  | [] =>
      fs_do (CsvRowWritten path
               (map (fun k => match PyDict.get k row with
                              | Some v => v
                              | None => VStr EmptyString
                              end) fieldnames))
  end.

Definition writeheader (path : string) (fieldnames : list string) : M unit :=
  fs_do (CsvRowWritten path (map VStr fieldnames)).

Definition export_results (results : list result) (output_file : string) : M unit :=
  try_except
    (let file_ext := PyStr.lower (snd (OsPath.splitext output_file)) in
     makedirs (if PyStr.truthy (OsPath.dirname output_file)
               then OsPath.dirname output_file else ".") ;;
     if String.eqb file_ext ".json" then
       open_for_writing output_file ;;
       fs_do (JsonDumped output_file results) ;;
       console_print lib (ExportedToJSON output_file)
     else if String.eqb file_ext ".csv" then
       match results with
       | [] => console_print lib NoResultsToExport
       | first :: _ =>
           let fieldnames := "input" :: PyDict.keys (response first) in
           open_for_writing output_file ;;
           writeheader output_file fieldnames ;;
           for_each results
             (fun item =>
                let row := PyDict.update [("input", VStr (input item))] (response item) in
                writerow output_file fieldnames row) ;;
           console_print lib (ExportedToCSV output_file)
       end
     else console_print lib (UnsupportedFileFormat file_ext))
    [ (CPermissionError, fun _ => console_print lib (PermissionDenied output_file));
      (COSError, fun e => console_print lib (OSErrorDuringExport e));
      (CException, fun e => console_print lib (UnexpectedErrorDuringExport e)) ].

End Extractor.

(** ** A JSON reader

    A reader for JSON texts, used to run the extractor on concrete
    responses.  It reads the texts of RFC 8259 and, when [inf_nan] is set,
    the literals [NaN], [Infinity] and [-Infinity] as well, as the reader
    of pydantic does.  A [\u] escape names a code point; one below 256 is
    read as that character.  The others are outside the string model:
    with [wide] set such an escape is read as a question mark, which is
    enough to tell whether a text is JSON, and otherwise the reader gives
    up. *)

Module JsonReader.

Definition dquote : ascii := ascii_of_nat 34.
Definition backslash : ascii := ascii_of_nat 92.

Definition is_ws (c : ascii) : bool :=
  let n := nat_of_ascii c in
  ((n =? 32) || (n =? 9) || (n =? 10) || (n =? 13))%nat.

Fixpoint skip_ws (s : string) : string :=
  match s with
  | EmptyString => EmptyString
  | String c s' => if is_ws c then skip_ws s' else s
  end.

Definition digit_of (c : ascii) : option N :=
  let n := N_of_ascii c in
  if ((48 <=? n) && (n <=? 57))%N then Some (n - 48)%N else None.

Definition hex_of (c : ascii) : option N :=
  let n := N_of_ascii c in
  if ((48 <=? n) && (n <=? 57))%N then Some (n - 48)%N
  else if ((65 <=? n) && (n <=? 70))%N then Some (n - 55)%N
  else if ((97 <=? n) && (n <=? 102))%N then Some (n - 87)%N
  else None.

(** Leading digits of [s]: their value after [acc], their number after
    [count], and the rest. *)
Fixpoint read_digits (s : string) (acc : N) (count : nat) : N * nat * string :=
  match s with
  | EmptyString => (acc, count, s)
  | String c s' =>
      match digit_of c with
      | Some d => read_digits s' (acc * 10 + d)%N (S count)
      | None => (acc, count, s)
      end
  end.

(** The integer part: a single 0, or digits not starting with 0. *)
Definition read_int_part (s : string) : option (N * string) :=
  match s with
  | EmptyString => None
  | String c s' =>
      match digit_of c with
      | Some 0%N => Some (0%N, s')
      | Some _ => let '(v, _, rest) := read_digits s 0 0 in Some (v, rest)
      | None => None
      end
  end.

(** The fraction, if any: the mantissa extended by its digits, and their
    number. *)
Definition read_frac (mant : N) (s : string) : option (option (N * nat) * string) :=
  match s with
  | String "." s' =>
      let '(v, count, rest) := read_digits s' mant 0 in
      match count with
      | O => None
      | _ => Some (Some (v, count), rest)
      end
  | _ => Some (None, s)
  end.

(** The exponent, if any. *)
Definition read_exp (s : string) : option (option Z * string) :=
  let digits (neg : bool) (s' : string) :=
    let '(v, count, rest) := read_digits s' 0 0 in
    match count with
    | O => None
    | _ => Some (Some (if neg then (- Z.of_N v)%Z else Z.of_N v), rest)
    end in
  match s with
  | String ("e" | "E") (String "+" s') => digits false s'
  | String ("e" | "E") (String "-" s') => digits true s'
  | String ("e" | "E") s' => digits false s'
  | _ => Some (None, s)
  end.

Definition read_number (s : string) : option (json * string) :=
  let '(neg, s1) :=
    match s with
    | String "-" s' => (true, s')
    | _ => (false, s)
    end in
  match read_int_part s1 with
  | None => None
  | Some (ip, s2) =>
      match read_frac ip s2 with
      | None => None
      | Some (frac, s3) =>
          match read_exp s3 with
          | None => None
          | Some (ex, s4) =>
              match frac, ex with
              | None, None =>
                  Some (JInt (if neg then (- Z.of_N ip)%Z else Z.of_N ip), s4)
              | _, _ =>
                  let '(mant, places) :=
                    match frac with Some (m, k) => (m, k) | None => (ip, O) end in
                  let e := match ex with Some e => e | None => 0%Z end in
                  Some (JFloat (Fin neg mant (e - Z.of_nat places)), s4)
              end
          end
      end
  end.

(** The characters of a string up to its closing quote, after [acc]. *)
Fixpoint read_string (wide : bool) (s : string) (acc : string)
  : option (string * string) :=
  match s with
  | EmptyString => None
  | String c s' =>
      if Ascii.eqb c dquote then Some (acc, s')
      else if Ascii.eqb c backslash then
        match s' with
        | String "u" (String h1 (String h2 (String h3 (String h4 rest)))) =>
            match hex_of h1, hex_of h2, hex_of h3, hex_of h4 with
            | Some 0%N, Some 0%N, Some a, Some b =>
                read_string wide rest
                  (acc ++ String (ascii_of_N (a * 16 + b)) EmptyString)
            | Some _, Some _, Some _, Some _ =>
                if wide then read_string wide rest (acc ++ "?") else None
            | _, _, _, _ => None
            end
        | String e rest =>
            let put (n : nat) :=
              read_string wide rest (acc ++ String (ascii_of_nat n) EmptyString) in
            if Ascii.eqb e dquote then put 34
            else if Ascii.eqb e backslash then put 92
            else match e with
                 | "/"%char => put 47
                 | "b"%char => put 8
                 | "f"%char => put 12
                 | "n"%char => put 10
                 | "r"%char => put 13
                 | "t"%char => put 9
                 | _ => None
                 end
        | EmptyString => None
        end
      else if (nat_of_ascii c <? 32)%nat then None
      else read_string wide s' (acc ++ String c EmptyString)
  end.

Fixpoint read_value (wide inf_nan : bool) (fuel : nat) (s : string)
  : option (json * string) :=
  match fuel with
  | O => None
  | S n =>
      match skip_ws s with
      | EmptyString => None
      | String c rest as s0 =>
          if Ascii.eqb c dquote then
            match read_string wide rest EmptyString with
            | Some (str, r) => Some (JStr str, r)
            | None => None
            end
          else if Ascii.eqb c "{" then
            match skip_ws rest with
            | String "}" r => Some (JObj [], r)
            | r => read_members wide inf_nan n r []
            end
          else if Ascii.eqb c "[" then
            match skip_ws rest with
            | String "]" r => Some (JArr [], r)
            | r => read_items wide inf_nan n r []
            end
          else if PyStr.startswith "true" s0 then Some (JBool true, PyStr.drop 4 s0)
          else if PyStr.startswith "false" s0 then Some (JBool false, PyStr.drop 5 s0)
          else if PyStr.startswith "null" s0 then Some (JNull, PyStr.drop 4 s0)
          else if inf_nan && PyStr.startswith "NaN" s0 then
            Some (JFloat NaN, PyStr.drop 3 s0)
          else if inf_nan && PyStr.startswith "Infinity" s0 then
            Some (JFloat (Inf false), PyStr.drop 8 s0)
          else if inf_nan && PyStr.startswith "-Infinity" s0 then
            Some (JFloat (Inf true), PyStr.drop 9 s0)
          else read_number s0
      end
  end
with read_items (wide inf_nan : bool) (fuel : nat) (s : string) (acc : list json)
  : option (json * string) :=
  match fuel with
  | O => None
  | S n =>
      match read_value wide inf_nan n s with
      | Some (v, r) =>
          match skip_ws r with
          | String "," r' => read_items wide inf_nan n r' (acc ++ [v])
          | String "]" r' => Some (JArr (acc ++ [v]), r')
          | _ => None
          end
      | None => None
      end
  end
with read_members (wide inf_nan : bool) (fuel : nat) (s : string)
    (acc : list (string * json)) : option (json * string) :=
  match fuel with
  | O => None
  | S n =>
      match skip_ws s with
      | String c rest =>
          if Ascii.eqb c dquote then
            match read_string wide rest EmptyString with
            | Some (key, r) =>
                match skip_ws r with
                | String ":" r1 =>
                    match read_value wide inf_nan n r1 with
                    | Some (v, r2) =>
                        match skip_ws r2 with
                        | String "," r3 => read_members wide inf_nan n r3 (acc ++ [(key, v)])
                        | String "}" r3 => Some (JObj (acc ++ [(key, v)]), r3)
                        | _ => None
                        end
                    | None => None
                    end
                | _ => None
                end
            | None => None
            end
          else None
      | EmptyString => None
      end
  end.

(** A whole text: one value, with white space around it and nothing else. *)
Definition read (wide inf_nan : bool) (s : string) : option json :=
  match read_value wide inf_nan (2 * String.length s + 2) s with
  | Some (v, rest) =>
      match skip_ws rest with
      | EmptyString => Some v
      | _ => None
      end
  | None => None
  end.

(** The reader of pydantic, for texts within the string model. *)
Definition loads (s : string) : option json := read false true s.


End JsonReader.

(** ** A parser of console markup

    The parser of rich ([rich.markup.render]) as far as its errors go.  A
    tag is an opening bracket, a lower-case letter or one of [#], [/] and
    [@], characters other than an opening bracket, and the first closing
    bracket; an odd number of backslashes before it makes it plain text.
    An opening tag is put on a stack; a closing tag [[/name]] takes the
    nearest open tag of that name from the stack and [[/]] takes the top
    of it, and it is an error when there is none.  Names are compared in
    lower case and without regard to the white space in them (rich also
    brings the words of a style into one order); the parameters of a
    handler tag (one that starts with [@]), which rich evaluates, are
    taken to be well-formed. *)

Module RichMarkup.

Definition backslash : ascii := ascii_of_nat 92.

Definition tag_start (c : ascii) : bool :=
  let n := nat_of_ascii c in
  (((97 <=? n) && (n <=? 122)) || (n =? 35) || (n =? 47) || (n =? 64))%nat.

(** The text of a tag up to its closing bracket, after [acc], and what
    follows the bracket. *)
Fixpoint tag_body (s acc : string) : option (string * string) :=
  match s with
  | EmptyString => None
  | String c s' =>
      if Ascii.eqb c "]" then Some (acc, s')
      else if Ascii.eqb c "[" then None
      else tag_body s' (acc ++ String c EmptyString)
  end.

Definition tag_at (s : string) : option (string * string) :=
  match s with
  | String "[" (String c s') =>
      if tag_start c then tag_body s' (String c EmptyString) else None
  | _ => None
  end.

(** The number of backslashes [s] starts with, and what follows them. *)
Fixpoint backslashes (s : string) : nat * string :=
  match s with
  | String c s' =>
      if Ascii.eqb c backslash
      then let '(k, rest) := backslashes s' in (S k, rest)
      else (O, s)
  | EmptyString => (O, s)
  end.

(** [tag_text.partition("=")]: the name, and the parameters if any. *)
Fixpoint partition (s acc : string) : string * option string :=
  match s with
  | EmptyString => (acc, None)
  | String c s' =>
      if Ascii.eqb c "=" then (acc, Some s')
      else partition s' (acc ++ String c EmptyString)
  end.

(** The words of a name in lower case, with one space between them. *)
Fixpoint words (s : string) (gap started : bool) : string :=
  match s with
  | EmptyString => EmptyString
  | String c s' =>
      if PyStr.isspace c then words s' true started
      else
        let rest := String (PyStr.lower_char c) (words s' false true) in
        if gap && started then String " " rest else rest
  end.

Definition normalize (style : string) : string := words style false false.

Definition tag_markup (name : string) (parameters : option string) : string :=
  match parameters with
  | None => ("[" ++ name ++ "]")%string
  | Some p => ("[" ++ name ++ "=" ++ p ++ "]")%string
  end.

(** The stack without its nearest tag of the name, if there is one. *)
Fixpoint pop_style (style_name : string) (stack : list string) : option (list string) :=
  match stack with
  | [] => None
  | tag :: rest =>
      if String.eqb tag style_name then Some rest
      else match pop_style style_name rest with
           | Some rest' => Some (tag :: rest')
           | None => None
           end
  end.

Definition decimal (n : nat) : string :=
  DecimalString.NilZero.string_of_uint (Nat.to_uint n).

(** One tag at [position], on the stack of the open tags: the message of
    the error, or the stack after it. *)
Definition tag_step (name : string) (parameters : option string) (position : nat)
    (stack : list string) : string + list string :=
  if PyStr.startswith "/" name then
    let style_name := PyStr.strip (PyStr.drop 1 name) in
    if PyStr.truthy style_name then
      match pop_style (normalize style_name) stack with
      | Some stack' => inr stack'
      | None =>
          inl ("closing tag '" ++ tag_markup name parameters ++ "' at position "
               ++ decimal position ++ " doesn't match any open tag")%string
      end
    else
      match stack with
      | _ :: stack' => inr stack'
      | [] =>
          inl ("closing tag '[/]' at position " ++ decimal position
               ++ " has nothing to close")%string
      end
  else inr (normalize name :: stack).

(** The text from [position] on, of which the first [skip] characters
    belong to a tag already read. *)
Fixpoint scan (s : string) (position skip : nat) (stack : list string) : option string :=
  match s with
  | EmptyString => None
  | String _ s' =>
      match skip with
      | S k => scan s' (S position) k stack
      | O =>
          let '(escapes, rest) := backslashes s in
          match tag_at rest with
          | None => scan s' (S position) 0 stack
          | Some (tag_text, _) =>
              let after := escapes + String.length tag_text + 1 in
              if Nat.odd escapes then scan s' (S position) after stack
              else
                let '(name, parameters) := partition tag_text EmptyString in
                match tag_step name parameters (position + escapes) stack with
                | inl msg => Some msg
                | inr stack' => scan s' (S position) after stack'
                end
          end
      end
  end.

(** The message of the MarkupError of a text, if it is not well-formed. *)
Definition render_error (markup : string) : option string := scan markup 0 0 [].

End RichMarkup.

(** ** A sample library and a sample system

    One instance of the library functions and of the outside of the
    program, on which the extractor can be run. *)

Module Sample.

(** A text written with single quotes where it has double quotes. *)
Fixpoint quoted (s : string) : string :=
  match s with
  | EmptyString => EmptyString
  | String c s' =>
      String (if Ascii.eqb c "'" then JsonReader.dquote else c) (quoted s')
  end.

(** [repr(s)] for a text without quotes, backslashes and control
    characters. *)
Definition repr (s : string) : string := "'" ++ s ++ "'".

(** The names that pydantic 2 refuses as field names: the members of
    BaseModel in the protected name spaces [model_validate] and
    [model_dump], [model_config], and the names that are parameters of
    [create_model] or special attributes of a class. *)
Definition refused_names : list string :=
  ["model_dump"; "model_dump_json"; "model_validate"; "model_validate_json";
   "model_validate_strings"; "model_config";
   "__base__"; "__config__"; "__validators__"; "__cls_kwargs__"; "__slots__";
   "__init__"; "__new__"; "__qualname__"; "__annotations__"; "__getattribute__"].

(** A refused name is an error; any other name that starts with an
    underscore is no field; every other name is a field. *)
Definition kind_of_name (n : string) (d : pytype * default) : name_kind :=
  if existsb (String.eqb n) refused_names then Refused
  else if PyStr.startswith "_" n then NotAField
  else IsField.

(** The error for the first name that is refused; the text for a member
    of BaseModel is the one of pydantic without the address of the
    member. *)
Definition refusal (model_name : string) (definitions : PyDict.dict (pytype * default))
  : exn :=
  match find (fun d => existsb (String.eqb (fst d)) refused_names) definitions with
  | Some (n, _) =>
      if PyStr.startswith "model_" n && negb (String.eqb n "model_config") then
        ValueError ("Field " ++ repr n ++ " conflicts with member <function BaseModel."
                    ++ n ++ "> of protected namespace " ++ repr n ++ ".")%string
      else Exception ("create_model() cannot take " ++ repr n)%string
  | None => Exception EmptyString
  end.

(** A number in JSON notation, and nothing else. *)
Definition number_of (s : string) : option json :=
  match JsonReader.read_number s with
  | Some (v, EmptyString) => Some v
  | _ => None
  end.

Definition plain_int (s : string) : option Z :=
  match number_of s with
  | Some (JInt z) => Some z
  | _ => None
  end.

Definition plain_float (s : string) : option pyfloat :=
  match number_of s with
  | Some (JInt z) => Some (float_of_Z z)
  | Some (JFloat f) => Some f
  | _ => None
  end.

Definition plain_bool (s : string) : option bool :=
  let l := PyStr.lower s in
  if existsb (String.eqb l) ["1"; "on"; "t"; "true"; "y"; "yes"] then Some true
  else if existsb (String.eqb l) ["0"; "off"; "f"; "false"; "n"; "no"] then Some false
  else None.

(** The integer a decimal is, for a decimal that is a binary64 value
    itself: without fractional part and within 64 bits. *)
Definition decimal_to_int (f : pyfloat) : not_an_int + Z :=
  match f with
  | Inf _ | NaN => inl NotFinite
  | Fin neg m e =>
      let mz := Z.of_N m in
      let sign := (if neg then -1 else 1)%Z in
      if (0 <=? e)%Z then
        let z := (sign * mz * 10 ^ e)%Z in
        if ((- 2 ^ 63 <? z) && (z <? 2 ^ 63))%Z then inr z else inl OutOfRange
      else if (mz mod 10 ^ (- e) =? 0)%Z then
        let z := (sign * (mz / 10 ^ (- e)))%Z in
        if ((- 2 ^ 63 <? z) && (z <? 2 ^ 63))%Z then inr z else inl OutOfRange
      else inl Fractional
  end.

(** The first line of the text of a ValidationError. *)
Definition validation_error_text (errs : list error_type) : string :=
  RichMarkup.decimal (List.length errs) ++ " validation error for EntitiesList".

(** Rows are lines, cells are separated by commas. *)
Definition plain_rows (contents : string) : exn + list (list string) :=
  inr (map (PyStr.split ",") (PyStr.split newline contents)).

Definition library : Library := {|
  field_name_kind := kind_of_name;
  create_model_error := refusal;
  json_loads := JsonReader.loads;
  str_as_int := plain_int;
  str_as_float := plain_float;
  str_as_bool := plain_bool;
  float_to_int := decimal_to_int;
  str_ValidationError := validation_error_text;
  rich_markup := RichMarkup.render_error;
  csv_reader := plain_rows;
  csv_wrong_fields := fun wrong => PyStr.join ", " (map repr wrong)
|}.

(** A server that knows three inputs and refuses every other one. *)
Definition answer (history : list chat_request) (req : chat_request) : exn + string :=
  if String.eqb (req_user req) "foo" then
    inr (quoted "{'Entities':[{'title':'Foo'}]}")
  else if String.eqb (req_user req) "bar" then
    inr (quoted "{'Entities':[{'title':'Bar'},{'title':'Baz'}]}")
  else if existsb (String.eqb "PNG") (req_images req) then
    inr (quoted "{'Entities':[{'title':'Scan'}]}")
  else inl (Exception "connection refused").

(** The error of opening a file that does not exist. *)
Definition no_such_file (path : string) : exn :=
  OSError ("[Errno 2] No such file or directory: " ++ repr path)%string.

Definition read_file (path : string) : exn + string :=
  if String.eqb path "units.txt" then inr "foo,,bar,,"
  else inl (no_such_file path).

Definition read_image (path : string) : exn + string :=
  if String.eqb path "scans/page.png" then inr "PNG"
  else inl (no_such_file path).

Definition make_directory (path : string) : option exn :=
  if String.eqb path "/locked"
  then Some (PermissionError ("[Errno 13] Permission denied: " ++ repr path)%string)
  else None.

Definition system : System := {|
  client_chat := answer;
  open_read := read_file;
  open_read_bytes := read_image;
  os_makedirs := make_directory;
  open_write := fun _ => None
|}.

Definition extractor : DynamicExtractor := {|
  host := "http://localhost:11434/";
  text_model := "llama3";
  vision_model := "llama3.2-vision"
|}.

Definition empty_world : World := mkWorld [] [] [].

Definition title_only : list field := [Field "title" "str" false].

Definition title_and_note : list field :=
  [Field "title" "str" false; Field "note" "int" true].

End Sample.

(** ** Notions used in the statements *)

(** Does the character [c] occur in [p]? *)
Fixpoint occurs (c : ascii) (p : string) : bool :=
  match p with
  | EmptyString => false
  | String a p' => Ascii.eqb a c || occurs c p'
  end.

(** The kind string ["list(X)"]. *)
Definition list_of (x : string) : string := "list(" ++ x ++ ")".

(** The names of the four primitives. *)
Definition recognized (x : string) : bool :=
  existsb (String.eqb x) ["str"; "int"; "float"; "bool"].

(** What [get_dynamic_model] stores for a field definition. *)
Definition definition_of (f : field) : pytype * default :=
  (field_type (type f), default_value f).

Definition add_field (model_fields : PyDict.dict (pytype * default)) (f : field) :=
  PyDict.set (name f) (definition_of f) model_fields.

(** The names of a list in the order of their first occurrence, each once. *)
Definition first_occurrences (names : list string) : list string :=
  fold_left
    (fun seen n => if existsb (String.eqb n) seen then seen else seen ++ [n])
    names [].


(** The last field definition with the name [n]. *)
Definition last_named (n : string) (fields : list field) : option field :=
  find (fun f => String.eqb (name f) n) (rev fields).

(** Every definition of the dict is taken as a field by [create_model]. *)
Definition accepted (lib : Library) (definitions : PyDict.dict (pytype * default)) : Prop :=
  forall d, In d definitions -> field_name_kind lib (fst d) (snd d) = IsField.



(** The world after some more messages on the console. *)
Definition printed (w : World) (msgs : list message) : World :=
  mkWorld (console w ++ msgs) (requests w) (fs w).








(** Errors of a response that is JSON: at least one, none of them
    [json_invalid]. *)
Definition schema_errors (errs : list error_type) : Prop :=
  errs <> [] /\ Forall (fun e => e <> json_invalid) errs.

(** The world after some more requests to the model server. *)
Definition sent (w : World) (reqs : list chat_request) : World :=
  mkWorld (console w) (requests w ++ reqs) (fs w).

(** The request [process_text] makes for a text, with the model built
    from the fields. *)
Definition text_request (self : DynamicExtractor) (fields : list field) (Entity : Model)
    (text : string) : chat_request :=
  ChatRequest (text_model self) (text_prompt fields) text [] Entity 0.

(** The request [process_image] makes for the content of an image file. *)
Definition image_request (self : DynamicExtractor) (fields : list field) (Entity : Model)
    (img : string) : chat_request :=
  ChatRequest (vision_model self) (image_prompt fields) EmptyString [img] Entity 0.

(** A blank unit: empty, or white space only. *)
Fixpoint blank (s : string) : bool :=
  match s with
  | EmptyString => true
  | String c s' => PyStr.isspace c && blank s'
  end.

(** The directory [export_results] asks for. *)
Definition export_dir (output_file : string) : string :=
  if PyStr.truthy (OsPath.dirname output_file) then OsPath.dirname output_file else ".".

(** The three [except] clauses of [export_results]. *)
Definition export_clauses (lib : Library) (output_file : string)
  : list (exn_class * (exn -> M unit)) :=
  [ (CPermissionError, fun _ => console_print lib (PermissionDenied output_file));
    (COSError, fun e => console_print lib (OSErrorDuringExport e));
    (CException, fun e => console_print lib (UnexpectedErrorDuringExport e)) ].

(** Printing a message from a world: the message is added to the console,
    or, when its text is not well-formed markup, the MarkupError is raised
    and the world stays as it is. *)
Definition shown {A} (lib : Library) (m : message) (a : A) (w : World)
  : (exn + A) * World :=
  match markup_error lib m with
  | None => (inr a, printed w [m])
  | Some msg => (inl (MarkupError msg), w)
  end.

(** The units are put through [process_text] one after the other, each
    from the world the one before left, and the results are joined in
    that order. *)
Inductive processed_in_order (lib : Library) (sys : System) (self : DynamicExtractor)
    (fields : list field)
  : list string -> World -> list result -> World -> Prop :=
| processed_none w : processed_in_order lib sys self fields [] w [] w
| processed_next u rest w rs w1 rs' w2 :
    process_text lib sys self u fields w = (inr rs, w1) ->
    processed_in_order lib sys self fields rest w1 rs' w2 ->
    processed_in_order lib sys self fields (u :: rest) w (rs ++ rs') w2.

(** ** Further notions: what an export leaves behind *)

(** The world after some more events on the file system. *)
Definition did (w : World) (evs : list fs_event) : World :=
  mkWorld (console w) (requests w) (fs w ++ evs).

(** What the [except] clauses of [export_results] print for an exception. *)
Definition export_message (output_file : string) (e : exn) : message :=
  match e with
  | PermissionError _ => PermissionDenied output_file
  | OSError _ => OSErrorDuringExport e
  | _ => UnexpectedErrorDuringExport e
  end.

(** The columns of a CSV export: [input], then the keys of the first
    response. *)
Definition csv_fieldnames (first : result) : list string :=
  "input" :: PyDict.keys (response first).

(** The cell of a result in a column: the value of the response under that
    key when it has one; otherwise the input context in the column
    [input], and the empty string in any other column. *)
Definition csv_cell (item : result) (k : string) : pyval :=
  match PyDict.get k (response item) with
  | Some v => v
  | None => if String.eqb k "input" then VStr (input item) else VStr EmptyString
  end.

(** A result that can be written under the columns: every key of its
    response is a column. *)
Definition fits (fieldnames : list string) (item : result) : Prop :=
  forall k, In k (PyDict.keys (response item)) -> In k fieldnames.

(** The response is a proper dict: no key twice. *)
Definition proper (item : result) : Prop := NoDup (PyDict.keys (response item)).

(** The three events with which a CSV export starts. *)
Definition csv_start (output_file : string) (first : result) : list fs_event :=
  [Makedirs (export_dir output_file);
   OpenedForWriting output_file;
   CsvRowWritten output_file (map VStr (csv_fieldnames first))].

Definition csv_row (output_file : string) (fieldnames : list string) (item : result)
  : fs_event :=
  CsvRowWritten output_file (map (csv_cell item) fieldnames).

(** ** More samples *)

Module MoreSamples.

(** Three lines: [foo], a blank, [bar]. *)
Definition three_rows : string :=
  ("foo" ++ newline ++ " " ++ newline ++ "bar")%string.

(** The sample system with a file [rows.CSV] of these three lines. *)
Definition system_with_rows : System := {|
  client_chat := Sample.answer;
  open_read := fun path =>
    if String.eqb path "rows.CSV" then inr three_rows else Sample.read_file path;
  open_read_bytes := Sample.read_image;
  os_makedirs := Sample.make_directory;
  open_write := fun _ => None
|}.

End MoreSamples.

(** The row [export_results] hands to the CSV writer for a result. *)
Definition row_of (item : result) : PyDict.dict pyval :=
  PyDict.update [("input", VStr (input item))] (response item).


(** ** The rest of the extractor: bulk images and display *)

(** More of [str] and [os.path]. *)
Module PyText.

(** [s.endswith(suffix)]. *)
Fixpoint endswith (suffix s : string) : bool :=
  if String.eqb suffix s then true
  else match s with
       | EmptyString => false
       | String _ s' => endswith suffix s'
       end.

(** [s.endswith(suffixes)] for a tuple of suffixes. *)
Definition endswith_any (suffixes : list string) (s : string) : bool :=
  existsb (fun suffix => endswith suffix s) suffixes.

(** [s.replace(a, b)] for single characters. *)
Fixpoint replace_char (a b : ascii) (s : string) : string :=
  match s with
  | EmptyString => EmptyString
  | String c s' => String (if Ascii.eqb c a then b else c) (replace_char a b s')
  end.

(** [os.path.join(a, b)] (POSIX flavour). *)
Definition join (a b : string) : string :=
  if PyStr.startswith "/" b then b
  else if negb (PyStr.truthy a) || endswith "/" a then (a ++ b)%string
  else (a ++ "/" ++ b)%string.

End PyText.

(** A rich table: its title, its columns (header and style) and its rows. *)
Record Table : Type := mkTable {
  table_title : string;
  table_columns : list (string * string);
  table_rows : list (list string)
}.

Definition add_column (t : Table) (header style : string) : Table :=
  mkTable (table_title t) (table_columns t ++ [(header, style)]) (table_rows t).

Definition add_row (t : Table) (cells : list string) : Table :=
  mkTable (table_title t) (table_columns t) (table_rows t ++ [cells]).

(** What the program prints besides the messages above: the error of
    [process_bulk_images], the two renderings and the error of
    [display_results], and what the command line prints and asks. *)
Inductive notice : Type :=
| ErrorProcessingBulkImages (e : exn)
| JsonPanel (results : list result)
| TablePrinted (t : Table)
| ErrorDisplayingResults (e : exn)
| Prompt (text : string)
| AtLeastOneField
| AvailableTypes
| TypeOption (idx : nat) (t : string)
| InvalidOptional
| NoInputSpecified
| NoResultsToShow
| UnexpectedError (e : exn).

(** More of the outside of the program: the names in a directory, the
    working directory, the environment, and four library functions taken
    as given: [str] of a float or of a list, [str.title], [int] of a
    string ([None] for a ValueError), and [repr] of a string. *)
Record Host : Type := {
  os_listdir : string -> exn + list string;
  os_getcwd : string;
  os_getenv : string -> option string;
  str_of_other : pyval -> string;
  str_title : string -> string;
  int_of_str : string -> option Z;
  py_repr : string -> string
}.

(** The texts of a table that rich reads as console markup when it prints
    the table, in the order in which it comes to them: column by column,
    the header and then the cells of the column from the first row to the
    last.  A row without a cell in a column has the empty text there. *)
Definition table_texts (t : Table) : list string :=
  flat_map
    (fun column : nat * (string * string) =>
       fst (snd column) :: map (fun row => nth (fst column) row EmptyString) (table_rows t))
    (combine (seq 0 (List.length (table_columns t))) (table_columns t)).

(** The first error among texts. *)
Fixpoint first_error (lib : Library) (texts : list string) : option string :=
  match texts with
  | [] => None
  | text :: rest =>
      match rich_markup lib text with
      | Some msg => Some msg
      | None => first_error lib rest
      end
  end.

(** The message of the MarkupError that printing a notice raises, if it
    raises one.  The three errors are printed with the text of the
    exception and a table is printed with its headers and cells, all of
    which are read as console markup.  The other notices are texts fixed
    in the source, which are well-formed, the panel of the JSON display,
    whose content is not read as markup, and the prompts of [input]. *)
Definition notice_error (lib : Library) (n : notice) : option string :=
  match n with
  | ErrorProcessingBulkImages e =>
      rich_markup lib ("[bold red]Error processing bulk images:[/] " ++ str_exn lib e)
  | ErrorDisplayingResults e =>
      rich_markup lib ("[bold red]Error displaying results:[/] " ++ str_exn lib e)
  | UnexpectedError e =>
      rich_markup lib ("[bold red]An unexpected error occurred: " ++ str_exn lib e ++ "[/]")
  | TablePrinted t => first_error lib (table_texts t)
  | _ => None
  end.

(** The state of a run: the world of the operations above, the notices
    printed, in order, and the lines still to be read from the standard
    input.  The order between the messages of the world and the notices is
    not kept. *)
Record Session : Type := mkSession {
  world : World;
  notices : list notice;
  stdin : list string
}.

Module Prog.

(** Computations over a session. *)
Definition T (A : Type) : Type := Session -> (exn + A) * Session.

Definition ret {A} (a : A) : T A := fun s => (inr a, s).

Definition raise {A} (e : exn) : T A := fun s => (inl e, s).

Definition bind {A B} (m : T A) (k : A -> T B) : T B :=
  fun s =>
    match m s with
    | (inr a, s') => k a s'
    | (inl e, s') => (inl e, s')
    end.

Definition lift {A} (r : exn + A) : T A :=
  match r with
  | inr a => ret a
  | inl e => raise e
  end.

(** An operation on the world, run in the session. *)
Definition in_world {A} (m : M A) : T A :=
  fun s =>
    match m (world s) with
    | (r, w') => (r, mkSession w' (notices s) (stdin s))
    end.

(** Printing a text that is fixed in the source, or that is not read as
    console markup. *)
Definition notify (n : notice) : T unit :=
  fun s => (inr tt, mkSession (world s) (notices s ++ [n]) (stdin s)).

(** [console.print] of a notice with a text that is read as console
    markup: nothing is printed when that fails. *)
Definition print (lib : Library) (n : notice) : T unit :=
  fun s =>
    match notice_error lib n with
    | Some msg => (inl (MarkupError msg), s)
    | None => (inr tt, mkSession (world s) (notices s ++ [n]) (stdin s))
    end.

Fixpoint find_handler {A} (clauses : list (exn_class * (exn -> T A))) (e : exn)
  : option (T A) :=
  match clauses with
  | [] => None
  | (c, h) :: rest => if isinstance e c then Some (h e) else find_handler rest e
  end.

Definition try_except {A} (body : T A) (clauses : list (exn_class * (exn -> T A))) : T A :=
  fun s =>
    match body s with
    | (inr a, s') => (inr a, s')
    | (inl e, s') =>
        match find_handler clauses e with
        | Some h => h s'
        | None => (inl e, s')
        end
    end.

Fixpoint for_extend {A B} (items : list A) (body : A -> T (list B)) (results : list B)
  : T (list B) :=
  match items with
  | [] => ret results
  | x :: rest => bind (body x) (fun r => for_extend rest body (results ++ r))
  end.

Fixpoint for_each {A} (items : list A) (body : A -> T unit) : T unit :=
  match items with
  | [] => ret tt
  | x :: rest => bind (body x) (fun _ => for_each rest body)
  end.

End Prog.

Declare Scope prog_scope.
Delimit Scope prog_scope with prog.
Notation "x <- m ;; k" := (Prog.bind m (fun x => k))
  (at level 61, m at next level, right associativity) : prog_scope.
Notation "m ;; k" := (Prog.bind m (fun _ => k))
  (at level 61, right associativity) : prog_scope.

(** The suffixes of the names [process_bulk_images] takes for images. *)
Definition image_suffixes : list string := [".png"; ".jpg"; ".jpeg"; ".gif"; ".bmp"].

(** [str(value)]. *)
Definition py_str (host : Host) (v : pyval) : string :=
  match v with
  | VStr s => s
  | VNone => "None"
  | VBool true => "True"
  | VBool false => "False"
  | VInt z => DecimalString.NilZero.string_of_int (Z.to_int z)
  | _ => str_of_other host v
  end.

Section MoreOfTheExtractor.

Variable host : Host.
Variable lib : Library.
Variable sys : System.
Variable self : DynamicExtractor.

Local Open Scope prog_scope.

Definition process_bulk_images (folder_path : string) (model_fields : list field)
  : Prog.T (list result) :=
  let results := [] in
  Prog.try_except
    (names <- Prog.lift (os_listdir host folder_path) ;;
     let image_files :=
       filter (fun filename => PyText.endswith_any image_suffixes (PyStr.lower filename))
         names in
     Prog.for_extend image_files
       (fun filename =>
          let image_path := PyText.join folder_path filename in
          Prog.in_world (process_image lib sys self image_path model_fields))
       results)
    [ (CException,
       fun e => Prog.print lib (ErrorProcessingBulkImages e) ;; Prog.ret []) ].

Definition display_results (results : list result) (display_type : string) : Prog.T unit :=
  Prog.try_except
    (if String.eqb display_type "json" then
       Prog.notify (JsonPanel results)
     else if String.eqb display_type "table" then
       let table := mkTable "Extracted Data" [] [] in
       let table :=
         match results with
         | [] => table
         | first :: _ =>
             let response_keys := PyDict.keys (response first) in
             let table := add_column table "Input" "cyan" in
             let table :=
               fold_left
                 (fun t key =>
                    add_column t
                      (str_title host (PyText.replace_char "_" " " key)) "magenta")
                 response_keys table in
             fold_left
               (fun t item =>
                  add_row t
                    (input item
                     :: map (fun key =>
                               py_str host
                                 (match PyDict.get key (response item) with
                                  | Some v => v
                                  | None => VStr "N/A"
                                  end))
                          response_keys))
               results table
         end in
       Prog.print lib (TablePrinted table)
     else Prog.ret tt)
    [ (CException, fun e => Prog.print lib (ErrorDisplayingResults e)) ].

End MoreOfTheExtractor.

(** The names are put through [process_image] one after the other, each
    under its path in the folder and from the world the one before left,
    and the results are joined in that order. *)
Inductive images_in_order (lib : Library) (sys : System) (self : DynamicExtractor)
    (folder_path : string) (fields : list field)
  : list string -> World -> list result -> World -> Prop :=
| images_none w : images_in_order lib sys self folder_path fields [] w [] w
| images_next filename rest w rs w1 rs' w2 :
    process_image lib sys self (PyText.join folder_path filename) fields w = (inr rs, w1) ->
    images_in_order lib sys self folder_path fields rest w1 rs' w2 ->
    images_in_order lib sys self folder_path fields (filename :: rest) w (rs ++ rs') w2.

(** Is the name taken for an image? *)
Definition is_image (filename : string) : bool :=
  PyText.endswith_any image_suffixes (PyStr.lower filename).

Module SampleHost.

(** [str.title] for texts in ASCII: the first letter of each run of
    letters in upper case, the others in lower case. *)
Definition is_letter (c : ascii) : bool :=
  let n := nat_of_ascii c in
  (((65 <=? n) && (n <=? 90)) || ((97 <=? n) && (n <=? 122)))%nat.

Definition upper_char (c : ascii) : ascii :=
  let n := nat_of_ascii c in
  if ((97 <=? n) && (n <=? 122))%nat then ascii_of_nat (n - 32) else c.

Fixpoint title_from (in_word : bool) (s : string) : string :=
  match s with
  | EmptyString => EmptyString
  | String c s' =>
      String (if is_letter c
              then if in_word then PyStr.lower_char c else upper_char c
              else c)
        (title_from (is_letter c) s')
  end.

Definition list_folder (path : string) : exn + list string :=
  if String.eqb path "scans" then inr ["page.png"; "notes.txt"; "COVER.JPG"]
  else inl (Sample.no_such_file path).

Definition host : Host := {|
  os_listdir := list_folder;
  os_getcwd := "/home/user";
  os_getenv := fun _ => None;
  str_of_other := fun _ => "?";
  str_title := title_from false;
  int_of_str := Sample.plain_int;
  py_repr := Sample.repr
|}.

Definition start (lines : list string) : Session :=
  mkSession Sample.empty_world [] lines.

End SampleHost.

(** The header of the column of a response key in the table. *)
Definition column_header (host : Host) (key : string) : string :=
  str_title host (PyText.replace_char "_" " " key).

(** The cell of a result under a response key in the table: [str] of the
    value, and [N/A] where the response has no such key. *)
Definition table_cell (host : Host) (item : result) (key : string) : string :=
  match PyDict.get key (response item) with
  | Some v => py_str host v
  | None => "N/A"
  end.

(** ** The command line (cli.py) *)

(** [DynamicExtractor(model, vision_model, host)]: an argument that is
    given and not empty is kept; otherwise the variable of the environment
    is used, and the default when it is not set. *)
Definition or_getenv (host : Host) (arg : option string) (key default : string) : string :=
  match arg with
  | Some v => if PyStr.truthy v then v else
                match os_getenv host key with Some e => e | None => default end
  | None => match os_getenv host key with Some e => e | None => default end
  end.

Definition DynamicExtractor_init (h : Host) (model vision_model host_arg : option string)
  : DynamicExtractor :=
  {| host := or_getenv h host_arg "OLLAMA_HOST" "http://localhost:11434/";
     text_model := or_getenv h model "TEXT_MODEL" "llama3";
     vision_model := or_getenv h vision_model "VISION_MODEL" "llama3.2-vision" |}.

(** The parsed arguments. *)
Record Args : Type := {
  arg_text : option string;
  arg_image : option string;
  arg_bulk_text : option string;
  arg_bulk_images : option string;
  arg_display : string;
  arg_export : string
}.

Definition type_options : list string :=
  ["str"; "int"; "float"; "list(str)"; "list(int)"; "list(float)"; "list(bool)"; "bool"].

(** [l[i]]: an index below zero counts from the end. *)
Definition py_index {A} (l : list A) (i : Z) : exn + A :=
  let n := Z.of_nat (List.length l) in
  let at_ (k : Z) :=
    match nth_error l (Z.to_nat k) with
    | Some x => inr x
    | None => inl (IndexError "list index out of range")
    end in
  if ((0 <=? i) && (i <? n))%Z then at_ i
  else if ((- n <=? i) && (i <? 0))%Z then at_ (n + i)%Z
  else inl (IndexError "list index out of range").

(** [enumerate(l, start)]. *)
Fixpoint enumerate {A} (start : nat) (l : list A) : list (nat * A) :=
  match l with
  | [] => []
  | x :: l' => (start, x) :: enumerate (S start) l'
  end.

(** The value of an option of the command line that is given and not
    empty. *)
Definition given (o : option string) : option string :=
  match o with
  | Some v => if PyStr.truthy v then Some v else None
  | None => None
  end.

(** The exception that stands for a loop let go on after the end of the
    input; it does not occur when the loops are given as many rounds as
    there are lines. *)
Definition out_of_rounds : exn := Exception "more rounds than lines".

Section CommandLine.

Variable host : Host.
Variable lib : Library.
Variable sys : System.

Local Open Scope prog_scope.

(** [input(prompt)]: the prompt is written, and the next line is read;
    at the end of the input it raises EOFError. *)
Definition input_ (prompt : string) : Prog.T string :=
  fun s =>
    match stdin s with
    | [] =>
        (inl (Exception "EOF when reading a line"),
         mkSession (world s) (notices s ++ [Prompt prompt]) [])
    | line :: rest =>
        (inr line, mkSession (world s) (notices s ++ [Prompt prompt]) rest)
    end.

(** [int(text)]. *)
Definition int_ (text : string) : Prog.T Z :=
  match int_of_str host text with
  | Some z => Prog.ret z
  | None =>
      Prog.raise
        (ValueError ("invalid literal for int() with base 10: " ++ py_repr host text)%string)
  end.

(** [while optional_input not in ['y', 'n']: ...], for at most [rounds]
    further rounds. *)
Fixpoint ask_optional (rounds : nat) (optional_input : string) : Prog.T string :=
  if existsb (String.eqb optional_input) ["y"; "n"] then Prog.ret optional_input
  else
    Prog.notify InvalidOptional ;;
    line <- input_ "Is this field optional? (y/n): " ;;
    match rounds with
    | O => Prog.raise out_of_rounds
    | S n => ask_optional n (PyStr.lower line)
    end.

(** The loop [while True: ...] of [main] that asks for the fields, for at
    most [rounds] further rounds. *)
Fixpoint define_fields (rounds : nat) (model_fields : list field) : Prog.T (list field) :=
  let again (model_fields : list field) : Prog.T (list field) :=
    match rounds with
    | O => Prog.raise out_of_rounds
    | S n => define_fields n model_fields
    end in
  name <- input_ "Enter field name (or press Enter to finish): " ;;
  if negb (PyStr.truthy name) then
    match model_fields with
    | [] => Prog.notify AtLeastOneField ;; again model_fields
    | _ => Prog.ret model_fields
    end
  else
    Prog.notify AvailableTypes ;;
    Prog.for_each (enumerate 1 type_options)
      (fun it => Prog.notify (TypeOption (fst it) (snd it))) ;;
    choice <- input_ "Choose field type (enter number): " ;;
    number <- int_ choice ;;
    let type_choice := (number - 1)%Z in
    field_type <- Prog.lift (py_index type_options type_choice) ;;
    line <- input_ "Is this field optional? (y/n): " ;;
    optional_input <- ask_optional rounds (PyStr.lower line) ;;
    let optional := String.eqb optional_input "y" in
    again (model_fields ++ [Field name field_type optional]).

(** The export of [main]: to [extraction_results] with the format as its
    extension, in the working directory. *)
Definition export_from_main (results : list result) (export : string) : Prog.T unit :=
  let default_json :=
    PyText.join (os_getcwd host) ("extraction_results." ++ export)%string in
  Prog.in_world (export_results lib sys results default_json).

Definition main (args : Args) : Prog.T unit :=
  let extractor := DynamicExtractor_init host None None None in
  Prog.try_except
    (model_fields <- (fun s => define_fields (List.length (stdin s)) [] s) ;;
     outcome <-
       match given (arg_text args) with
       | Some text =>
           r <- Prog.in_world (process_text lib sys extractor text model_fields) ;;
           Prog.ret (Some r)
       | None =>
       match given (arg_image args) with
       | Some image =>
           r <- Prog.in_world (process_image lib sys extractor image model_fields) ;;
           Prog.ret (Some r)
       | None =>
       match given (arg_bulk_text args) with
       | Some bulk_text =>
           r <- Prog.in_world
                  (process_bulk_text lib sys extractor bulk_text model_fields) ;;
           Prog.ret (Some r)
       | None =>
       match given (arg_bulk_images args) with
       | Some bulk_images =>
           r <- process_bulk_images host lib sys extractor bulk_images model_fields ;;
           Prog.ret (Some r)
       | None => Prog.notify NoInputSpecified ;; Prog.ret None
       end end end end ;;
     match outcome with
     | None => Prog.ret tt
     | Some [] => Prog.notify NoResultsToShow
     | Some results =>
         (if negb (String.eqb (arg_display args) "none")
          then display_results host lib results (arg_display args)
          else Prog.ret tt) ;;
         (if negb (String.eqb (arg_export args) "none")
          then export_from_main results (arg_export args)
          else Prog.ret tt)
     end)
    [ (CException, fun e => Prog.print lib (UnexpectedError e)) ].

End CommandLine.

(** The type each of the eight kinds names. *)
Definition named_type (kind : string) : option pytype :=
  if String.eqb kind "str" then Some (TPrim Pstr)
  else if String.eqb kind "int" then Some (TPrim Pint)
  else if String.eqb kind "float" then Some (TPrim Pfloat)
  else if String.eqb kind "bool" then Some (TPrim Pbool)
  else if String.eqb kind "list(str)" then Some (TList Pstr)
  else if String.eqb kind "list(int)" then Some (TList Pint)
  else if String.eqb kind "list(float)" then Some (TList Pfloat)
  else if String.eqb kind "list(bool)" then Some (TList Pbool)
  else None.

(** A computation run from [s] ends in a value and a session that satisfy
    [Q], or in an exception and a session that satisfy [E]. *)
Definition holds {A} (m : Prog.T A) (s : Session)
    (Q : A -> Session -> Prop) (E : exn -> Session -> Prop) : Prop :=
  match m s with
  | (inr a, s') => Q a s'
  | (inl e, s') => E e s'
  end.

(** A field as the dialogue of the command line makes them: a name that is
    not empty and one of the eight kinds. *)
Definition from_dialogue (f : field) : Prop :=
  name f <> EmptyString /\ In (type f) type_options.

(** One more round of the loop of the fields, if there is one left. *)
Definition again (host : Host) (rounds : nat) (model_fields : list field)
  : Prog.T (list field) :=
  match rounds with
  | O => Prog.raise out_of_rounds
  | S n => define_fields host n model_fields
  end.



(** ** Samples with texts that are not well-formed markup *)

Module TaggedSamples.

(** A server that fails on the input [baz] with an error whose text holds
    a closing tag, and answers like the sample server otherwise. *)
Definition answer (history : list chat_request) (req : chat_request) : exn + string :=
  if String.eqb (req_user req) "baz"
  then inl (Exception "template error near [/INST]")
  else Sample.answer history req.

(** The sample system with this server and a file [tagged.txt] of three
    units. *)
Definition system : System := {|
  client_chat := answer;
  open_read := fun path =>
    if String.eqb path "tagged.txt" then inr "foo,,baz,,bar" else Sample.read_file path;
  open_read_bytes := Sample.read_image;
  os_makedirs := Sample.make_directory;
  open_write := fun _ => None
|}.

End TaggedSamples.

(** The last message of a branch of [export_results], printed inside the
    [try]: when its text is not well-formed markup, the MarkupError is
    caught by [except Exception] and printed in its turn as an unexpected
    error. *)
Definition ended (lib : Library) (m : message) (w : World) : (exn + unit) * World :=
  match markup_error lib m with
  | None => (inr tt, printed w [m])
  | Some msg => shown lib (UnexpectedErrorDuringExport (MarkupError msg)) tt w
  end.

(** The error of [writerow] for a row with keys that are not columns. *)
Definition wrong_fields_error (lib : Library) (fieldnames : list string) (item : result)
  : exn :=
  ValueError ("dict contains fields not in fieldnames: "
              ++ csv_wrong_fields lib (wrong_fields fieldnames (row_of item)))%string.

(** Printing a notice from a session: the notice is added, or, when one
    of its texts is not well-formed markup, the MarkupError is raised and
    the session stays as it is. *)
Definition noticed {A} (lib : Library) (n : notice) (a : A) (s : Session)
  : (exn + A) * Session :=
  match notice_error lib n with
  | None => (inr a, mkSession (world s) (notices s ++ [n]) (stdin s))
  | Some msg => (inl (MarkupError msg), s)
  end.

(** The table of [display_results]: no column and no row for no results;
    otherwise the column [Input] and one column for each key of the first
    response, and one row for each result. *)
Definition results_table (host : Host) (results : list result) : Table :=
  match results with
  | [] => mkTable "Extracted Data" [] []
  | first :: _ =>
      let response_keys := PyDict.keys (response first) in
      mkTable "Extracted Data"
        (("Input", "cyan")
         :: map (fun key => (column_header host key, "magenta")) response_keys)
        (map (fun item => input item :: map (table_cell host item) response_keys) results)
  end.

(** A computation keeps a relation between the world before and the world
    after, whether it returns or raises. *)
Definition kept {A} (R : World -> World -> Prop) (m : Prog.T A) : Prop :=
  forall s r s', m s = (r, s') -> R (world s) (world s').

(** The same file system. *)
Definition same_fs (w w' : World) : Prop := fs w' = fs w.

(** * Properties *)

(** ** Running the model on small inputs *)

Example split_foo_bar :
  PyStr.split ",," "foo,,bar,," = ["foo"; "bar"; EmptyString].
Proof. reflexivity. Qed.

Example split_overlap : PyStr.split ",," "a,,,b" = ["a"; ",b"].
Proof. reflexivity. Qed.

Example splitext_samples :
  OsPath.splitext "data/units.TXT" = ("data/units", ".TXT")
  /\ OsPath.splitext ".bashrc" = (".bashrc", EmptyString)
  /\ OsPath.splitext "a.b/c" = ("a.b/c", EmptyString)
  /\ OsPath.splitext "x.tar.gz" = ("x.tar", ".gz").
Proof. repeat split; reflexivity. Qed.

Example dirname_samples :
  OsPath.dirname "/a/b/c.csv" = "/a/b"
  /\ OsPath.dirname "c.csv" = EmptyString
  /\ OsPath.dirname "/c.csv" = "/".
Proof. repeat split; reflexivity. Qed.

Example loads_sample :
  JsonReader.loads (Sample.quoted "{'a': [1, -2.50e3, true, null], 'b': {}}")
  = Some (JObj [("a", JArr [JInt 1; JFloat (Fin true 250 1); JBool true; JNull]);
                ("b", JObj [])]).
Proof. vm_compute. reflexivity. Qed.

Example loads_rejects :
  JsonReader.loads (Sample.quoted "{'a':1,}") = None
  /\ JsonReader.loads "[01]" = None
  /\ JsonReader.loads "{" = None.
Proof. repeat split; vm_compute; reflexivity. Qed.

(** ** Strings *)

Section StringFacts.

Lemma startswith_snoc p : forall c x,
  occurs c p = false ->
  PyStr.startswith p (x ++ String c EmptyString) = PyStr.startswith p x.
Proof.
  induction p as [|a p IH]; intros c x Hc; [reflexivity|].
  simpl in Hc. apply orb_false_iff in Hc. destruct Hc as [Hac Hp].
  destruct x as [|b x]; simpl.
  - rewrite Hac. reflexivity.
  - destruct (Ascii.eqb a b); [apply IH; assumption | reflexivity].
Qed.

Lemma contains_snoc p c : forall x,
  occurs c p = false ->
  PyStr.contains p (x ++ String c EmptyString) = PyStr.contains p x.
Proof.
  intros x Hc. induction x as [|b x IH].
  - pose proof (startswith_snoc p c EmptyString Hc) as H. simpl in H.
    simpl. rewrite H.
    destruct p; simpl; reflexivity.
  - pose proof (startswith_snoc p c (String b x) Hc) as H.
    change (String b x ++ String c EmptyString)%string
      with (String b (x ++ String c EmptyString)%string) in *.
    cbn [PyStr.contains]. rewrite H, IH. reflexivity.
Qed.

Lemma contains_startswith p s : PyStr.startswith p s = true -> PyStr.contains p s = true.
Proof. intros H. destruct s; simpl; rewrite H; reflexivity. Qed.

End StringFacts.

(** ** The types of the fields *)

Lemma contains_in_list_of p x :
  occurs ")" p = false ->
  In p ["int"; "float"; "bool"] ->
  PyStr.contains p (list_of x) = PyStr.contains p x.
Proof.
  intros Hc Hp. unfold list_of.
  assert (Hrest : PyStr.contains p (x ++ ")")%string = PyStr.contains p x)
    by (apply contains_snoc; assumption).
  simpl in Hp.
  destruct Hp as [<-|[<-|[<-|[]]]]; cbn -[append]; exact Hrest.
Qed.

Lemma field_type_list_of x : field_type (list_of x) = TList (inner_type x).
Proof.
  unfold field_type, inner_type.
  rewrite (contains_in_list_of "int"), (contains_in_list_of "float"),
    (contains_in_list_of "bool") by (simpl; auto).
  assert (Hl : PyStr.contains "list" (list_of x) = true)
    by (apply contains_startswith; reflexivity).
  rewrite Hl. reflexivity.
Qed.

(** C5, as stated, fails: ["list(point)"] names the unrecognized primitive
    [point] and resolves to a list of integers, and the unrecognized kind
    ["playlist"] resolves to a list of strings. *)
Lemma field_type_unrecognized_counterexample :
  (recognized "point" = false /\ field_type (list_of "point") <> TList Pstr)
  /\ (recognized "playlist" = false /\ field_type "playlist" <> TPrim Pstr).
Proof. repeat split; vm_compute; congruence. Qed.

(** C5, amended: a kind string other than ["int"], ["float"] and ["bool"]
    that does not contain ["list"] resolves to STRING; ["list(X)"] resolves
    to a list whose element type is INT when X contains ["int"], else FLOAT
    when X contains ["float"], else BOOL when X contains ["bool"], else
    STRING; so the four kinds list(str), list(int), list(float), list(bool)
    resolve to lists of the primitive they name. *)
Theorem field_type_resolution :
  (forall ty,
      ty <> "int" -> ty <> "float" -> ty <> "bool" ->
      PyStr.contains "list" ty = false ->
      field_type ty = TPrim Pstr)
  /\ (forall x,
         field_type (list_of x) =
         TList (if PyStr.contains "int" x then Pint
                else if PyStr.contains "float" x then Pfloat
                else if PyStr.contains "bool" x then Pbool
                else Pstr))
  /\ (forall x,
         PyStr.contains "int" x = false ->
         PyStr.contains "float" x = false ->
         PyStr.contains "bool" x = false ->
         field_type (list_of x) = TList Pstr)
  /\ (field_type (list_of "str") = TList Pstr
      /\ field_type (list_of "int") = TList Pint
      /\ field_type (list_of "float") = TList Pfloat
      /\ field_type (list_of "bool") = TList Pbool).
Proof.
  split; [|split; [|split]].
  - intros ty Hi Hf Hb Hl. unfold field_type.
    apply String.eqb_neq in Hi, Hf, Hb. rewrite Hi, Hf, Hb, Hl. reflexivity.
  - intros x. apply field_type_list_of.
  - intros x Hi Hf Hb. rewrite field_type_list_of. unfold inner_type.
    rewrite Hi, Hf, Hb. reflexivity.
  - repeat split; reflexivity.
Qed.

Lemma field_type_resolution_witness :
  field_type "date" = TPrim Pstr /\ field_type (list_of "date") = TList Pstr.
Proof.
  split.
  - apply (proj1 field_type_resolution); [discriminate | discriminate | discriminate | reflexivity].
  - apply (proj1 (proj2 (proj2 field_type_resolution))); reflexivity.
Defined.

(** ** Dictionaries *)

Section DictFacts.

Context {V : Type}.
Implicit Types (d : PyDict.dict V) (k n : string) (v : V).

Lemma get_set_same k v d : PyDict.get k (PyDict.set k v d) = Some v.
Proof.
  induction d as [|[k' v'] d IH]; simpl.
  - rewrite String.eqb_refl. reflexivity.
  - destruct (String.eqb k k') eqn:E; simpl.
    + rewrite String.eqb_refl. reflexivity.
    + rewrite E. exact IH.
Qed.

Lemma get_set_other k n v d :
  n <> k -> PyDict.get n (PyDict.set k v d) = PyDict.get n d.
Proof.
  intros Hn. apply String.eqb_neq in Hn.
  induction d as [|[k' v'] d IH]; simpl.
  - rewrite Hn. reflexivity.
  - destruct (String.eqb k k') eqn:E; simpl.
    + apply String.eqb_eq in E. subst k'. rewrite Hn. reflexivity.
    + rewrite IH. reflexivity.
Qed.

Lemma in_keys_set k n v d :
  In n (PyDict.keys (PyDict.set k v d)) <-> n = k \/ In n (PyDict.keys d).
Proof.
  unfold PyDict.keys.
  induction d as [|[k' v'] d IH]; simpl.
  - intuition.
  - destruct (String.eqb k k') eqn:E; simpl.
    + apply String.eqb_eq in E. subst k'. intuition.
    + rewrite IH. intuition.
Qed.

Lemma nodup_keys_set k v d :
  NoDup (PyDict.keys d) -> NoDup (PyDict.keys (PyDict.set k v d)).
Proof.
  unfold PyDict.keys.
  induction d as [|[k' v'] d IH]; simpl; intros Hd.
  - constructor; [intros [] | constructor].
  - inversion Hd as [|? ? Hnot Hd']; subst.
    destruct (String.eqb k k') eqn:E; simpl.
    + apply String.eqb_eq in E. subst k'. constructor; assumption.
    + constructor; [|apply IH; assumption].
      intros Hin. apply (in_keys_set k k' v d) in Hin.
      destruct Hin as [->|Hin]; [|contradiction].
      rewrite String.eqb_refl in E. discriminate.
Qed.

Lemma keys_set k v d :
  PyDict.keys (PyDict.set k v d) =
  if existsb (String.eqb k) (PyDict.keys d) then PyDict.keys d else PyDict.keys d ++ [k].
Proof.
  unfold PyDict.keys.
  induction d as [|[k' v'] d IH]; simpl; [reflexivity|].
  destruct (String.eqb k k') eqn:E; simpl.
  - apply String.eqb_eq in E. subst k'. reflexivity.
  - rewrite IH. destruct (existsb (String.eqb k) (map fst d)); reflexivity.
Qed.

Lemma get_none_not_in n d : PyDict.get n d = None <-> ~ In n (PyDict.keys d).
Proof.
  unfold PyDict.keys.
  induction d as [|[k' v'] d IH]; simpl.
  - intuition.
  - destruct (String.eqb n k') eqn:E.
    + apply String.eqb_eq in E. subst. split; [discriminate | intuition].
    + apply String.eqb_neq in E. rewrite IH. intuition congruence.
Qed.

Lemma get_in_keys n d : In n (PyDict.keys d) -> exists v, PyDict.get n d = Some v.
Proof.
  intros Hin. destruct (PyDict.get n d) eqn:E; [eauto|].
  apply get_none_not_in in E. contradiction.
Qed.

(** A dict with distinct keys gives each of its items back. *)
Lemma get_of_item n v d :
  NoDup (PyDict.keys d) -> In (n, v) d -> PyDict.get n d = Some v.
Proof.
  unfold PyDict.keys.
  induction d as [|[k' v'] d IH]; simpl; intros Hd Hin; [contradiction|].
  inversion Hd as [|? ? Hnot Hd']; subst.
  destruct Hin as [Heq|Hin].
  - inversion Heq; subst. rewrite String.eqb_refl. reflexivity.
  - destruct (String.eqb n k') eqn:E; [|apply IH; assumption].
    apply String.eqb_eq in E. subst k'.
    exfalso. apply Hnot. apply (in_map fst) in Hin. exact Hin.
Qed.

Lemma item_of_get n v d : PyDict.get n d = Some v -> In (n, v) d.
Proof.
  induction d as [|[k' v'] d IH]; simpl; [discriminate|].
  destruct (String.eqb n k') eqn:E; intros H.
  - apply String.eqb_eq in E. inversion H; subst. left. reflexivity.
  - right. apply IH. exact H.
Qed.

End DictFacts.

Lemma keys_filter_nodup {V} (p : string * V -> bool) (d : PyDict.dict V) :
  NoDup (PyDict.keys d) -> NoDup (PyDict.keys (filter p d)).
Proof.
  unfold PyDict.keys.
  induction d as [|[k v] d IH]; simpl; intros Hd; [constructor|].
  inversion Hd as [|? ? Hnot Hd']; subst.
  destruct (p (k, v)); simpl; [|apply IH; assumption].
  constructor; [|apply IH; assumption].
  intros Hin. apply Hnot. apply in_map_iff in Hin. destruct Hin as [[k' v'] [Hk Hin]].
  apply filter_In in Hin. destruct Hin as [Hin _].
  simpl in Hk. subst k'. apply (in_map fst) in Hin. exact Hin.
Qed.

Lemma get_filter {V} (p : string * V -> bool) (d : PyDict.dict V) n :
  NoDup (PyDict.keys d) ->
  PyDict.get n (filter p d) =
  match PyDict.get n d with
  | Some v => if p (n, v) then Some v else None
  | None => None
  end.
Proof.
  unfold PyDict.keys.
  induction d as [|[k v] d IH]; simpl; intros Hd; [reflexivity|].
  inversion Hd as [|? ? Hnot Hd']; subst.
  destruct (String.eqb n k) eqn:E.
  - apply String.eqb_eq in E. subst k.
    destruct (p (n, v)) eqn:Hp; simpl.
    + rewrite String.eqb_refl. reflexivity.
    + destruct (PyDict.get n (filter p d)) eqn:G; [|reflexivity].
      exfalso. apply Hnot. apply item_of_get in G. apply filter_In in G.
      destruct G as [G _]. apply (in_map fst) in G. exact G.
  - destruct (p (k, v)); simpl; [rewrite E|]; apply IH; assumption.
Qed.

Lemma filter_all {A} (p : A -> bool) (l : list A) :
  (forall x, In x l -> p x = true) -> filter p l = l.
Proof.
  induction l as [|a l IH]; simpl; intros H; [reflexivity|].
  rewrite (H a (or_introl eq_refl)), IH by auto. reflexivity.
Qed.

(** ** The dynamic model *)

Lemma find_snoc {A} (p : A -> bool) l x :
  find p (l ++ [x]) =
  match find p l with
  | Some y => Some y
  | None => if p x then Some x else None
  end.
Proof.
  induction l as [|a l IH]; simpl; [reflexivity|].
  destruct (p a); [reflexivity | exact IH].
Qed.

Lemma fold_add_field_keys fields : forall acc n,
  In n (PyDict.keys (fold_left add_field fields acc))
  <-> In n (PyDict.keys acc) \/ In n (map name fields).
Proof.
  induction fields as [|f fields IH]; intros acc n; simpl.
  - intuition.
  - rewrite IH. unfold add_field at 1. rewrite in_keys_set. intuition.
Qed.

Lemma fold_add_field_nodup fields : forall acc,
  NoDup (PyDict.keys acc) -> NoDup (PyDict.keys (fold_left add_field fields acc)).
Proof.
  induction fields as [|f fields IH]; intros acc Hacc; simpl; [assumption|].
  apply IH. apply nodup_keys_set. assumption.
Qed.

Lemma fold_add_field_get fields : forall acc n,
  PyDict.get n (fold_left add_field fields acc) =
  match last_named n fields with
  | Some f => Some (definition_of f)
  | None => PyDict.get n acc
  end.
Proof.
  unfold last_named.
  induction fields as [|f fields IH]; intros acc n; simpl; [reflexivity|].
  rewrite IH, find_snoc.
  destruct (find _ (rev fields)); [reflexivity|].
  unfold add_field.
  destruct (String.eqb (name f) n) eqn:E.
  - apply String.eqb_eq in E. subst n. apply get_set_same.
  - apply String.eqb_neq in E. apply get_set_other. congruence.
Qed.

Lemma fold_add_field_order fields : forall acc,
  PyDict.keys (fold_left add_field fields acc) =
  fold_left
    (fun seen n => if existsb (String.eqb n) seen then seen else seen ++ [n])
    (map name fields) (PyDict.keys acc).
Proof.
  induction fields as [|f fields IH]; intros acc; simpl; [reflexivity|].
  rewrite IH. unfold add_field at 1. rewrite keys_set. reflexivity.
Qed.

Lemma field_definitions_fold fields :
  field_definitions fields = fold_left add_field fields [].
Proof. reflexivity. Qed.

Lemma field_definitions_nodup fields : NoDup (PyDict.keys (field_definitions fields)).
Proof. rewrite field_definitions_fold. apply fold_add_field_nodup. constructor. Qed.

Lemma field_definitions_get fields n :
  PyDict.get n (field_definitions fields) = option_map definition_of (last_named n fields).
Proof.
  rewrite field_definitions_fold, fold_add_field_get.
  destruct (last_named n fields); reflexivity.
Qed.

Lemma field_definitions_keys fields :
  PyDict.keys (field_definitions fields) = first_occurrences (map name fields).
Proof. rewrite field_definitions_fold. apply fold_add_field_order. Qed.

Lemma last_named_name n fields f : last_named n fields = Some f -> name f = n.
Proof.
  unfold last_named. intros H. apply find_some in H. destruct H as [_ H].
  apply String.eqb_eq. exact H.
Qed.

Section ModelFacts.

Variable lib : Library.

(** The model that is built holds the definitions taken as fields, and
    none of the definitions is refused. *)
Lemma get_dynamic_model_built fields m :
  get_dynamic_model lib fields = inr m ->
  m = mkModel "Entity" (filter (is_field lib) (field_definitions fields))
  /\ forall d, In d (field_definitions fields) ->
               field_name_kind lib (fst d) (snd d) <> Refused.
Proof.
  unfold get_dynamic_model, create_model.
  destruct (existsb (is_refused lib) (field_definitions fields)) eqn:E; [discriminate|].
  intros H. inversion H. split; [reflexivity|].
  intros d Hd Hk.
  assert (Hex : existsb (is_refused lib) (field_definitions fields) = true).
  { apply existsb_exists. exists d. split; [exact Hd|]. unfold is_refused. rewrite Hk.
    reflexivity. }
  congruence.
Qed.

(** The model is not built exactly when one of the definitions is
    refused. *)
Lemma get_dynamic_model_refused fields e :
  get_dynamic_model lib fields = inl e ->
  e = create_model_error lib "Entity" (field_definitions fields)
  /\ exists d, In d (field_definitions fields)
               /\ field_name_kind lib (fst d) (snd d) = Refused.
Proof.
  unfold get_dynamic_model, create_model.
  destruct (existsb (is_refused lib) (field_definitions fields)) eqn:E; [|discriminate].
  intros H. inversion H. split; [reflexivity|].
  apply existsb_exists in E. destruct E as [d [Hd Hk]]. exists d. split; [exact Hd|].
  unfold is_refused in Hk. destruct (field_name_kind lib (fst d) (snd d)); try discriminate.
  reflexivity.
Qed.

Lemma get_dynamic_model_accepted fields :
  accepted lib (field_definitions fields) ->
  get_dynamic_model lib fields = inr (mkModel "Entity" (field_definitions fields)).
Proof.
  intros Hacc. unfold get_dynamic_model, create_model.
  assert (Hno : existsb (is_refused lib) (field_definitions fields) = false).
  { destruct (existsb _ _) eqn:E; [|reflexivity].
    apply existsb_exists in E. destruct E as [d [Hd Hk]].
    unfold is_refused in Hk. rewrite (Hacc d Hd) in Hk. discriminate. }
  rewrite Hno. rewrite filter_all; [reflexivity|].
  intros d Hd. unfold is_field. rewrite (Hacc d Hd). reflexivity.
Qed.

Lemma model_keys_nodup fields m :
  get_dynamic_model lib fields = inr m -> NoDup (PyDict.keys (model_fields m)).
Proof.
  intros H. destruct (get_dynamic_model_built _ _ H) as [-> _]. simpl.
  apply keys_filter_nodup, field_definitions_nodup.
Qed.

(** The fields of the model: for each name, its last definition, when
    that one is taken as a field. *)
Lemma model_get fields m n :
  get_dynamic_model lib fields = inr m ->
  PyDict.get n (model_fields m) =
  match last_named n fields with
  | Some f =>
      match field_name_kind lib n (definition_of f) with
      | IsField => Some (definition_of f)
      | _ => None
      end
  | None => None
  end.
Proof.
  intros H. destruct (get_dynamic_model_built _ _ H) as [-> _]. simpl.
  rewrite get_filter by apply field_definitions_nodup.
  rewrite field_definitions_get.
  destruct (last_named n fields) as [f|]; simpl; [|reflexivity].
  unfold is_field. simpl. destruct (field_name_kind lib n (definition_of f)); reflexivity.
Qed.

Lemma model_keys_names fields m n :
  get_dynamic_model lib fields = inr m ->
  In n (PyDict.keys (model_fields m)) -> In n (map name fields).
Proof.
  intros H Hin. destruct (get_dynamic_model_built _ _ H) as [-> _]. simpl in Hin.
  unfold PyDict.keys in Hin. apply in_map_iff in Hin. destruct Hin as [d [Hd Hin]].
  apply filter_In in Hin. destruct Hin as [Hin _].
  assert (Hk : In n (PyDict.keys (field_definitions fields))).
  { unfold PyDict.keys. apply in_map_iff. exists d. split; assumption. }
  rewrite field_definitions_fold in Hk. apply fold_add_field_keys in Hk.
  destruct Hk as [[]|Hk]. exact Hk.
Qed.

End ModelFacts.

(** C4, as stated, fails: the empty field list and a field list with the
    name [title] twice both give a model, and no error. *)
Lemma build_rejects_counterexample :
  get_dynamic_model Sample.library [] = inr (mkModel "Entity" [])
  /\ (~ NoDup (map name [Field "title" "str" false; Field "title" "int" true])
      /\ get_dynamic_model Sample.library
           [Field "title" "str" false; Field "title" "int" true]
         = inr (mkModel "Entity" [("title", (TPrim Pint, DefaultNone))])).
Proof.
  split; [reflexivity|]. split; [|reflexivity].
  intros H. inversion H as [|? ? Hnot _]; subst. apply Hnot. left. reflexivity.
Qed.

(** C4, amended: [get_dynamic_model] does not fail because the field list
    is empty or has a name twice.  When [create_model] takes every
    definition the loop has kept as a field, the model is built: it has
    the names of the list, each once, in the order of their first
    occurrence, a name defined more than once keeps its last definition,
    and the empty list gives a model without fields.  When the model is
    not built, the error is the one of [create_model], and one of the
    definitions is refused by it. *)
Theorem get_dynamic_model_builds :
  forall lib fields,
    (accepted lib (field_definitions fields) ->
     exists m,
       get_dynamic_model lib fields = inr m
       /\ model_name m = "Entity"
       /\ (fields = [] -> model_fields m = [])
       /\ NoDup (PyDict.keys (model_fields m))
       /\ PyDict.keys (model_fields m) = first_occurrences (map name fields)
       /\ (forall n, PyDict.get n (model_fields m)
                     = option_map definition_of (last_named n fields)))
    /\ (forall e,
           get_dynamic_model lib fields = inl e ->
           e = create_model_error lib "Entity" (field_definitions fields)
           /\ exists f,
                In f fields
                /\ field_name_kind lib (name f) (definition_of f) = Refused).
Proof.
  intros lib fields. split.
  - intros Hacc. eexists. split; [apply get_dynamic_model_accepted; exact Hacc|].
    simpl. split; [reflexivity|]. split; [intros ->; reflexivity|].
    split; [apply field_definitions_nodup|].
    split; [apply field_definitions_keys | apply field_definitions_get].
  - intros e H. destruct (get_dynamic_model_refused lib fields e H) as [He [[n d] [Hd Hk]]].
    split; [exact He|]. simpl in Hk.
    assert (Hget : PyDict.get n (field_definitions fields) = Some d)
      by (apply get_of_item; [apply field_definitions_nodup | exact Hd]).
    rewrite field_definitions_get in Hget.
    destruct (last_named n fields) as [f|] eqn:Hl; [|discriminate].
    simpl in Hget. inversion Hget; subst d.
    pose proof (last_named_name _ _ _ Hl) as Hn. subst n.
    exists f. split; [|exact Hk].
    unfold last_named in Hl. apply find_some in Hl. destruct Hl as [Hin _].
    apply in_rev in Hin. exact Hin.
Qed.

Lemma get_dynamic_model_builds_witness :
  exists m,
    get_dynamic_model Sample.library
      [Field "title" "str" false; Field "year" "int" true; Field "title" "list(str)" true]
    = inr m
    /\ model_name m = "Entity"
    /\ ([Field "title" "str" false; Field "year" "int" true; Field "title" "list(str)" true]
        = [] -> model_fields m = [])
    /\ NoDup (PyDict.keys (model_fields m))
    /\ PyDict.keys (model_fields m) = ["title"; "year"]
    /\ (forall n, PyDict.get n (model_fields m)
                  = option_map definition_of
                      (last_named n
                         [Field "title" "str" false; Field "year" "int" true;
                          Field "title" "list(str)" true])).
Proof.
  apply (proj1 (get_dynamic_model_builds Sample.library
                  [Field "title" "str" false; Field "year" "int" true;
                   Field "title" "list(str)" true])).
  intros d [<-|[<-|[]]]; reflexivity.
Defined.

(** ** Validation *)

Section ValidationFacts.

Variable lib : Library.

Lemma schema_errors_one e : e <> json_invalid -> schema_errors [e].
Proof. intros H. split; [discriminate | constructor; [exact H | constructor]]. Qed.

Lemma schema_errors_app a b : schema_errors a -> schema_errors b -> schema_errors (a ++ b).
Proof.
  intros [Ha Fa] [Hb Fb]. split.
  - destruct a; [congruence | discriminate].
  - apply Forall_app. split; assumption.
Qed.

Lemma float_as_int_errors f errs : float_as_int lib f = inl errs -> schema_errors errs.
Proof.
  unfold float_as_int. intros H.
  repeat match type of H with
         | context [match ?x with _ => _ end] => destruct x
         end;
    inversion H; subst; apply schema_errors_one; discriminate.
Qed.

Lemma int_as_bool_errors z errs : int_as_bool z = inl errs -> schema_errors errs.
Proof.
  unfold int_as_bool. intros H.
  repeat match type of H with
         | context [if ?x then _ else _] => destruct x
         end;
    inversion H; subst; apply schema_errors_one; discriminate.
Qed.

Lemma validate_prim_errors p v errs :
  validate_prim lib p v = inl errs -> schema_errors errs.
Proof.
  destruct p, v; simpl; intros H;
    repeat match type of H with
           | context [match ?x with _ => _ end] =>
               let E := fresh "E" in destruct x eqn:E
           end;
    inversion H; subst;
    try (apply schema_errors_one; discriminate);
    eauto using float_as_int_errors, int_as_bool_errors.
Qed.

Lemma validate_all_errors {A B} (f : A -> validated B) l errs :
  (forall x e, f x = inl e -> schema_errors e) ->
  validate_all f l = inl errs -> schema_errors errs.
Proof.
  intros Hf. revert errs.
  induction l as [|x l IH]; simpl; intros errs H; [discriminate|].
  destruct (f x) eqn:Ex, (validate_all f l) eqn:El; inversion H; subst; eauto.
  apply schema_errors_app; eauto.
Qed.



Lemma validate_all_Forall2 {A B} (f : A -> validated B) l ys :
  validate_all f l = inr ys -> Forall2 (fun x y => f x = inr y) l ys.
Proof.
  revert ys. induction l as [|x l IH]; simpl; intros ys H.
  - inversion H. constructor.
  - destruct (f x) eqn:Ex, (validate_all f l) eqn:El; inversion H; subst.
    constructor; [assumption | apply IH; reflexivity].
Qed.

Lemma validate_type_errors t v errs :
  validate_type lib t v = inl errs -> schema_errors errs.
Proof.
  destruct t as [p|inner]; simpl; [apply validate_prim_errors|].
  destruct v; intros H; try (inversion H; subst; apply schema_errors_one; discriminate).
  destruct (validate_all _ items) eqn:E; inversion H; subst.
  eapply validate_all_errors; [|exact E]. apply validate_prim_errors.
Qed.

Lemma validate_field_errors members fld errs :
  validate_field lib members fld = inl errs -> schema_errors errs.
Proof.
  destruct fld as [n [t d]]. simpl.
  destruct (obj_get n members).
  - destruct (validate_type lib t j) eqn:E; intros H; inversion H; subst.
    eapply validate_type_errors; eassumption.
  - destruct d; intros H; inversion H; subst. apply schema_errors_one. discriminate.
Qed.

Lemma validate_model_errors m v errs :
  validate_model lib m v = inl errs -> schema_errors errs.
Proof.
  destruct v; simpl; intros H;
    try (inversion H; subst; apply schema_errors_one; discriminate).
  eapply validate_all_errors; [|exact H]. apply validate_field_errors.
Qed.

Lemma validate_EntitiesList_errors m v errs :
  validate_EntitiesList lib m v = inl errs -> schema_errors errs.
Proof.
  destruct v; simpl; intros H;
    try (inversion H; subst; apply schema_errors_one; discriminate).
  destruct (obj_get "Entities" members) as [[]|];
    try (inversion H; subst; apply schema_errors_one; discriminate).
  eapply validate_all_errors; [|exact H]. apply validate_model_errors.
Qed.


(** What [_extract_structured_data] does when the model is built, by the
    outcome of the reading and of the validation. *)
Lemma extract_unfold raw fields m ctx w :
  get_dynamic_model lib fields = inr m ->
  _extract_structured_data lib raw fields ctx w =
  match json_loads lib raw with
  | None => (inr [], printed w [ValidationErrorMsg json_invalid])
  | Some v =>
      match validate_EntitiesList lib m v with
      | inr entities => (inr (map (Result ctx) entities), w)
      | inl (first :: _) => (inr [], printed w [ValidationErrorMsg first])
      | inl [] => (inl (IndexError "list index out of range"), w)
      end
  end.
Proof.
  intros Hm.
  unfold _extract_structured_data, bind at 1. rewrite Hm. simpl lift. unfold ret at 1.
  unfold try_except, bind, model_validate_json.
  destruct (json_loads lib raw) as [v|]; [|reflexivity].
  destruct (validate_EntitiesList lib m v) as [[|e errs]|ents]; reflexivity.
Qed.

(** When the model is not built, line 77 raises, before the [try]. *)
Lemma extract_raises raw fields e ctx w :
  get_dynamic_model lib fields = inl e ->
  _extract_structured_data lib raw fields ctx w = (inl e, w).
Proof.
  intros Hm. unfold _extract_structured_data, bind at 1. rewrite Hm. reflexivity.
Qed.

(** With the model built, the validation returns: either the records and
    nothing printed, or no record and one error printed. *)
Lemma extract_outcome raw fields m ctx w :
  get_dynamic_model lib fields = inr m ->
  (exists v entities,
      json_loads lib raw = Some v
      /\ validate_EntitiesList lib m v = inr entities
      /\ _extract_structured_data lib raw fields ctx w
         = (inr (map (Result ctx) entities), w))
  \/ (exists first,
         _extract_structured_data lib raw fields ctx w
         = (inr [], printed w [ValidationErrorMsg first])
         /\ (json_loads lib raw = None -> first = json_invalid)
         /\ (json_loads lib raw <> None -> first <> json_invalid)).
Proof.
  intros Hm. rewrite (extract_unfold _ _ _ _ _ Hm).
  destruct (json_loads lib raw) as [v|] eqn:Hraw.
  - destruct (validate_EntitiesList lib m v) as [errs|ents] eqn:Hv.
    + right. destruct (validate_EntitiesList_errors _ _ _ Hv) as [Hne Hall].
      destruct errs as [|first errs]; [congruence|].
      exists first. split; [reflexivity|]. split; [discriminate|].
      intros _. inversion Hall; assumption.
    + left. exists v, ents. auto.
  - right. exists json_invalid. split; [reflexivity|]. split; [reflexivity | congruence].
Qed.

End ValidationFacts.





(** A definition that is the last one of its name and is taken as a field
    is a field of the model. *)
Lemma model_field_of lib fields m f :
  get_dynamic_model lib fields = inr m ->
  last_named (name f) fields = Some f ->
  field_name_kind lib (name f) (definition_of f) = IsField ->
  In (name f, definition_of f) (model_fields m).
Proof.
  intros Hm Hl Hk. apply item_of_get.
  rewrite (model_get lib fields m (name f) Hm), Hl, Hk. reflexivity.
Qed.




Section RoundTrip.

Variable lib : Library.




End RoundTrip.




Section RecordShape.

Variable lib : Library.

Lemma validate_field_name members fld item :
  validate_field lib members fld = inr item -> fst item = fst fld.
Proof.
  destruct fld as [n [t d]]. simpl.
  destruct (obj_get n members).
  - destruct (validate_type lib t j); intros H; inversion H; reflexivity.
  - destruct d; intros H; inversion H; reflexivity.
Qed.

Lemma validate_field_default members n t item :
  obj_get n members = None ->
  validate_field lib members (n, (t, DefaultNone)) = inr item -> item = (n, VNone).
Proof. simpl. intros ->. intros H. inversion H. reflexivity. Qed.

Lemma Forall2_keys members flds items :
  Forall2 (fun fld item => validate_field lib members fld = inr item) flds items ->
  PyDict.keys items = PyDict.keys flds.
Proof.
  unfold PyDict.keys.
  induction 1 as [|fld item flds items H _ IH]; simpl; [reflexivity|].
  rewrite (validate_field_name _ _ _ H), IH. reflexivity.
Qed.

Lemma Forall2_In_left {A B} (R : A -> B -> Prop) l l' x :
  Forall2 R l l' -> In x l -> exists y, In y l' /\ R x y.
Proof.
  induction 1 as [|a b l l' H _ IH]; simpl; [contradiction|].
  intros [->|Hin]; [eauto|].
  destruct (IH Hin) as [y [Hy Hr]]. eauto.
Qed.

Lemma Forall2_nth_right {A B} (R : A -> B -> Prop) l l' :
  Forall2 R l l' ->
  forall i y, nth_error l' i = Some y -> exists x, nth_error l i = Some x /\ R x y.
Proof.
  induction 1 as [|a b l l' H _ IH]; intros [|i] y Hy; simpl in *; try discriminate.
  - inversion Hy; subst. eauto.
  - apply IH. exact Hy.
Qed.

(** A validated instance has the keys of the model, and [None] for an
    optional field that the element does not have. *)
Lemma validate_model_shape m el inst :
  NoDup (PyDict.keys (model_fields m)) ->
  validate_model lib m el = inr inst ->
  PyDict.keys inst = PyDict.keys (model_fields m)
  /\ exists members,
      el = JObj members
      /\ forall n t,
          In (n, (t, DefaultNone)) (model_fields m) ->
          obj_get n members = None ->
          PyDict.get n inst = Some VNone.
Proof.
  intros Hnd H. destruct el; simpl in H; try discriminate.
  apply validate_all_Forall2 in H.
  pose proof (Forall2_keys _ _ _ H) as Hkeys.
  split; [exact Hkeys|]. exists members. split; [reflexivity|].
  intros n t Hin Hget.
  destruct (Forall2_In_left _ _ _ _ H Hin) as [item [Hitem Hv]].
  apply validate_field_default in Hv; [|exact Hget]. subst item.
  apply get_of_item; [|exact Hitem]. rewrite Hkeys. exact Hnd.
Qed.

End RecordShape.

(** C10, as stated, fails.  A name that starts with an underscore is no
    field of the model that pydantic builds, so a record has no entry for
    it: the optional field [_note], which the element does not have, is
    absent from the record, not [None] in it. *)
Lemma records_have_every_field_counterexample :
  let fields := [Field "title" "str" false; Field "_note" "str" true] in
  let raw := Sample.quoted "{'Entities':[{'title':'A'}]}" in
  exists r,
    _extract_structured_data Sample.library raw fields "ctx" Sample.empty_world
    = (inr [r], Sample.empty_world)
    /\ In "_note" (map name fields)
    /\ PyDict.get "_note" (response r) = None.
Proof.
  eexists. split; [vm_compute; reflexivity|]. split; [|reflexivity].
  simpl. right. left. reflexivity.
Qed.

(** C10, amended: when the model can be built from the field list, every
    record that comes out of a validation has exactly the fields of the
    model as its keys, in order: an entry for every name of the field list
    that pydantic takes as a field of the model (and none for the others);
    and where the array element of a record does not have an optional
    field of the model, the record has that field with the value
    [None]. *)
Theorem records_have_every_field :
  forall lib raw fields m ctx w rs w',
    get_dynamic_model lib fields = inr m ->
    _extract_structured_data lib raw fields ctx w = (inr rs, w') ->
    (forall r, In r rs ->
       PyDict.keys (response r) = PyDict.keys (model_fields m)
       /\ forall n f,
            last_named n fields = Some f ->
            field_name_kind lib n (definition_of f) = IsField ->
            exists v, PyDict.get n (response r) = Some v)
    /\ (forall top elems i r,
          json_loads lib raw = Some (JObj top) ->
          obj_get "Entities" top = Some (JArr elems) ->
          nth_error rs i = Some r ->
          exists members,
            nth_error elems i = Some (JObj members)
            /\ forall n f,
                last_named n fields = Some f ->
                optional f = true ->
                field_name_kind lib n (definition_of f) = IsField ->
                obj_get n members = None ->
                PyDict.get n (response r) = Some VNone).
Proof.
  intros lib raw fields m ctx w rs w' Hm H.
  rewrite (extract_unfold _ _ _ _ _ _ Hm) in H.
  destruct (json_loads lib raw) as [v|] eqn:Hraw;
    [|inversion H; subst; split; [intros r []|intros ? ? [|?] ? ? ? ?; discriminate]].
  destruct (validate_EntitiesList lib m v) as [[|e errs]|ents] eqn:Hv;
    try discriminate;
    [inversion H; subst; split; [intros r []|intros ? ? [|?] ? ? ? ?; discriminate]|].
  inversion H; subst; clear H.
  assert (Hents : exists top elems,
             v = JObj top /\ obj_get "Entities" top = Some (JArr elems)
             /\ Forall2 (fun el inst => validate_model lib m el = inr inst) elems ents).
  { destruct v; simpl in Hv; try discriminate.
    destruct (obj_get "Entities" members) as [[]|] eqn:Hent; try discriminate.
    exists members, items. repeat split; auto. apply validate_all_Forall2. exact Hv. }
  destruct Hents as [top0 [elems0 [-> [Hent0 HF]]]].
  pose proof (model_keys_nodup lib fields m Hm) as Hnd.
  split.
  - intros r Hr. apply in_map_iff in Hr. destruct Hr as [inst [<- Hinst]]. simpl.
    assert (Hsrc : exists el, validate_model lib m el = inr inst).
    { clear - HF Hinst. induction HF as [|a b l l' Hab _ IH]; simpl in Hinst; [contradiction|].
      destruct Hinst as [->|Hin]; eauto. }
    destruct Hsrc as [el Hel].
    destruct (validate_model_shape lib _ _ _ Hnd Hel) as [Hkeys _].
    split; [exact Hkeys|].
    intros n f Hl Hk. apply get_in_keys. rewrite Hkeys.
    pose proof (last_named_name _ _ _ Hl) as Hn. subst n.
    pose proof (model_field_of lib fields m f Hm Hl Hk) as Hin.
    unfold PyDict.keys. apply in_map_iff. exists (name f, definition_of f).
    split; [reflexivity | exact Hin].
  - intros top elems i r Htop Hent Hnth.
    inversion Htop; subst top0. rewrite Hent in Hent0. inversion Hent0; subst elems0.
    rewrite nth_error_map in Hnth.
    destruct (nth_error ents i) as [inst|] eqn:Hi; simpl in Hnth; inversion Hnth; subst r.
    destruct (Forall2_nth_right _ _ _ HF i inst Hi) as [el [Hel Hval]].
    destruct (validate_model_shape lib _ _ _ Hnd Hval) as [_ [members [-> Hnone]]].
    exists members. split; [exact Hel|]. simpl.
    intros n f Hl Hopt Hk Hget.
    pose proof (last_named_name _ _ _ Hl) as Hn. subst n.
    pose proof (model_field_of lib fields m f Hm Hl Hk) as Hin.
    unfold definition_of, default_value in Hin. rewrite Hopt in Hin.
    exact (Hnone _ _ Hin Hget).
Qed.

Lemma records_have_every_field_witness :
  let raw := Sample.quoted "{'Entities':[{'title':'A','note':7},{'title':'B'}]}" in
  let rs := [Result "ctx" [("title", VStr "A"); ("note", VInt 7)];
             Result "ctx" [("title", VStr "B"); ("note", VNone)]] in
  let m := mkModel "Entity" [("title", (TPrim Pstr, Ellipsis));
                             ("note", (TPrim Pint, DefaultNone))] in
  _extract_structured_data Sample.library raw Sample.title_and_note "ctx" Sample.empty_world
  = (inr rs, Sample.empty_world)
  /\ forall r, In r rs ->
       PyDict.keys (response r) = PyDict.keys (model_fields m)
       /\ forall n f,
            last_named n Sample.title_and_note = Some f ->
            field_name_kind Sample.library n (definition_of f) = IsField ->
            exists v, PyDict.get n (response r) = Some v.
Proof.
  intros raw rs m.
  assert (H : _extract_structured_data Sample.library raw Sample.title_and_note "ctx"
                Sample.empty_world = (inr rs, Sample.empty_world))
    by (vm_compute; reflexivity).
  split; [exact H|].
  exact (proj1 (records_have_every_field Sample.library raw Sample.title_and_note m "ctx"
                  Sample.empty_world rs Sample.empty_world eq_refl H)).
Defined.

(** ** Splitting and joining *)

Lemma append_assoc_string (a b c : string) : (a ++ (b ++ c) = (a ++ b) ++ c)%string.
Proof. induction a as [|x a IH]; simpl; [reflexivity | rewrite IH; reflexivity]. Qed.

Lemma length_app_string pre s :
  String.length (pre ++ s) = String.length pre + String.length s.
Proof. induction pre as [|a pre IH]; simpl; [reflexivity | rewrite IH; reflexivity]. Qed.

Lemma append_nil_r (s : string) : (s ++ EmptyString)%string = s.
Proof. induction s as [|c s IH]; simpl; [reflexivity | rewrite IH; reflexivity]. Qed.

Lemma startswith_app sep s :
  PyStr.startswith sep s = true -> exists rest, s = (sep ++ rest)%string.
Proof.
  revert s. induction sep as [|a sep IH]; intros s H.
  - exists s. reflexivity.
  - destruct s as [|b s]; [discriminate|]. simpl in H.
    destruct (Ascii.eqb a b) eqn:E; [|discriminate].
    apply Ascii.eqb_eq in E. subst b.
    destruct (IH s H) as [rest ->]. exists rest. reflexivity.
Qed.


Lemma split_go_skip sep pre : forall rest cur,
  PyStr.split_go sep (pre ++ rest) (String.length pre) cur = PyStr.split_go sep rest 0 cur.
Proof.
  induction pre as [|a pre IH]; intros rest cur; simpl; [reflexivity | apply IH].
Qed.

Lemma split_go_not_nil sep s : forall skip cur, PyStr.split_go sep s skip cur <> [].
Proof.
  induction s as [|c s IH]; intros skip cur; simpl; [discriminate|].
  destruct skip; [|apply IH].
  destruct (PyStr.startswith sep (String c s)); [discriminate | apply IH].
Qed.

Lemma join_cons sep x l :
  l <> [] -> PyStr.join sep (x :: l) = (x ++ sep ++ PyStr.join sep l)%string.
Proof. destruct l; [congruence | reflexivity]. Qed.

Lemma join_split_go sep n : forall s cur,
  sep <> EmptyString ->
  String.length s <= n ->
  PyStr.join sep (PyStr.split_go sep s 0 cur) = (cur ++ s)%string.
Proof.
  induction n as [|n IH]; intros s cur Hsep Hlen.
  - destruct s; [|simpl in Hlen; lia]. simpl. rewrite append_nil_r. reflexivity.
  - destruct s as [|c s]; [simpl; rewrite append_nil_r; reflexivity|].
    cbn [PyStr.split_go].
    destruct (PyStr.startswith sep (String c s)) eqn:Hstart.
    + destruct (startswith_app _ _ Hstart) as [rest Hrest].
      destruct sep as [|a sep']; [congruence|].
      simpl in Hrest. inversion Hrest; subst c s.
      replace (String.length (String a sep') - 1) with (String.length sep')
        by (simpl; lia).
      rewrite split_go_skip.
      rewrite join_cons by apply split_go_not_nil.
      rewrite IH; [reflexivity | exact Hsep |].
      simpl in Hlen. rewrite length_app_string in Hlen. lia.
    + rewrite IH; [|exact Hsep | simpl in Hlen; lia].
      rewrite <- append_assoc_string. reflexivity.
Qed.







(** ** The operations *)

Lemma lstrip_blank s : blank s = true -> PyStr.lstrip s = EmptyString.
Proof.
  induction s as [|c s IH]; simpl; [reflexivity|].
  intros H. apply andb_true_iff in H. destruct H as [Hc Hs].
  rewrite Hc. apply IH. exact Hs.
Qed.

Lemma lstrip_not_blank s :
  blank s = false ->
  exists c r, PyStr.lstrip s = String c r /\ PyStr.isspace c = false.
Proof.
  induction s as [|c s IH]; simpl; [discriminate|].
  destruct (PyStr.isspace c) eqn:Hc; simpl; intros H; [apply IH; exact H|].
  exists c, s. split; [reflexivity | exact Hc].
Qed.

Lemma truthy_strip s : PyStr.truthy (PyStr.strip s) = negb (blank s).
Proof.
  unfold PyStr.strip. destruct (blank s) eqn:Hb.
  - rewrite lstrip_blank by exact Hb. reflexivity.
  - destruct (lstrip_not_blank s Hb) as [c [r [-> Hc]]]. simpl.
    destruct (PyStr.rstrip r); [rewrite Hc|]; reflexivity.
Qed.

Lemma isinstance_Exception e : isinstance e CException = true.
Proof. destruct e; reflexivity. Qed.

(** A handler that prints a message and returns a value. *)
Lemma print_and_return {A} lib (m : message) (a : A) w :
  bind (console_print lib m) (fun _ => ret a) w = shown lib m a w.
Proof.
  unfold bind, console_print, shown, printed. destruct (markup_error lib m); reflexivity.
Qed.

Lemma console_print_shown lib (m : message) w : console_print lib m w = shown lib m tt w.
Proof. unfold console_print, shown, printed. destruct (markup_error lib m); reflexivity. Qed.

(** What printing leaves as it was. *)
Lemma shown_frame {A} lib (m : message) (a : A) w r w' :
  shown lib m a w = (r, w') ->
  requests w' = requests w /\ fs w' = fs w
  /\ ((r = inr a /\ console w' = console w ++ [m])
      \/ (exists msg, r = inl (MarkupError msg) /\ w' = w)).
Proof.
  unfold shown. destruct (markup_error lib m) as [msg|]; intros H; inversion H; subst; simpl.
  - split; [reflexivity|]. split; [reflexivity|]. right. eauto.
  - split; [reflexivity|]. split; [reflexivity|]. left. auto.
Qed.

Section Operations.

Variable lib : Library.
Variable sys : System.
Variable self : DynamicExtractor.

Lemma extract_returns raw fields m ctx w :
  get_dynamic_model lib fields = inr m ->
  exists rs w', _extract_structured_data lib raw fields ctx w = (inr rs, w').
Proof.
  intros Hm.
  destruct (extract_outcome lib raw fields m ctx w Hm)
    as [[v [ents [_ [_ H]]]]|[first [H _]]]; eauto.
Qed.

(** What [process_text] does when the model is built, by the outcome of
    the request. *)
Lemma process_text_unfold text fields m w :
  get_dynamic_model lib fields = inr m ->
  process_text lib sys self text fields w =
  match client_chat sys (requests w) (text_request self fields m text) with
  | inl e =>
      shown lib (ErrorProcessingText e) [] (sent w [text_request self fields m text])
  | inr content =>
      _extract_structured_data lib content fields text
        (sent w [text_request self fields m text])
  end.
Proof.
  intros Hm. unfold process_text, bind at 1. rewrite Hm. simpl lift. unfold ret at 1.
  unfold try_except, bind at 1, chat. fold (text_request self fields m text).
  fold (sent w [text_request self fields m text]).
  destruct (client_chat sys (requests w) (text_request self fields m text)) as [e|content].
  - cbn [find_handler]. rewrite isinstance_Exception. apply print_and_return.
  - destruct (extract_returns content fields m text
                (sent w [text_request self fields m text]) Hm) as [rs [w' ->]].
    reflexivity.
Qed.

(** When the model is not built, line 107 raises, before the [try]. *)
Lemma process_text_raises text fields e w :
  get_dynamic_model lib fields = inl e ->
  process_text lib sys self text fields w = (inl e, w).
Proof. intros Hm. unfold process_text, bind at 1. rewrite Hm. reflexivity. Qed.

(** [process_text] returns when the model is built and the request is
    answered, or fails with an error whose message is well-formed
    markup. *)
Lemma process_text_returns text fields m w :
  get_dynamic_model lib fields = inr m ->
  (forall e,
      client_chat sys (requests w) (text_request self fields m text) = inl e ->
      markup_error lib (ErrorProcessingText e) = None) ->
  exists rs w', process_text lib sys self text fields w = (inr rs, w').
Proof.
  intros Hm Hok. rewrite (process_text_unfold _ _ _ _ Hm).
  destruct (client_chat sys (requests w) (text_request self fields m text)) as [e|content].
  - unfold shown. rewrite (Hok e eq_refl). eauto.
  - apply (extract_returns _ _ _ _ _ Hm).
Qed.

(** The loop over the units, when every unit that is not blank returns. *)
Lemma for_extend_units fields units : forall acc w rs w',
  processed_in_order lib sys self fields (filter (fun u => negb (blank u)) units) w rs w' ->
  for_extend units (process_unit lib sys self fields) acc w = (inr (acc ++ rs), w').
Proof.
  induction units as [|u units IH]; intros acc w rs w' Hord; simpl in *.
  - inversion Hord; subst. rewrite app_nil_r. reflexivity.
  - unfold bind, process_unit at 1. rewrite truthy_strip.
    destruct (negb (blank u)).
    + inversion Hord as [|? ? ? rs1 w1 rs2 ? Hfirst Hothers]; subst.
      rewrite Hfirst. rewrite (IH (acc ++ rs1) w1 rs2 w' Hothers), app_assoc. reflexivity.
    + unfold ret at 1. rewrite (IH (acc ++ []) w rs w' Hord), app_nil_r. reflexivity.
Qed.

(** The loop over the units, when a unit raises: the loop ends there. *)
Lemma for_extend_units_stop fields units : forall acc w before u rest rs w1 e w2,
  filter (fun u => negb (blank u)) units = before ++ u :: rest ->
  processed_in_order lib sys self fields before w rs w1 ->
  process_text lib sys self u fields w1 = (inl e, w2) ->
  for_extend units (process_unit lib sys self fields) acc w = (inl e, w2).
Proof.
  induction units as [|x units IH]; intros acc w before u rest rs w1 e w2 Hf Hord Hu;
    simpl in *.
  - destruct before; discriminate.
  - unfold bind, process_unit at 1. rewrite truthy_strip.
    destruct (negb (blank x)).
    + destruct before as [|d before]; simpl in Hf; inversion Hf; subst.
      * inversion Hord; subst. rewrite Hu. reflexivity.
      * inversion Hord as [|? ? ? rs1 w0 rs2 ? Hfirst Hothers]; subst.
        rewrite Hfirst. eapply IH; eassumption.
    + unfold ret at 1. eapply IH; eassumption.
Qed.

End Operations.




(** C9 fails on the code: for a path whose extension is neither [.txt] nor
    [.csv], [process_bulk_text] returns the empty list and leaves the world
    as it was: nothing is printed. *)
Theorem process_bulk_text_other_extension :
  forall lib sys self file_path fields w,
    PyStr.lower (snd (OsPath.splitext file_path)) <> ".txt" ->
    PyStr.lower (snd (OsPath.splitext file_path)) <> ".csv" ->
    process_bulk_text lib sys self file_path fields w = (inr [], w).
Proof.
  intros lib sys self file_path fields w Htxt Hcsv.
  unfold process_bulk_text, try_except.
  apply String.eqb_neq in Htxt, Hcsv. rewrite Htxt, Hcsv. reflexivity.
Qed.

Lemma process_bulk_text_other_extension_witness :
  process_bulk_text Sample.library Sample.system Sample.extractor "notes.md"
    Sample.title_only Sample.empty_world = (inr [], Sample.empty_world).
Proof. apply process_bulk_text_other_extension; vm_compute; discriminate. Defined.

Section ImageFacts.

Variable lib : Library.
Variable sys : System.
Variable self : DynamicExtractor.

(** What [process_image] does when the model is built, by the outcome of
    the opening and of the request. *)
Lemma process_image_unfold image_path fields m w :
  get_dynamic_model lib fields = inr m ->
  process_image lib sys self image_path fields w =
  match open_read_bytes sys image_path with
  | inl e => shown lib (ErrorProcessingImage e) [] w
  | inr img =>
      match client_chat sys (requests w) (image_request self fields m img) with
      | inl e =>
          shown lib (ErrorProcessingImage e) []
            (sent w [image_request self fields m img])
      | inr content =>
          _extract_structured_data lib content fields (OsPath.basename image_path)
            (sent w [image_request self fields m img])
      end
  end.
Proof.
  intros Hm. unfold process_image, bind at 1. rewrite Hm. simpl lift. unfold ret at 1.
  unfold try_except, bind at 1, open_and_read_bytes.
  destruct (open_read_bytes sys image_path) as [e|img].
  - simpl lift. unfold raise. cbn [find_handler]. rewrite isinstance_Exception.
    apply print_and_return.
  - simpl lift. unfold ret at 1. unfold bind at 1, chat.
    fold (image_request self fields m img).
    fold (sent w [image_request self fields m img]).
    destruct (client_chat sys (requests w) (image_request self fields m img))
      as [e|content].
    + cbn [find_handler]. rewrite isinstance_Exception. apply print_and_return.
    + destruct (extract_returns lib content fields m (OsPath.basename image_path)
                  (sent w [image_request self fields m img]) Hm) as [rs [w' ->]].
      reflexivity.
Qed.

(** When the model is not built, line 145 raises, before the [try]. *)
Lemma process_image_raises image_path fields e w :
  get_dynamic_model lib fields = inl e ->
  process_image lib sys self image_path fields w = (inl e, w).
Proof. intros Hm. unfold process_image, bind at 1. rewrite Hm. reflexivity. Qed.

End ImageFacts.




(** ** Export *)

(** The [except] clauses of [export_results] print a message, whatever
    the exception is. *)
Lemma export_handle lib output_file e w :
  match find_handler (export_clauses lib output_file) e with
  | Some h => h w
  | None => (inl e, w)
  end = shown lib (export_message output_file e) tt w.
Proof. destruct e; simpl; apply console_print_shown. Qed.

Section ExportFacts.

Variable lib : Library.
Variable sys : System.

(** Writing rows prints nothing and only adds events to the file system;
    it may stop at a row with a key that is not a column. *)
Lemma for_each_writerow path fieldnames (row_of : result -> PyDict.dict pyval) items :
  forall w,
  exists r w' later,
    for_each items (fun item => writerow lib path fieldnames (row_of item)) w = (r, w')
    /\ console w' = console w /\ requests w' = requests w
    /\ fs w' = fs w ++ later.
Proof.
  induction items as [|item items IH]; intros w; simpl.
  - exists (inr tt), w, []. rewrite app_nil_r. repeat split; reflexivity.
  - unfold bind, writerow at 1.
    destruct (wrong_fields fieldnames (row_of item)).
    + unfold fs_do at 1.
      match goal with
      | |- context [for_each items ?body ?w1] =>
          destruct (IH w1) as [r [w' [later [Hrun [Hc [Hr Hf]]]]]]
      end.
      exists r, w'. eexists. rewrite Hrun. split; [reflexivity|].
      simpl in Hc, Hr, Hf. repeat split; [exact Hc | exact Hr |].
      rewrite Hf, <- app_assoc. reflexivity.
    + eexists. exists w, []. rewrite app_nil_r. repeat split; reflexivity.
Qed.


End ExportFacts.




(** * Further properties *)

(** ** Validation leaves the rest of the world alone *)

Lemma Forall2_In_right {A B} (R : A -> B -> Prop) l l' y :
  Forall2 R l l' -> In y l' -> exists x, In x l /\ R x y.
Proof.
  induction 1 as [|a b l l' H _ IH]; simpl; [contradiction|].
  intros [->|Hin]; [eauto|].
  destruct (IH Hin) as [x [Hx Hr]]. eauto.
Qed.

Lemma validate_EntitiesList_keys lib m v ents :
  NoDup (PyDict.keys (model_fields m)) ->
  validate_EntitiesList lib m v = inr ents ->
  forall inst, In inst ents ->
    PyDict.keys inst = PyDict.keys (model_fields m) /\ NoDup (PyDict.keys inst).
Proof.
  intros Hnd Hv inst Hin.
  destruct v; simpl in Hv; try discriminate.
  destruct (obj_get "Entities" members) as [[]|]; try discriminate.
  apply validate_all_Forall2 in Hv.
  destruct (Forall2_In_right _ _ _ _ Hv Hin) as [el [_ Hel]].
  destruct (validate_model_shape lib _ _ _ Hnd Hel) as [Hkeys _].
  split; [exact Hkeys | rewrite Hkeys; exact Hnd].
Qed.

Lemma extract_frame lib raw fields ctx w r w' :
  _extract_structured_data lib raw fields ctx w = (r, w') ->
  requests w' = requests w
  /\ fs w' = fs w
  /\ (forall e, r = inl e -> get_dynamic_model lib fields = inl e /\ w' = w)
  /\ (forall rs,
         r = inr rs ->
         exists m,
           get_dynamic_model lib fields = inr m
           /\ (forall x, In x rs ->
                 input x = ctx
                 /\ PyDict.keys (response x) = PyDict.keys (model_fields m)
                 /\ NoDup (PyDict.keys (response x)))
           /\ (console w' = console w
               \/ (rs = [] /\ exists e, console w' = console w ++ [ValidationErrorMsg e]))).
Proof.
  intros H. destruct (get_dynamic_model lib fields) as [e|m] eqn:Hm.
  - rewrite (extract_raises lib raw fields e ctx w Hm) in H. inversion H; subst.
    split; [reflexivity|]. split; [reflexivity|]. split.
    + intros e0 He0. inversion He0; subst. split; reflexivity.
    + intros rs Hrs. discriminate.
  - rewrite (extract_unfold lib raw fields m ctx w Hm) in H.
    destruct (json_loads lib raw) as [v|].
    + destruct (validate_EntitiesList lib m v) as [errs|ents] eqn:Hv.
      * destruct (validate_EntitiesList_errors _ _ _ _ Hv) as [Hne _].
        destruct errs as [|e errs]; [congruence|]. inversion H; subst.
        split; [reflexivity|]. split; [reflexivity|]. split; [discriminate|].
        intros rs Hrs. inversion Hrs; subst. exists m. split; [reflexivity|].
        split; [intros x []|]. right. split; [reflexivity|]. eexists. reflexivity.
      * inversion H; subst.
        split; [reflexivity|]. split; [reflexivity|]. split; [discriminate|].
        intros rs Hrs. inversion Hrs; subst. exists m. split; [reflexivity|].
        split; [|left; reflexivity].
        intros x Hx. apply in_map_iff in Hx. destruct Hx as [inst [<- Hinst]]. simpl.
        destruct (validate_EntitiesList_keys _ _ _ _ (model_keys_nodup lib fields m Hm)
                    Hv inst Hinst).
        repeat split; assumption.
    + inversion H; subst.
      split; [reflexivity|]. split; [reflexivity|]. split; [discriminate|].
      intros rs Hrs. inversion Hrs; subst. exists m. split; [reflexivity|].
      split; [intros x []|]. right. split; [reflexivity|]. eexists. reflexivity.
Qed.



(** ** One text *)

Lemma process_text_frame lib sys self text fields w r w' :
  process_text lib sys self text fields w = (r, w') ->
  fs w' = fs w
  /\ (forall e, get_dynamic_model lib fields = inl e -> r = inl e /\ w' = w)
  /\ (forall m,
         get_dynamic_model lib fields = inr m ->
         requests w' = requests w ++ [text_request self fields m text]
         /\ (forall rs,
                r = inr rs ->
                (forall x, In x rs ->
                   input x = text
                   /\ PyDict.keys (response x) = PyDict.keys (model_fields m)
                   /\ NoDup (PyDict.keys (response x)))
                /\ (console w' = console w
                    \/ (rs = [] /\ exists msg, console w' = console w ++ [msg])))
         /\ (forall e,
                r = inl e ->
                exists err msg,
                  client_chat sys (requests w) (text_request self fields m text) = inl err
                  /\ markup_error lib (ErrorProcessingText err) = Some msg
                  /\ e = MarkupError msg
                  /\ console w' = console w)).
Proof.
  intros H. destruct (get_dynamic_model lib fields) as [e|m] eqn:Hm.
  - rewrite (process_text_raises lib sys self text fields e w Hm) in H. inversion H; subst.
    split; [reflexivity|]. split; [|intros m Hm'; discriminate].
    intros e0 He0. inversion He0; subst. split; reflexivity.
  - split; [|split; [intros e He; discriminate|]].
    + rewrite (process_text_unfold lib sys self text fields m w Hm) in H.
      destruct (client_chat sys (requests w) (text_request self fields m text)).
      * apply shown_frame in H. destruct H as [_ [Hf _]]. exact Hf.
      * apply extract_frame in H. destruct H as [_ [Hf _]]. exact Hf.
    + intros m0 Hm0. inversion Hm0; subst m0.
      rewrite (process_text_unfold lib sys self text fields m w Hm) in H.
      destruct (client_chat sys (requests w) (text_request self fields m text))
        as [err|content] eqn:Hchat.
      * pose proof H as Hshown. unfold shown in Hshown.
        apply shown_frame in H. destruct H as [Hr [_ Hcase]].
        split; [exact Hr|]. split.
        -- intros rs Hrs. split.
           ++ destruct Hcase as [[Heq _]|[msg [Heq _]]]; [|congruence].
              rewrite Hrs in Heq. inversion Heq; subst. intros x [].
           ++ destruct Hcase as [[Heq Hc]|[msg [Heq _]]]; [|congruence].
              rewrite Hrs in Heq. inversion Heq; subst. right.
              split; [reflexivity|]. eexists. exact Hc.
        -- intros e He. subst r.
           destruct (markup_error lib (ErrorProcessingText err)) as [msg|] eqn:Hmk;
             inversion Hshown; subst.
           exists err, msg. repeat split; try reflexivity; assumption.
      * apply extract_frame in H. destruct H as [Hr [_ [He Hrs]]].
        split; [exact Hr|]. split.
        -- intros rs Heq. destruct (Hrs rs Heq) as [m' [Hm' [Hall Hc]]].
           rewrite Hm in Hm'. inversion Hm'; subst m'. split; [exact Hall|].
           destruct Hc as [Hc|[Hnil [e Hc]]]; [left; exact Hc|].
           right. split; [exact Hnil|]. eexists. exact Hc.
        -- intros e Heq. destruct (He e Heq) as [Hbad _]. congruence.
Qed.



(** ** Bulk text *)


Lemma for_extend_map {A B C} (g : A -> B) (f : B -> M (list C)) items : forall acc w,
  for_extend items (fun x => f (g x)) acc w = for_extend (map g items) f acc w.
Proof.
  induction items as [|x items IH]; intros acc w; simpl; [reflexivity|].
  unfold bind. destruct (f (g x) w) as [[e|r] w1]; [reflexivity|]. apply IH.
Qed.

(** The loop over the units, however it ends: the requests made are those
    of the first units that are not blank, in order, and no file is
    touched. *)
Lemma for_extend_units_frame lib sys self fields m units :
  get_dynamic_model lib fields = inr m ->
  forall acc w r w',
    for_extend units (process_unit lib sys self fields) acc w = (r, w') ->
    fs w' = fs w
    /\ (exists k,
           requests w' =
           requests w
           ++ map (text_request self fields m)
                (firstn k (filter (fun u => negb (blank u)) units)))
    /\ (forall rs',
           r = inr rs' ->
           exists rs,
             rs' = acc ++ rs
             /\ forall x, In x rs ->
                  In (input x) (filter (fun u => negb (blank u)) units)
                  /\ PyDict.keys (response x) = PyDict.keys (model_fields m)
                  /\ NoDup (PyDict.keys (response x))).
Proof.
  intros Hm. induction units as [|u units IH]; intros acc w r w' H; simpl in H.
  - inversion H; subst. split; [reflexivity|]. split.
    + exists 0. simpl. rewrite app_nil_r. reflexivity.
    + intros rs' Heq. inversion Heq; subst. exists []. rewrite app_nil_r.
      split; [reflexivity | intros x []].
  - unfold bind, process_unit at 1 in H. rewrite truthy_strip in H. simpl filter.
    destruct (negb (blank u)).
    + destruct (process_text lib sys self u fields w) as [[e|rs1] w1] eqn:Hu.
      * inversion H; subst.
        destruct (process_text_frame lib sys self u fields w _ _ Hu) as [Hf [_ Hb]].
        destruct (Hb m Hm) as [Hr _].
        split; [exact Hf|]. split; [exists 1; exact Hr | discriminate].
      * destruct (process_text_frame lib sys self u fields w _ _ Hu) as [Hf [_ Hb]].
        destruct (Hb m Hm) as [Hr [Hrs _]]. destruct (Hrs rs1 eq_refl) as [Hall _].
        destruct (IH _ _ _ _ H) as [Hf' [[k Hk] Hres]].
        split; [rewrite Hf', Hf; reflexivity|]. split.
        -- exists (S k). rewrite Hk, Hr. simpl. rewrite <- app_assoc. reflexivity.
        -- intros rs' Heq. destruct (Hres rs' Heq) as [rs [-> Hin]].
           exists (rs1 ++ rs). split; [rewrite app_assoc; reflexivity|].
           intros x Hx. apply in_app_or in Hx. destruct Hx as [Hx|Hx].
           ++ destruct (Hall x Hx) as [Hi [Hkeys Hnd]].
              split; [left; symmetry; exact Hi|]. split; assumption.
           ++ destruct (Hin x Hx) as [Hi [Hkeys Hnd]].
              split; [right; exact Hi|]. split; assumption.
    + unfold ret at 1 in H. rewrite app_nil_r in H. apply (IH _ _ _ _ H).
Qed.


(** The [.txt] branch of [process_bulk_text], as the loop and the
    handler. *)
Lemma process_bulk_text_txt_unfold lib sys self file_path fields contents w :
  PyStr.lower (snd (OsPath.splitext file_path)) = ".txt" ->
  open_read sys file_path = inr contents ->
  process_bulk_text lib sys self file_path fields w =
  match for_extend (PyStr.split ",," contents) (process_unit lib sys self fields) [] w with
  | (inr rs, w') => (inr rs, w')
  | (inl e, w') => shown lib (ErrorProcessingBulkText e) [] w'
  end.
Proof.
  intros Hext Hread. unfold process_bulk_text. rewrite Hext.
  change (String.eqb ".txt" ".txt") with true. cbv iota.
  unfold try_except, bind at 1, open_and_read. rewrite Hread.
  simpl lift. unfold ret at 1. cbv beta iota.
  destruct (for_extend (PyStr.split ",," contents) (process_unit lib sys self fields) [] w)
    as [[e|rs] w'].
  - cbn [find_handler]. rewrite isinstance_Exception. apply print_and_return.
  - reflexivity.
Qed.

(** The [.csv] branch of [process_bulk_text], likewise. *)
Lemma process_bulk_text_csv_unfold lib sys self file_path fields contents rows w :
  PyStr.lower (snd (OsPath.splitext file_path)) = ".csv" ->
  open_read sys file_path = inr contents ->
  csv_reader lib contents = inr rows ->
  process_bulk_text lib sys self file_path fields w =
  match for_extend (map (PyStr.join " ") rows) (process_unit lib sys self fields) [] w with
  | (inr rs, w') => (inr rs, w')
  | (inl e, w') => shown lib (ErrorProcessingBulkText e) [] w'
  end.
Proof.
  intros Hext Hread Hrows. unfold process_bulk_text. rewrite Hext.
  change (String.eqb ".csv" ".txt") with false.
  change (String.eqb ".csv" ".csv") with true. cbv iota.
  unfold try_except, bind at 1, open_and_read. rewrite Hread.
  simpl lift. unfold ret at 1. cbv beta iota.
  unfold bind at 1. rewrite Hrows. simpl lift. unfold ret at 1. cbv beta iota.
  rewrite (for_extend_map (PyStr.join " ") (process_unit lib sys self fields)).
  destruct (for_extend (map (PyStr.join " ") rows) (process_unit lib sys self fields) [] w)
    as [[e|rs] w'].
  - cbn [find_handler]. rewrite isinstance_Exception. apply print_and_return.
  - reflexivity.
Qed.

(** X3: on a [.csv] file that can be read and whose rows can be read, the
    units are the rows with their cells joined by single spaces; the blank
    ones are passed over and the others go through [process_text] one
    after the other.  When each of them returns, the run returns their
    results joined in that order.  When [process_text] raises at a unit,
    the run ends there: the error is printed and the empty list is
    returned, or the MarkupError of the printing is raised. *)
Theorem process_bulk_text_csv :
  forall lib sys self file_path fields contents rows w,
    PyStr.lower (snd (OsPath.splitext file_path)) = ".csv" ->
    open_read sys file_path = inr contents ->
    csv_reader lib contents = inr rows ->
    let units := filter (fun u => negb (blank u)) (map (PyStr.join " ") rows) in
    (forall rs w',
        processed_in_order lib sys self fields units w rs w' ->
        process_bulk_text lib sys self file_path fields w = (inr rs, w'))
    /\ (forall before u rest rs w1 e w2,
           units = before ++ u :: rest ->
           processed_in_order lib sys self fields before w rs w1 ->
           process_text lib sys self u fields w1 = (inl e, w2) ->
           process_bulk_text lib sys self file_path fields w
           = shown lib (ErrorProcessingBulkText e) [] w2).
Proof.
  intros lib sys self file_path fields contents rows w Hext Hread Hrows units.
  rewrite (process_bulk_text_csv_unfold lib sys self file_path fields contents rows w
             Hext Hread Hrows).
  split.
  - intros rs w' Hord.
    rewrite (for_extend_units lib sys self fields _ [] w rs w' Hord). reflexivity.
  - intros before u rest rs w1 e w2 Hf Hord Hu.
    rewrite (for_extend_units_stop lib sys self fields _ [] w before u rest rs w1 e w2
               Hf Hord Hu).
    reflexivity.
Qed.

Lemma process_bulk_text_csv_witness :
  exists w',
    process_bulk_text Sample.library MoreSamples.system_with_rows Sample.extractor
      "rows.CSV" Sample.title_only Sample.empty_world
    = (inr ([Result "foo" [("title", VStr "Foo")]]
            ++ [Result "bar" [("title", VStr "Bar")]; Result "bar" [("title", VStr "Baz")]]
            ++ []),
       w').
Proof.
  eexists.
  apply (proj1 (process_bulk_text_csv Sample.library MoreSamples.system_with_rows
                  Sample.extractor "rows.CSV" Sample.title_only MoreSamples.three_rows
                  [["foo"]; [" "]; ["bar"]] Sample.empty_world eq_refl eq_refl eq_refl)).
  change (filter (fun u => negb (blank u)) (map (PyStr.join " ") [["foo"]; [" "]; ["bar"]]))
    with ["foo"; "bar"].
  econstructor; [lazy; reflexivity|].
  econstructor; [lazy; reflexivity | constructor].
Defined.



(** X5: when the [.txt] or [.csv] file cannot be opened or read, or the
    rows of the [.csv] file cannot be read, [process_bulk_text] makes no
    request and prints that error with its text, returning the empty
    list; when the text is not well-formed console markup (the text of
    the error of the opening holds the path), nothing is printed and the
    MarkupError is raised. *)
Theorem process_bulk_text_unreadable :
  forall lib sys self file_path fields w e,
    (PyStr.lower (snd (OsPath.splitext file_path)) = ".txt"
     \/ PyStr.lower (snd (OsPath.splitext file_path)) = ".csv") ->
    (open_read sys file_path = inl e
     \/ (PyStr.lower (snd (OsPath.splitext file_path)) = ".csv"
         /\ exists contents,
             open_read sys file_path = inr contents
             /\ csv_reader lib contents = inl e)) ->
    process_bulk_text lib sys self file_path fields w
    = shown lib (ErrorProcessingBulkText e) [] w
    /\ requests (snd (process_bulk_text lib sys self file_path fields w)) = requests w.
Proof.
  intros lib sys self file_path fields w e Hext Hbad.
  assert (H : process_bulk_text lib sys self file_path fields w
              = shown lib (ErrorProcessingBulkText e) [] w).
  { unfold process_bulk_text.
    destruct Hbad as [Hopen|[Hcsv [contents [Hopen Hrows]]]].
    - destruct Hext as [->| ->].
      + change (String.eqb ".txt" ".txt") with true. cbv iota.
        unfold try_except, bind at 1, open_and_read. rewrite Hopen. simpl lift.
        unfold raise. cbn [find_handler]. rewrite isinstance_Exception.
        apply print_and_return.
      + change (String.eqb ".csv" ".txt") with false.
        change (String.eqb ".csv" ".csv") with true. cbv iota.
        unfold try_except, bind at 1, open_and_read. rewrite Hopen. simpl lift.
        unfold raise. cbn [find_handler]. rewrite isinstance_Exception.
        apply print_and_return.
    - rewrite Hcsv. change (String.eqb ".csv" ".txt") with false.
      change (String.eqb ".csv" ".csv") with true. cbv iota.
      unfold try_except, bind at 1, open_and_read. rewrite Hopen. simpl lift.
      unfold ret at 1. cbv beta iota. unfold bind at 1. rewrite Hrows. simpl lift.
      unfold raise. cbn [find_handler]. rewrite isinstance_Exception.
      apply print_and_return. }
  split; [exact H|]. rewrite H.
  destruct (shown lib (ErrorProcessingBulkText e) [] w) as [r w'] eqn:Hs.
  apply shown_frame in Hs. apply Hs.
Qed.

Lemma process_bulk_text_unreadable_witness :
  process_bulk_text Sample.library Sample.system Sample.extractor "a[/x].txt"
    Sample.title_only Sample.empty_world
  = (inl (MarkupError "closing tag '[/x]' at position 80 doesn't match any open tag"),
     Sample.empty_world).
Proof.
  exact (proj1 (process_bulk_text_unreadable Sample.library Sample.system Sample.extractor
                  "a[/x].txt" Sample.title_only Sample.empty_world
                  (Sample.no_such_file "a[/x].txt") (or_introl eq_refl)
                  (or_introl eq_refl))).
Defined.

(** ** Export, branch by branch *)

Lemma did_did w a b : did (did w a) b = did w (a ++ b).
Proof. unfold did. simpl. rewrite <- app_assoc. reflexivity. Qed.

Lemma ended_frame lib (m : message) w r w' :
  ended lib m w = (r, w') ->
  requests w' = requests w /\ fs w' = fs w
  /\ ((r = inr tt
       /\ exists m',
            console w' = console w ++ [m']
            /\ (m' = m \/ exists msg, m' = UnexpectedErrorDuringExport (MarkupError msg)))
      \/ (exists msg, r = inl (MarkupError msg) /\ w' = w)).
Proof.
  unfold ended. destruct (markup_error lib m) as [msg|].
  - intros H. apply shown_frame in H. destruct H as [Hr [Hf [[-> Hc]|Hraise]]].
    + split; [exact Hr|]. split; [exact Hf|]. left. split; [reflexivity|]. eauto.
    + split; [exact Hr|]. split; [exact Hf|]. right. exact Hraise.
  - intros H. inversion H; subst. simpl.
    split; [reflexivity|]. split; [reflexivity|]. left. split; [reflexivity|]. eauto.
Qed.

Lemma console_print_ended lib (m : message) output_file w :
  match console_print lib m w with
  | (inr a, w') => (inr a, w')
  | (inl e, w') =>
      match find_handler (export_clauses lib output_file) e with
      | Some h => h w'
      | None => (inl e, w')
      end
  end = ended lib m w.
Proof.
  unfold console_print, ended. destruct (markup_error lib m) as [msg|]; [|reflexivity].
  apply (export_handle lib output_file (MarkupError msg) w).
Qed.

(** What [export_results] does, branch by branch. *)
Lemma export_results_unfold lib sys results output_file w :
  export_results lib sys results output_file w =
  let ext := PyStr.lower (snd (OsPath.splitext output_file)) in
  let dir := export_dir output_file in
  match os_makedirs sys dir with
  | Some e => shown lib (export_message output_file e) tt w
  | None =>
      let w1 := did w [Makedirs dir] in
      if String.eqb ext ".json" then
        match open_write sys output_file with
        | Some e => shown lib (export_message output_file e) tt w1
        | None =>
            ended lib (ExportedToJSON output_file)
              (did (did w1 [OpenedForWriting output_file])
                 [JsonDumped output_file results])
        end
      else if String.eqb ext ".csv" then
        match results with
        | [] => (inr tt, printed w1 [NoResultsToExport])
        | first :: _ =>
            match open_write sys output_file with
            | Some e => shown lib (export_message output_file e) tt w1
            | None =>
                match for_each results
                        (fun item =>
                           writerow lib output_file (csv_fieldnames first) (row_of item))
                        (did (did w1 [OpenedForWriting output_file])
                           [CsvRowWritten output_file (map VStr (csv_fieldnames first))])
                with
                | (inr _, w2) => ended lib (ExportedToCSV output_file) w2
                | (inl e, w2) => shown lib (export_message output_file e) tt w2
                end
            end
        end
      else ended lib (UnsupportedFileFormat ext) w1
  end.
Proof.
  unfold export_results. fold (export_dir output_file).
  fold (export_clauses lib output_file).
  cbv zeta. unfold try_except, bind at 1, makedirs.
  destruct (os_makedirs sys (export_dir output_file)) as [e|].
  - unfold raise. apply export_handle.
  - unfold fs_do at 1. fold (did w [Makedirs (export_dir output_file)]).
    destruct (String.eqb (PyStr.lower (snd (OsPath.splitext output_file))) ".json").
    + unfold bind at 1, open_for_writing.
      destruct (open_write sys output_file) as [e|].
      * unfold raise. apply export_handle.
      * unfold fs_do at 1. unfold bind at 1, fs_do at 1.
        apply console_print_ended.
    + destruct (String.eqb (PyStr.lower (snd (OsPath.splitext output_file))) ".csv");
        [|apply console_print_ended].
      destruct results as [|first rest]; [reflexivity|].
      unfold bind at 1, open_for_writing.
      destruct (open_write sys output_file) as [e|].
      * unfold raise. apply export_handle.
      * unfold fs_do at 1, bind at 1, writeheader, fs_do at 1, bind at 1.
        unfold csv_fieldnames, did, row_of. cbn [console requests fs].
        match goal with
        | |- context [for_each ?items ?body ?w1] =>
            destruct (for_each items body w1) as [[e|[]] w2]
        end.
        -- apply export_handle.
        -- apply console_print_ended.
Qed.

(** X6: [export_results] makes no request, and it ends in one of two
    ways: it returns, having printed exactly one message; or it raises
    the MarkupError of a message whose text is not well-formed console
    markup, having printed nothing.  It raises no other exception: every
    error of the file system and of the CSV writer is caught and
    printed. *)
Theorem export_results_one_message :
  forall lib sys results output_file w r w',
    export_results lib sys results output_file w = (r, w') ->
    requests w' = requests w
    /\ ((r = inr tt /\ exists m, console w' = console w ++ [m])
        \/ (exists msg, r = inl (MarkupError msg) /\ console w' = console w)).
Proof.
  intros lib sys results output_file w r w' H.
  assert (Hshown : forall (m : message) w0,
             console w0 = console w -> requests w0 = requests w ->
             shown lib m tt w0 = (r, w') ->
             requests w' = requests w
             /\ ((r = inr tt /\ exists m, console w' = console w ++ [m])
                 \/ (exists msg, r = inl (MarkupError msg) /\ console w' = console w))).
  { intros m w0 Hc0 Hr0 Hs. apply shown_frame in Hs.
    destruct Hs as [Hr [_ [[-> Hc]|[msg [-> ->]]]]].
    - split; [congruence|]. left. split; [reflexivity|]. exists m. congruence.
    - split; [exact Hr0|]. right. eauto. }
  assert (Hended : forall (m : message) w0,
             console w0 = console w -> requests w0 = requests w ->
             ended lib m w0 = (r, w') ->
             requests w' = requests w
             /\ ((r = inr tt /\ exists m, console w' = console w ++ [m])
                 \/ (exists msg, r = inl (MarkupError msg) /\ console w' = console w))).
  { intros m w0 Hc0 Hr0 Hs. apply ended_frame in Hs.
    destruct Hs as [Hr [_ [[-> [m' [Hc _]]]|[msg [-> ->]]]]].
    - split; [congruence|]. left. split; [reflexivity|]. exists m'. congruence.
    - split; [exact Hr0|]. right. eauto. }
  rewrite export_results_unfold in H. cbv zeta in H.
  destruct (os_makedirs sys (export_dir output_file));
    [eapply Hshown; [| |exact H]; reflexivity|].
  destruct (String.eqb _ ".json").
  { destruct (open_write sys output_file);
      [eapply Hshown; [| |exact H]; reflexivity
      |eapply Hended; [| |exact H]; reflexivity]. }
  destruct (String.eqb _ ".csv"); [|eapply Hended; [| |exact H]; reflexivity].
  destruct results as [|first rest].
  { inversion H; subst. split; [reflexivity|]. left. split; [reflexivity|].
    eexists. reflexivity. }
  destruct (open_write sys output_file); [eapply Hshown; [| |exact H]; reflexivity|].
  match type of H with
  | context [for_each ?items (fun item => writerow lib ?p ?f (@?row item)) ?w1] =>
      destruct (for_each_writerow lib p f row items w1)
        as [r0 [w2 [later [Hrun [Hc [Hr _]]]]]]
  end.
  rewrite Hrun in H.
  destruct r0 as [e|u]; [eapply Hshown | eapply Hended]; try exact H; assumption.
Qed.

Lemma export_results_one_message_witness :
  exists w',
    export_results Sample.library Sample.system [] "out[/red].json" Sample.empty_world
    = (inl (MarkupError "closing tag '[/red]' at position 58 doesn't match any open tag"),
       w')
    /\ requests w' = requests Sample.empty_world.
Proof.
  eexists. split; [vm_compute; reflexivity|].
  refine (proj1 (export_results_one_message Sample.library Sample.system []
                   "out[/red].json" Sample.empty_world _ _ _)).
  vm_compute. reflexivity.
Defined.

(** X7: an export to a [.json] path writes the file for every list of
    results, the empty one included.  When the directory can be made and
    the file opened, the whole list is dumped into it, whether the export
    then returns or raises; the success is printed, with the path in its
    text, and when that text is not well-formed console markup the
    MarkupError is printed as an unexpected error instead, or raised when
    its text is not well-formed either.  When the file cannot be opened
    nothing is dumped and that error is printed, or the MarkupError of
    its text raised. *)
Theorem export_json :
  forall lib sys results output_file w,
    PyStr.lower (snd (OsPath.splitext output_file)) = ".json" ->
    os_makedirs sys (export_dir output_file) = None ->
    (open_write sys output_file = None ->
     export_results lib sys results output_file w
     = ended lib (ExportedToJSON output_file)
         (did w [Makedirs (export_dir output_file); OpenedForWriting output_file;
                 JsonDumped output_file results])
     /\ fs (snd (export_results lib sys results output_file w))
        = fs w ++ [Makedirs (export_dir output_file); OpenedForWriting output_file;
                   JsonDumped output_file results])
    /\ (forall e,
           open_write sys output_file = Some e ->
           export_results lib sys results output_file w
           = shown lib (export_message output_file e) tt
               (did w [Makedirs (export_dir output_file)])).
Proof.
  intros lib sys results output_file w Hext Hmk.
  rewrite export_results_unfold. cbv zeta. rewrite Hmk, Hext.
  change (String.eqb ".json" ".json") with true. cbv iota.
  split.
  - intros ->. rewrite !did_did. simpl app. split; [reflexivity|].
    match goal with
    | |- context [ended lib ?m ?w0] => destruct (ended lib m w0) as [r w'] eqn:He
    end.
    apply ended_frame in He. destruct He as [_ [Hf _]]. simpl. rewrite Hf. reflexivity.
  - intros e ->. reflexivity.
Qed.

Lemma export_json_witness :
  export_results Sample.library Sample.system [] "out/results.json" Sample.empty_world
  = (inr tt,
     printed (did Sample.empty_world
                [Makedirs "out"; OpenedForWriting "out/results.json";
                 JsonDumped "out/results.json" []])
       [ExportedToJSON "out/results.json"]).
Proof.
  exact (proj1 (proj1 (export_json Sample.library Sample.system [] "out/results.json"
                         Sample.empty_world eq_refl eq_refl) eq_refl)).
Defined.

(** X8: an export to a path whose extension is neither [.json] nor [.csv]
    opens and writes no file; the directory of the path is made all the
    same.  The extension, in lower case, is printed as unsupported; when
    the text of that message is not well-formed console markup, the
    MarkupError is printed as an unexpected error instead, or raised when
    its text is not well-formed either. *)
Theorem export_unsupported :
  forall lib sys results output_file w,
    PyStr.lower (snd (OsPath.splitext output_file)) <> ".json" ->
    PyStr.lower (snd (OsPath.splitext output_file)) <> ".csv" ->
    os_makedirs sys (export_dir output_file) = None ->
    export_results lib sys results output_file w
    = ended lib (UnsupportedFileFormat (PyStr.lower (snd (OsPath.splitext output_file))))
        (did w [Makedirs (export_dir output_file)])
    /\ fs (snd (export_results lib sys results output_file w))
       = fs w ++ [Makedirs (export_dir output_file)].
Proof.
  intros lib sys results output_file w Hj Hc Hmk.
  rewrite export_results_unfold. cbv zeta. rewrite Hmk.
  apply String.eqb_neq in Hj, Hc. rewrite Hj, Hc. split; [reflexivity|].
  match goal with
  | |- context [ended lib ?m ?w0] => destruct (ended lib m w0) as [r w'] eqn:He
  end.
  apply ended_frame in He. destruct He as [_ [Hf _]]. simpl. rewrite Hf. reflexivity.
Qed.

Lemma export_unsupported_witness :
  export_results Sample.library Sample.system [Result "a" [("title", VStr "x")]]
    "new/dir/out.XML" Sample.empty_world
  = (inr tt,
     printed (did Sample.empty_world [Makedirs "new/dir"]) [UnsupportedFileFormat ".xml"]).
Proof.
  refine (proj1 (export_unsupported Sample.library Sample.system
                   [Result "a" [("title", VStr "x")]] "new/dir/out.XML" Sample.empty_world
                   _ _ eq_refl));
    vm_compute; discriminate.
Defined.

(** ** The rows of a CSV export *)

Lemma in_keys_update {V} (d other : PyDict.dict V) k :
  In k (PyDict.keys (PyDict.update d other))
  <-> In k (PyDict.keys d) \/ In k (PyDict.keys other).
Proof.
  unfold PyDict.update. revert d.
  induction other as [|[k1 v1] other IH]; intros d; simpl.
  - intuition.
  - rewrite IH, in_keys_set. simpl. intuition.
Qed.

Lemma get_update {V} (d other : PyDict.dict V) k :
  NoDup (PyDict.keys other) ->
  PyDict.get k (PyDict.update d other) =
  match PyDict.get k other with
  | Some v => Some v
  | None => PyDict.get k d
  end.
Proof.
  unfold PyDict.update. revert d.
  induction other as [|[k1 v1] other IH]; intros d Hnd; simpl; [reflexivity|].
  inversion Hnd as [|? ? Hnot Hnd']; subst.
  rewrite IH by exact Hnd'.
  destruct (String.eqb k k1) eqn:E.
  - apply String.eqb_eq in E. subst k1.
    assert (Hnone : PyDict.get k other = None) by (apply get_none_not_in; exact Hnot).
    rewrite Hnone. apply get_set_same.
  - apply String.eqb_neq in E.
    destruct (PyDict.get k other); [reflexivity|]. apply get_set_other. exact E.
Qed.

Lemma existsb_eqb_In k l : existsb (String.eqb k) l = true <-> In k l.
Proof.
  rewrite existsb_exists. split.
  - intros [x [Hx He]]. apply String.eqb_eq in He. subst. exact Hx.
  - intros H. exists k. split; [exact H | apply String.eqb_refl].
Qed.

Section RowFacts.

Variable lib : Library.
Variable output_file : string.
Variable fieldnames : list string.

Lemma writerow_fits item w :
  In "input" fieldnames -> fits fieldnames item -> proper item ->
  writerow lib output_file fieldnames (row_of item) w
  = (inr tt, did w [csv_row output_file fieldnames item]).
Proof.
  intros Hin Hfit Hprop. unfold writerow.
  assert (Hno : wrong_fields fieldnames (row_of item) = []).
  { unfold wrong_fields.
    destruct (filter _ (PyDict.keys (row_of item))) as [|k rest] eqn:E; [reflexivity|].
    assert (Hk : In k (filter (fun k => negb (existsb (String.eqb k) fieldnames))
                         (PyDict.keys (row_of item))))
      by (rewrite E; left; reflexivity).
    apply filter_In in Hk. destruct Hk as [Hk Hneg].
    apply in_keys_update in Hk.
    assert (Hkf : In k fieldnames).
    { destruct Hk as [[<-|[]]|Hk]; [exact Hin | apply Hfit; exact Hk]. }
    apply existsb_eqb_In in Hkf. rewrite Hkf in Hneg. discriminate. }
  rewrite Hno. unfold fs_do, did, csv_row.
  assert (Hcells : map (fun k => match PyDict.get k (row_of item) with
                                 | Some v => v
                                 | None => VStr EmptyString
                                 end) fieldnames
                   = map (csv_cell item) fieldnames).
  { apply map_ext. intros k. unfold row_of. rewrite get_update by exact Hprop.
    unfold csv_cell. destruct (PyDict.get k (response item)); [reflexivity|].
    simpl. destruct (String.eqb k "input"); reflexivity. }
  rewrite Hcells. reflexivity.
Qed.

Lemma writerow_extra item k w :
  In k (PyDict.keys (response item)) -> ~ In k fieldnames ->
  writerow lib output_file fieldnames (row_of item) w
  = (inl (wrong_fields_error lib fieldnames item), w)
    /\ In k (wrong_fields fieldnames (row_of item)).
Proof.
  intros Hk Hnot.
  assert (Hin : In k (wrong_fields fieldnames (row_of item))).
  { unfold wrong_fields. apply filter_In. split.
    - apply in_keys_update. right. exact Hk.
    - destruct (existsb (String.eqb k) fieldnames) eqn:E; [|reflexivity].
      apply existsb_eqb_In in E. contradiction. }
  split; [|exact Hin].
  unfold writerow, wrong_fields_error.
  destruct (wrong_fields fieldnames (row_of item)); [contradiction | reflexivity].
Qed.

Lemma for_each_rows_fit items : forall w,
  In "input" fieldnames ->
  Forall (fun item => fits fieldnames item /\ proper item) items ->
  for_each items (fun item => writerow lib output_file fieldnames (row_of item)) w
  = (inr tt, did w (map (csv_row output_file fieldnames) items)).
Proof.
  induction items as [|item items IH]; intros w Hin Hall; simpl.
  - unfold ret, did. rewrite app_nil_r. destruct w; reflexivity.
  - inversion Hall as [|? ? [Hfit Hprop] Hrest]; subst.
    unfold bind. rewrite writerow_fits by assumption.
    rewrite (IH _ Hin Hrest), did_did. reflexivity.
Qed.

Lemma for_each_rows_stop pre bad post k : forall w,
  In "input" fieldnames ->
  Forall (fun item => fits fieldnames item /\ proper item) pre ->
  In k (PyDict.keys (response bad)) -> ~ In k fieldnames ->
  for_each (pre ++ bad :: post)
    (fun item => writerow lib output_file fieldnames (row_of item)) w
  = (inl (wrong_fields_error lib fieldnames bad),
     did w (map (csv_row output_file fieldnames) pre)).
Proof.
  induction pre as [|item pre IH]; intros w Hin Hall Hk Hnot; simpl.
  - unfold bind. rewrite (proj1 (writerow_extra bad k w Hk Hnot)).
    unfold did. rewrite app_nil_r. destruct w; reflexivity.
  - inversion Hall as [|? ? [Hfit Hprop] Hrest]; subst.
    unfold bind. rewrite writerow_fits by assumption.
    rewrite (IH _ Hin Hrest Hk Hnot), did_did. reflexivity.
Qed.

End RowFacts.

(** The whole of an export to a [.csv] path whose rows fit the columns. *)
Lemma export_csv_complete lib sys first rest output_file w :
  PyStr.lower (snd (OsPath.splitext output_file)) = ".csv" ->
  os_makedirs sys (export_dir output_file) = None ->
  open_write sys output_file = None ->
  Forall (fun item => fits (csv_fieldnames first) item /\ proper item) (first :: rest) ->
  let written :=
    csv_start output_file first
    ++ map (fun item =>
              CsvRowWritten output_file (map (csv_cell item) (csv_fieldnames first)))
         (first :: rest) in
  export_results lib sys (first :: rest) output_file w
  = ended lib (ExportedToCSV output_file) (did w written)
  /\ fs (snd (export_results lib sys (first :: rest) output_file w)) = fs w ++ written.
Proof.
  intros Hext Hmk Hop Hall written.
  assert (H : export_results lib sys (first :: rest) output_file w
              = ended lib (ExportedToCSV output_file) (did w written)).
  { rewrite export_results_unfold. cbv zeta. rewrite Hmk, Hext, Hop.
    change (String.eqb ".csv" ".json") with false.
    change (String.eqb ".csv" ".csv") with true. cbv iota.
    rewrite (for_each_rows_fit lib output_file (csv_fieldnames first) (first :: rest) _
               (or_introl eq_refl) Hall).
    rewrite !did_did. reflexivity. }
  split; [exact H|]. rewrite H.
  destruct (ended lib (ExportedToCSV output_file) (did w written)) as [r w'] eqn:He.
  apply ended_frame in He. destruct He as [_ [Hf _]]. simpl. rewrite Hf. reflexivity.
Qed.

(** X9: an export to a [.csv] path of results whose responses are proper
    dicts with no key beyond the columns (the keys of the first response,
    and [input]) writes, when the directory can be made and the file
    opened, the header and then one row for each result, in order,
    whether the export then returns or raises.  The cell of a result in a
    column is the value of its response under that key; where the
    response has no such key it is the input context in the column
    [input] and empty elsewhere.  So a response with a key [input] takes
    the place of the input context.  After the rows the success is
    printed, with the path in its text; when that text is not well-formed
    console markup the MarkupError is printed as an unexpected error
    instead, or raised. *)
Theorem export_csv_rows :
  forall lib sys first rest output_file w,
    PyStr.lower (snd (OsPath.splitext output_file)) = ".csv" ->
    os_makedirs sys (export_dir output_file) = None ->
    open_write sys output_file = None ->
    Forall (fun item => fits (csv_fieldnames first) item /\ proper item) (first :: rest) ->
    let written :=
      csv_start output_file first
      ++ map (fun item =>
                CsvRowWritten output_file (map (csv_cell item) (csv_fieldnames first)))
           (first :: rest) in
    export_results lib sys (first :: rest) output_file w
    = ended lib (ExportedToCSV output_file) (did w written)
    /\ fs (snd (export_results lib sys (first :: rest) output_file w)) = fs w ++ written.
Proof.
  intros lib sys first rest output_file w Hext Hmk Hop Hall.
  exact (export_csv_complete lib sys first rest output_file w Hext Hmk Hop Hall).
Qed.

Lemma export_csv_rows_witness :
  export_results Sample.library Sample.system
    [Result "photo.png" [("title", VStr "A"); ("input", VStr "B")];
     Result "other.png" [("title", VStr "C")]]
    "out.csv" Sample.empty_world
  = (inr tt,
     printed
       (did Sample.empty_world
          [Makedirs "."; OpenedForWriting "out.csv";
           CsvRowWritten "out.csv" [VStr "input"; VStr "title"; VStr "input"];
           CsvRowWritten "out.csv" [VStr "B"; VStr "A"; VStr "B"];
           CsvRowWritten "out.csv" [VStr "other.png"; VStr "C"; VStr "other.png"]])
       [ExportedToCSV "out.csv"]).
Proof.
  refine (proj1 (export_csv_rows Sample.library Sample.system
           (Result "photo.png" [("title", VStr "A"); ("input", VStr "B")])
           [Result "other.png" [("title", VStr "C")]] "out.csv" Sample.empty_world
           eq_refl eq_refl eq_refl _)).
  assert (Hnd : forall a b : string, a <> b -> NoDup [a; b]).
  { intros a b Hab. constructor; [intros [H|[]]; congruence|].
    constructor; [intros []|constructor]. }
  constructor; [|constructor; [|constructor]]; split.
  - intros k Hk. right. exact Hk.
  - apply Hnd. discriminate.
  - intros k [<-|[]]. right. left. reflexivity.
  - constructor; [intros []|constructor].
Defined.

(** X10: when a result has a key that is not a column, the export to a
    [.csv] path stops at that result: the header and the rows of the
    results before it are in the file and no later row is, whether the
    export then returns or raises.  What is printed is the error of that
    row, as an unexpected error, and not the success; its text is the one
    of [csv.DictWriter], which lists the keys that are not columns, the
    key in question among them; when that text is not well-formed console
    markup, the MarkupError is raised and nothing is printed. *)
Theorem export_csv_stops_at_extra_key :
  forall lib sys first pre bad post k output_file w,
    PyStr.lower (snd (OsPath.splitext output_file)) = ".csv" ->
    os_makedirs sys (export_dir output_file) = None ->
    open_write sys output_file = None ->
    Forall (fun item => fits (csv_fieldnames first) item /\ proper item) (first :: pre) ->
    In k (PyDict.keys (response bad)) ->
    ~ In k (csv_fieldnames first) ->
    let written :=
      csv_start output_file first
      ++ map (csv_row output_file (csv_fieldnames first)) (first :: pre) in
    export_results lib sys (first :: pre ++ bad :: post) output_file w
    = shown lib
        (UnexpectedErrorDuringExport (wrong_fields_error lib (csv_fieldnames first) bad))
        tt (did w written)
    /\ In k (wrong_fields (csv_fieldnames first) (row_of bad))
    /\ fs (snd (export_results lib sys (first :: pre ++ bad :: post) output_file w))
       = fs w ++ written.
Proof.
  intros lib sys first pre bad post k output_file w Hext Hmk Hop Hall Hk Hnot written.
  assert (H : export_results lib sys (first :: pre ++ bad :: post) output_file w
              = shown lib
                  (UnexpectedErrorDuringExport
                     (wrong_fields_error lib (csv_fieldnames first) bad))
                  tt (did w written)).
  { rewrite export_results_unfold. cbv zeta. rewrite Hmk, Hext, Hop.
    change (String.eqb ".csv" ".json") with false.
    change (String.eqb ".csv" ".csv") with true. cbv iota.
    change (first :: pre ++ bad :: post) with ((first :: pre) ++ bad :: post).
    rewrite (for_each_rows_stop lib output_file (csv_fieldnames first) (first :: pre)
               bad post k _ (or_introl eq_refl) Hall Hk Hnot).
    rewrite !did_did. reflexivity. }
  split; [exact H|].
  split; [apply (writerow_extra lib output_file (csv_fieldnames first) bad k w Hk Hnot)|].
  rewrite H.
  match goal with
  | |- context [shown lib ?m tt ?w0] => destruct (shown lib m tt w0) as [r w'] eqn:He
  end.
  apply shown_frame in He. destruct He as [_ [Hf _]]. simpl. rewrite Hf. reflexivity.
Qed.

Lemma export_csv_stops_at_extra_key_witness :
  export_results Sample.library Sample.system
    [Result "a" [("title", VStr "x")];
     Result "b" [("title", VStr "y"); ("year", VInt 1999)];
     Result "c" [("title", VStr "z")]]
    "out.csv" Sample.empty_world
  = (inr tt,
     printed
       (did Sample.empty_world
          [Makedirs "."; OpenedForWriting "out.csv";
           CsvRowWritten "out.csv" [VStr "input"; VStr "title"];
           CsvRowWritten "out.csv" [VStr "a"; VStr "x"]])
       [UnexpectedErrorDuringExport
          (ValueError "dict contains fields not in fieldnames: 'year'")]).
Proof.
  refine (proj1 (export_csv_stops_at_extra_key Sample.library Sample.system
           (Result "a" [("title", VStr "x")]) []
           (Result "b" [("title", VStr "y"); ("year", VInt 1999)])
           [Result "c" [("title", VStr "z")]] "year" "out.csv" Sample.empty_world
           eq_refl eq_refl eq_refl _ _ _)).
  - constructor; [|constructor]. split.
    + intros k Hk. right. exact Hk.
    + constructor; [intros []|constructor].
  - right. left. reflexivity.
  - intros [H|[H|[]]]; discriminate.
Defined.

(** ** Bulk images *)

Lemma endswith_spec suffix s :
  PyText.endswith suffix s = true <-> exists pre, s = (pre ++ suffix)%string.
Proof.
  split.
  - induction s as [|c s IH]; simpl.
    + destruct (String.eqb suffix EmptyString) eqn:E; [|discriminate].
      apply String.eqb_eq in E. subst. exists EmptyString. reflexivity.
    + destruct (String.eqb suffix (String c s)) eqn:E.
      * apply String.eqb_eq in E. subst. exists EmptyString. reflexivity.
      * intros H. destruct (IH H) as [pre ->]. exists (String c pre). reflexivity.
  - intros [pre ->]. induction pre as [|c pre IH]; simpl.
    + destruct suffix as [|a suffix]; [reflexivity|].
      cbn [PyText.endswith]. rewrite String.eqb_refl. reflexivity.
    + rewrite IH. destruct (String.eqb suffix (String c (pre ++ suffix))); reflexivity.
Qed.

Lemma rfind_absent c s : occurs c s = false -> PyStr.rfind c s = None.
Proof.
  induction s as [|a s IH]; simpl; [reflexivity|].
  intros H. apply orb_false_iff in H. destruct H as [Ha Hs].
  rewrite IH, Ha by exact Hs. reflexivity.
Qed.

Lemma rfind_last c q s :
  occurs c s = false ->
  PyStr.rfind c (q ++ String c s) = Some (String.length q).
Proof.
  intros Hs. induction q as [|a q IH]; simpl.
  - rewrite rfind_absent by exact Hs. rewrite Ascii.eqb_refl. reflexivity.
  - rewrite IH. reflexivity.
Qed.

Lemma substring_all s : String.substring 0 (String.length s) s = s.
Proof. induction s as [|c s IH]; simpl; [reflexivity | rewrite IH; reflexivity]. Qed.

Lemma drop_prefix q s : PyStr.drop (String.length q) (q ++ s) = s.
Proof.
  unfold PyStr.drop. induction q as [|a q IH]; simpl.
  - rewrite Nat.sub_0_r. apply substring_all.
  - exact IH.
Qed.

Lemma basename_after_slash q s :
  occurs "/" s = false -> OsPath.basename (q ++ String "/" s) = s.
Proof.
  intros Hs. unfold OsPath.basename, OsPath.sep. rewrite rfind_last by exact Hs.
  change (q ++ String "/" s)%string with (q ++ (String "/" EmptyString ++ s))%string.
  assert (Happ : forall a b c : string, (a ++ (b ++ c) = (a ++ b) ++ c)%string).
  { intros a b c. induction a as [|x a IH]; simpl; [reflexivity | rewrite IH; reflexivity]. }
  assert (Hlen : S (String.length q) = String.length (q ++ String "/" EmptyString)).
  { clear. induction q as [|a q IH]; simpl; [reflexivity | rewrite <- IH; reflexivity]. }
  rewrite Happ, Hlen. apply drop_prefix.
Qed.

(** The file name comes back from the path made for it. *)
Lemma basename_join folder_path filename :
  occurs "/" filename = false ->
  OsPath.basename (PyText.join folder_path filename) = filename.
Proof.
  intros Hs. unfold PyText.join.
  assert (Hstart : PyStr.startswith "/" filename = false).
  { destruct filename as [|c f]; [reflexivity|].
    cbn [occurs] in Hs. cbn [PyStr.startswith].
    apply orb_false_iff in Hs. destruct Hs as [Hc _].
    rewrite Ascii.eqb_sym, Hc. reflexivity. }
  rewrite Hstart.
  destruct folder_path as [|a rest] eqn:Hf.
  - simpl. unfold OsPath.basename, OsPath.sep. rewrite rfind_absent by exact Hs. reflexivity.
  - rewrite <- Hf. replace (PyStr.truthy folder_path) with true by (subst; reflexivity).
    simpl negb. simpl orb.
    destruct (PyText.endswith "/" folder_path) eqn:He.
    + apply endswith_spec in He. destruct He as [pre ->].
      assert (Happ : forall a b c : string, ((a ++ b) ++ c = a ++ (b ++ c))%string).
      { intros x y z. induction x as [|ch x IH]; simpl; [reflexivity | rewrite IH; reflexivity]. }
      rewrite Happ. apply basename_after_slash. exact Hs.
    + apply basename_after_slash. exact Hs.
Qed.

Lemma print_noticed lib (n : notice) s : Prog.print lib n s = noticed lib n tt s.
Proof. reflexivity. Qed.

Lemma print_and_ret {A} lib (n : notice) (a : A) s :
  Prog.bind (Prog.print lib n) (fun _ => Prog.ret a) s = noticed lib n a s.
Proof.
  unfold Prog.bind, Prog.print, noticed. destruct (notice_error lib n); reflexivity.
Qed.

(** What printing a notice leaves as it was. *)
Lemma noticed_frame {A} lib (n : notice) (a : A) s r s' :
  noticed lib n a s = (r, s') ->
  world s' = world s /\ stdin s' = stdin s
  /\ ((r = inr a /\ notices s' = notices s ++ [n])
      \/ (exists msg, r = inl (MarkupError msg) /\ s' = s)).
Proof.
  unfold noticed. destruct (notice_error lib n) as [msg|]; intros H; inversion H; subst;
    simpl.
  - split; [reflexivity|]. split; [reflexivity|]. right. eauto.
  - split; [reflexivity|]. split; [reflexivity|]. left. auto.
Qed.

(** [process_image] touches no file, however it ends, and tags its
    results with the name of the file. *)
Lemma process_image_frame lib sys self image_path fields w r w' :
  process_image lib sys self image_path fields w = (r, w') ->
  fs w' = fs w
  /\ forall rs, r = inr rs ->
       forall x, In x rs ->
         input x = OsPath.basename image_path /\ NoDup (PyDict.keys (response x)).
Proof.
  intros H. destruct (get_dynamic_model lib fields) as [e|m] eqn:Hm.
  - rewrite (process_image_raises lib sys self image_path fields e w Hm) in H.
    inversion H; subst. split; [reflexivity | discriminate].
  - rewrite (process_image_unfold lib sys self image_path fields m w Hm) in H.
    destruct (open_read_bytes sys image_path) as [e|img].
    { apply shown_frame in H. destruct H as [_ [Hf [[-> _]|[msg [-> _]]]]].
      - split; [exact Hf|]. intros rs Hrs. inversion Hrs; subst. intros x [].
      - split; [exact Hf | discriminate]. }
    destruct (client_chat sys (requests w) (image_request self fields m img))
      as [e|content].
    { apply shown_frame in H. destruct H as [_ [Hf [[-> _]|[msg [-> _]]]]].
      - split; [exact Hf|]. intros rs Hrs. inversion Hrs; subst. intros x [].
      - split; [exact Hf | discriminate]. }
    apply extract_frame in H. destruct H as [_ [Hf [_ Hrs]]].
    split; [exact Hf|]. intros rs Heq x Hx.
    destruct (Hrs rs Heq) as [m' [_ [Hall _]]]. destruct (Hall x Hx) as [Hi [_ Hn]].
    split; assumption.
Qed.

Section ImageLoop.

Variable lib : Library.
Variable sys : System.
Variable self : DynamicExtractor.
Variable folder_path : string.
Variable fields : list field.

(** The loop over the names, when every image returns. *)
Lemma for_extend_images names : forall acc s rs w',
  images_in_order lib sys self folder_path fields names (world s) rs w' ->
  Prog.for_extend names
    (fun filename =>
       Prog.in_world (process_image lib sys self (PyText.join folder_path filename) fields))
    acc s
  = (inr (acc ++ rs), mkSession w' (notices s) (stdin s)).
Proof.
  induction names as [|filename names IH]; intros acc s rs w' Hord; simpl.
  - inversion Hord; subst. rewrite app_nil_r. destruct s; reflexivity.
  - inversion Hord as [|? ? ? rs1 w1 rs2 ? Hfirst Hothers]; subst.
    unfold Prog.bind, Prog.in_world at 1. rewrite Hfirst.
    rewrite (IH (acc ++ rs1) (mkSession w1 (notices s) (stdin s)) rs2 w' Hothers), app_assoc.
    reflexivity.
Qed.

(** The loop over the names, when an image raises: the loop ends there. *)
Lemma for_extend_images_stop names : forall acc s before filename rest rs w1 e w2,
  names = before ++ filename :: rest ->
  images_in_order lib sys self folder_path fields before (world s) rs w1 ->
  process_image lib sys self (PyText.join folder_path filename) fields w1 = (inl e, w2) ->
  Prog.for_extend names
    (fun filename =>
       Prog.in_world (process_image lib sys self (PyText.join folder_path filename) fields))
    acc s
  = (inl e, mkSession w2 (notices s) (stdin s)).
Proof.
  induction names as [|x names IH]; intros acc s before filename rest rs w1 e w2 Hn Hord Hu.
  - destruct before; discriminate.
  - simpl. unfold Prog.bind, Prog.in_world at 1.
    destruct before as [|d before]; simpl in Hn; inversion Hn; subst.
    + inversion Hord; subst. rewrite Hu. reflexivity.
    + inversion Hord as [|? ? ? rs1 w0 rs2 ? Hfirst Hothers]; subst.
      rewrite Hfirst.
      apply (IH (acc ++ rs1) (mkSession w0 (notices s) (stdin s)) before filename rest
               rs2 w1 e w2 eq_refl Hothers Hu).
Qed.

(** The loop over the names, however it ends. *)
Lemma for_extend_images_frame names : forall acc s r s',
  Prog.for_extend names
    (fun filename =>
       Prog.in_world (process_image lib sys self (PyText.join folder_path filename) fields))
    acc s = (r, s') ->
  fs (world s') = fs (world s)
  /\ notices s' = notices s
  /\ stdin s' = stdin s
  /\ forall rs',
       r = inr rs' ->
       exists rs,
         rs' = acc ++ rs
         /\ forall x, In x rs ->
              exists filename,
                In filename names
                /\ input x = OsPath.basename (PyText.join folder_path filename).
Proof.
  induction names as [|filename names IH]; intros acc s r s' H; simpl in H.
  - inversion H; subst. repeat split; try reflexivity.
    intros rs' Heq. inversion Heq; subst. exists []. rewrite app_nil_r.
    split; [reflexivity | intros x []].
  - unfold Prog.bind, Prog.in_world at 1 in H.
    destruct (process_image lib sys self (PyText.join folder_path filename) fields (world s))
      as [[e|rs1] w1] eqn:Hu.
    + inversion H; subst. simpl.
      destruct (process_image_frame _ _ _ _ _ _ _ _ Hu) as [Hf _].
      repeat split; try reflexivity; [exact Hf | discriminate].
    + destruct (process_image_frame _ _ _ _ _ _ _ _ Hu) as [Hf Hall].
      destruct (IH _ _ _ _ H) as [Hf' [Hn [Hs Hres]]]. simpl in Hf', Hn, Hs.
      split; [rewrite Hf', Hf; reflexivity|]. split; [exact Hn|]. split; [exact Hs|].
      intros rs' Heq. destruct (Hres rs' Heq) as [rs [-> Hin]].
      exists (rs1 ++ rs). split; [rewrite app_assoc; reflexivity|].
      intros x Hx. apply in_app_or in Hx. destruct Hx as [Hx|Hx].
      * exists filename. split; [left; reflexivity|]. apply (Hall rs1 eq_refl x Hx).
      * destruct (Hin x Hx) as [f [Hfin Hi]]. exists f. split; [right; exact Hfin | exact Hi].
Qed.

End ImageLoop.

(** [process_bulk_images], as the listing, the loop and the handler. *)
Lemma process_bulk_images_unfold host lib sys self folder_path fields s :
  process_bulk_images host lib sys self folder_path fields s =
  match os_listdir host folder_path with
  | inl e => noticed lib (ErrorProcessingBulkImages e) [] s
  | inr names =>
      match Prog.for_extend (filter is_image names)
              (fun filename =>
                 Prog.in_world
                   (process_image lib sys self (PyText.join folder_path filename) fields))
              [] s with
      | (inr rs, s') => (inr rs, s')
      | (inl e, s') => noticed lib (ErrorProcessingBulkImages e) [] s'
      end
  end.
Proof.
  unfold process_bulk_images, Prog.try_except, Prog.bind at 1.
  destruct (os_listdir host folder_path) as [e|names]; simpl Prog.lift.
  - unfold Prog.raise. cbn [Prog.find_handler]. rewrite isinstance_Exception.
    apply print_and_ret.
  - unfold Prog.ret at 1. cbv beta iota. fold is_image.
    destruct (Prog.for_extend (filter is_image names) _ [] s) as [[e|rs] s'].
    + cbn [Prog.find_handler]. rewrite isinstance_Exception. apply print_and_ret.
    + reflexivity.
Qed.

(** X11: when the folder cannot be listed, [process_bulk_images] prints
    that error and returns the empty list.  Otherwise the names taken for
    images (those that end, whatever the case of their letters, in .png,
    .jpg, .jpeg, .gif or .bmp) go through [process_image] one after the
    other, in the order of the listing, each under its path in the
    folder, and the other names are passed over.  When each image
    returns, the run returns their results joined in that order.  When
    [process_image] raises at an image, the run ends there: the error is
    printed and the empty list is returned, without the results of the
    images before.  An error is printed with its text, and when that text
    is not well-formed console markup nothing is printed and the
    MarkupError is raised. *)
Theorem process_bulk_images_in_order :
  forall host lib sys self folder_path fields s,
    (forall e,
        os_listdir host folder_path = inl e ->
        process_bulk_images host lib sys self folder_path fields s
        = noticed lib (ErrorProcessingBulkImages e) [] s)
    /\ (forall names,
           os_listdir host folder_path = inr names ->
           (forall rs w',
               images_in_order lib sys self folder_path fields
                 (filter is_image names) (world s) rs w' ->
               process_bulk_images host lib sys self folder_path fields s
               = (inr rs, mkSession w' (notices s) (stdin s)))
           /\ (forall before filename rest rs w1 e w2,
                  filter is_image names = before ++ filename :: rest ->
                  images_in_order lib sys self folder_path fields before (world s) rs w1 ->
                  process_image lib sys self (PyText.join folder_path filename) fields w1
                  = (inl e, w2) ->
                  process_bulk_images host lib sys self folder_path fields s
                  = noticed lib (ErrorProcessingBulkImages e) []
                      (mkSession w2 (notices s) (stdin s)))).
Proof.
  intros host lib sys self folder_path fields s. split.
  - intros e He. rewrite process_bulk_images_unfold, He. reflexivity.
  - intros names Hnames. rewrite process_bulk_images_unfold, Hnames. split.
    + intros rs w' Hord.
      rewrite (for_extend_images lib sys self folder_path fields _ [] s rs w' Hord).
      reflexivity.
    + intros before filename rest rs w1 e w2 Hf Hord Hu.
      rewrite (for_extend_images_stop lib sys self folder_path fields _ [] s before
                 filename rest rs w1 e w2 Hf Hord Hu).
      reflexivity.
Qed.

Lemma process_bulk_images_in_order_witness :
  exists w',
    process_bulk_images SampleHost.host Sample.library Sample.system Sample.extractor
      "scans" Sample.title_only (SampleHost.start [])
    = (inr ([Result "page.png" [("title", VStr "Scan")]] ++ [] ++ []),
       mkSession w' [] []).
Proof.
  eexists.
  apply (proj1 (proj2 (process_bulk_images_in_order SampleHost.host Sample.library
                         Sample.system Sample.extractor "scans" Sample.title_only
                         (SampleHost.start []))
                  ["page.png"; "notes.txt"; "COVER.JPG"] eq_refl)).
  change (filter is_image ["page.png"; "notes.txt"; "COVER.JPG"])
    with ["page.png"; "COVER.JPG"].
  econstructor; [lazy; reflexivity|].
  econstructor; [lazy; reflexivity | constructor].
Defined.

(** X12: when the names of the listing have no slash in them, every result
    of [process_bulk_images] carries as its input the name of an image file
    of the folder, not its path; no file is written. *)
Theorem process_bulk_images_inputs :
  forall host lib sys self folder_path fields s names rs s',
    os_listdir host folder_path = inr names ->
    Forall (fun filename => occurs "/" filename = false) names ->
    process_bulk_images host lib sys self folder_path fields s = (inr rs, s') ->
    fs (world s') = fs (world s)
    /\ forall r, In r rs -> In (input r) names /\ is_image (input r) = true.
Proof.
  intros host lib sys self folder_path fields s names rs s' Hnames Hslash Hrun.
  rewrite process_bulk_images_unfold, Hnames in Hrun.
  destruct (Prog.for_extend (filter is_image names) _ [] s) as [[e|rs0] s0] eqn:Hloop.
  - destruct (for_extend_images_frame lib sys self folder_path fields _ _ _ _ _ Hloop)
      as [Hf _].
    apply noticed_frame in Hrun. destruct Hrun as [Hw [_ [[Heq _]|[msg [Heq _]]]]];
      [|discriminate].
    inversion Heq; subst rs. split; [rewrite Hw; exact Hf | intros r []].
  - inversion Hrun; subst rs0 s0.
    destruct (for_extend_images_frame lib sys self folder_path fields _ _ _ _ _ Hloop)
      as [Hf [_ [_ Hres]]].
    split; [exact Hf|].
    destruct (Hres rs eq_refl) as [rs1 [Heq Hall]]. simpl in Heq. subst rs1.
    intros r Hin. destruct (Hall r Hin) as [filename [Hfin Hi]].
    apply filter_In in Hfin. destruct Hfin as [Hfin Himg].
    rewrite Forall_forall in Hslash.
    rewrite basename_join in Hi by (apply Hslash; exact Hfin).
    rewrite Hi. split; assumption.
Qed.

Lemma process_bulk_images_inputs_witness :
  In (input (Result "page.png" [("title", VStr "Scan")]))
    ["page.png"; "notes.txt"; "COVER.JPG"]
  /\ is_image (input (Result "page.png" [("title", VStr "Scan")])) = true.
Proof.
  refine (proj2 (process_bulk_images_inputs SampleHost.host Sample.library Sample.system
                   Sample.extractor "scans" Sample.title_only (SampleHost.start [])
                   ["page.png"; "notes.txt"; "COVER.JPG"]
                   [Result "page.png" [("title", VStr "Scan")]] _ eq_refl _ _)
            (Result "page.png" [("title", VStr "Scan")]) (or_introl eq_refl)).
  - repeat constructor.
  - vm_compute. reflexivity.
Defined.

(** ** From a bulk run to its export *)

(** X13: the results of a bulk run over a [.txt] file fit the columns of
    a [.csv] export: when the run returns results, the model was built,
    and every response has the fields of the model as its keys; so the
    export writes, when the directory can be made and the file opened,
    the header [input] followed by the names of the fields of the model,
    and then one row for each result, in order, none of them refused by
    the CSV writer, whether the export then returns or raises on printing
    the success. *)
Theorem export_of_bulk_text :
  forall lib sys self file_path fields contents w first rest w1 output_file w2,
    PyStr.lower (snd (OsPath.splitext file_path)) = ".txt" ->
    open_read sys file_path = inr contents ->
    process_bulk_text lib sys self file_path fields w = (inr (first :: rest), w1) ->
    PyStr.lower (snd (OsPath.splitext output_file)) = ".csv" ->
    os_makedirs sys (export_dir output_file) = None ->
    open_write sys output_file = None ->
    exists m,
      get_dynamic_model lib fields = inr m
      /\ let columns := "input" :: PyDict.keys (model_fields m) in
         let written :=
           [Makedirs (export_dir output_file);
            OpenedForWriting output_file;
            CsvRowWritten output_file (map VStr columns)]
           ++ map (fun item => CsvRowWritten output_file (map (csv_cell item) columns))
                (first :: rest) in
         export_results lib sys (first :: rest) output_file w2
         = ended lib (ExportedToCSV output_file) (did w2 written)
         /\ fs (snd (export_results lib sys (first :: rest) output_file w2))
            = fs w2 ++ written.
Proof.
  intros lib sys self file_path fields contents w first rest w1 output_file w2
    Hext Hread Hrun Hcsv Hmk Hop.
  rewrite (process_bulk_text_txt_unfold lib sys self file_path fields contents w Hext Hread)
    in Hrun.
  destruct (for_extend (PyStr.split ",," contents) (process_unit lib sys self fields) [] w)
    as [[e|rs] w0] eqn:Hloop.
  { apply shown_frame in Hrun. destruct Hrun as [_ [_ [[H _]|[msg [H _]]]]]; discriminate. }
  inversion Hrun; subst rs w0. clear Hrun.
  destruct (get_dynamic_model lib fields) as [e|m] eqn:Hm.
  { (* without a model no unit gives a result *)
    exfalso. clear - Hloop Hm.
    assert (Hnone : forall units acc w r w',
               for_extend units (process_unit lib sys self fields) acc w = (inr r, w') ->
               r = acc).
    { induction units as [|u units IH]; intros acc w0 r w' H; simpl in H.
      - inversion H. reflexivity.
      - unfold bind, process_unit at 1 in H.
        destruct (PyStr.truthy (PyStr.strip u)).
        + rewrite (process_text_raises lib sys self u fields e w0 Hm) in H. discriminate.
        + unfold ret at 1 in H. rewrite app_nil_r in H. apply (IH _ _ _ _ H). }
    specialize (Hnone _ _ _ _ _ Hloop). discriminate. }
  exists m. split; [reflexivity|].
  destruct (for_extend_units_frame lib sys self fields m _ Hm _ _ _ _ Hloop)
    as [_ [_ Hres]].
  destruct (Hres _ eq_refl) as [rs [Heq Hall]]. simpl in Heq. subst rs.
  assert (Hkeys : forall r, In r (first :: rest) ->
                    PyDict.keys (response r) = PyDict.keys (model_fields m)
                    /\ NoDup (PyDict.keys (response r))).
  { intros r Hin. destruct (Hall r Hin) as [_ [Hk Hn]]. split; assumption. }
  assert (Hcols : csv_fieldnames first = "input" :: PyDict.keys (model_fields m)).
  { unfold csv_fieldnames. rewrite (proj1 (Hkeys first (or_introl eq_refl))). reflexivity. }
  assert (Hfit : Forall (fun item => fits (csv_fieldnames first) item /\ proper item)
                   (first :: rest)).
  { apply Forall_forall. intros r Hin. destruct (Hkeys r Hin) as [Hk Hn].
    split; [|exact Hn].
    intros k Hkin. rewrite Hcols. right. rewrite <- Hk. exact Hkin. }
  pose proof (export_csv_complete lib sys first rest output_file w2 Hcsv Hmk Hop Hfit) as Hexp.
  cbv zeta in Hexp. unfold csv_start in Hexp. rewrite Hcols in Hexp.
  cbv zeta. exact Hexp.
Qed.

Lemma export_of_bulk_text_witness :
  exists m,
    get_dynamic_model Sample.library Sample.title_only = inr m
    /\ let columns := "input" :: PyDict.keys (model_fields m) in
       let results :=
         [Result "foo" [("title", VStr "Foo")];
          Result "bar" [("title", VStr "Bar")];
          Result "bar" [("title", VStr "Baz")]] in
       let written :=
         [Makedirs (export_dir "out/results.csv");
          OpenedForWriting "out/results.csv";
          CsvRowWritten "out/results.csv" (map VStr columns)]
         ++ map (fun item => CsvRowWritten "out/results.csv" (map (csv_cell item) columns))
              results in
       export_results Sample.library Sample.system results "out/results.csv"
         Sample.empty_world
       = ended Sample.library (ExportedToCSV "out/results.csv")
           (did Sample.empty_world written)
       /\ fs (snd (export_results Sample.library Sample.system results "out/results.csv"
                     Sample.empty_world))
          = fs Sample.empty_world ++ written.
Proof.
  assert (Hrun : exists w1,
             process_bulk_text Sample.library Sample.system Sample.extractor "units.txt"
               Sample.title_only Sample.empty_world
             = (inr [Result "foo" [("title", VStr "Foo")];
                     Result "bar" [("title", VStr "Bar")];
                     Result "bar" [("title", VStr "Baz")]], w1))
    by (eexists; vm_compute; reflexivity).
  destruct Hrun as [w1 Hrun].
  exact (export_of_bulk_text Sample.library Sample.system Sample.extractor "units.txt"
           Sample.title_only "foo,,bar,," Sample.empty_world _ _ w1 "out/results.csv"
           Sample.empty_world eq_refl eq_refl Hrun eq_refl eq_refl eq_refl).
Defined.

(** ** Display *)

Lemma fold_add_column (f : string -> string) style keys : forall t,
  fold_left (fun t key => add_column t (f key) style) keys t
  = mkTable (table_title t)
      (table_columns t ++ map (fun key => (f key, style)) keys) (table_rows t).
Proof.
  induction keys as [|k keys IH]; intros t; simpl.
  - rewrite app_nil_r. destruct t; reflexivity.
  - rewrite IH. simpl. rewrite <- app_assoc. reflexivity.
Qed.

Lemma fold_add_row (f : result -> list string) items : forall t,
  fold_left (fun t item => add_row t (f item)) items t
  = mkTable (table_title t) (table_columns t) (table_rows t ++ map f items).
Proof.
  induction items as [|x items IH]; intros t; simpl.
  - rewrite app_nil_r. destruct t; reflexivity.
  - rewrite IH. simpl. rewrite <- app_assoc. reflexivity.
Qed.

(** The table that the loops of [display_results] build. *)
Lemma display_results_table host lib results s :
  display_results host lib results "table" s
  = Prog.try_except (Prog.print lib (TablePrinted (results_table host results)))
      [ (CException, fun e => Prog.print lib (ErrorDisplayingResults e)) ] s.
Proof.
  unfold display_results.
  change (String.eqb "table" "json") with false.
  change (String.eqb "table" "table") with true. cbv iota.
  destruct results as [|first rest]; [reflexivity|].
  unfold results_table. cbv zeta.
  rewrite fold_add_row, fold_add_column. simpl table_title. simpl table_columns.
  simpl table_rows.
  assert (Hrows : forall items : list result,
             map (fun item =>
                    input item
                    :: map (fun key =>
                              py_str host
                                match PyDict.get key (response item) with
                                | Some v => v
                                | None => VStr "N/A"
                                end) (PyDict.keys (response first))) items
             = map (fun item =>
                      input item
                      :: map (table_cell host item) (PyDict.keys (response first)))
                 items).
  { intros items. apply map_ext. intros item. f_equal. apply map_ext. intros key.
    unfold table_cell. destruct (PyDict.get key (response item)); reflexivity. }
  rewrite Hrows. reflexivity.
Qed.

(** X14: in table mode [display_results] builds one table, also for no
    results, when the table has no column and no row.  Otherwise its
    columns are [Input] and one column for each key of the first
    response; there is one row for each result, in order, with as many
    cells as there are columns: the input, then under each of these keys
    the value of the response, or [N/A] where it has none.  Keys that the
    first response lacks are not shown.  The headers and the cells are
    read as console markup when the table is printed: when they all are
    well-formed, the table is printed and nothing else; otherwise nothing
    of the table is printed and the MarkupError is printed as an error of
    the display, or raised when its text is not well-formed either.  The
    world of the extractor is left as it is. *)
Theorem display_table :
  forall host lib results s,
    let t := results_table host results in
    display_results host lib results "table" s
    = match first_error lib (table_texts t) with
      | None => (inr tt, mkSession (world s) (notices s ++ [TablePrinted t]) (stdin s))
      | Some msg => noticed lib (ErrorDisplayingResults (MarkupError msg)) tt s
      end
    /\ (results = [] -> table_columns t = [] /\ table_rows t = [])
    /\ (forall first rest,
           results = first :: rest ->
           map fst (table_columns t)
           = "Input" :: map (column_header host) (PyDict.keys (response first))
           /\ table_rows t
              = map (fun item =>
                       input item
                       :: map (table_cell host item) (PyDict.keys (response first)))
                  results)
    /\ Forall (fun row => List.length row = List.length (table_columns t)) (table_rows t).
Proof.
  intros host lib results s t. split; [|split; [|split]].
  - rewrite display_results_table. fold t.
    unfold Prog.try_except, Prog.print at 1. cbn [notice_error].
    destruct (first_error lib (table_texts t)) as [msg|]; reflexivity.
  - intros ->. split; reflexivity.
  - intros first rest ->. subst t. simpl. rewrite map_map. simpl. split; reflexivity.
  - subst t. destruct results as [|first rest]; [constructor|].
    apply Forall_forall. intros row Hrow.
    change (In row (map (fun item =>
                           input item
                           :: map (table_cell host item) (PyDict.keys (response first)))
                      (first :: rest))) in Hrow.
    apply in_map_iff in Hrow. destruct Hrow as [item [<- _]].
    simpl. rewrite !length_map. reflexivity.
Qed.

(** ** The command line *)

Section Dialogue.

Lemma holds_bind {A B} (m : Prog.T A) (k : A -> Prog.T B) s Q E :
  holds m s (fun a s' => holds (k a) s' Q E) E -> holds (Prog.bind m k) s Q E.
Proof.
  unfold holds, Prog.bind. destruct (m s) as [[e|a] s']; auto.
Qed.

Lemma holds_ret {A} (a : A) s (Q : A -> Session -> Prop) E :
  Q a s -> holds (Prog.ret a) s Q E.
Proof. auto. Qed.

Lemma holds_raise {A} e s (Q : A -> Session -> Prop) (E : exn -> Session -> Prop) :
  E e s -> holds (@Prog.raise A e) s Q E.
Proof. auto. Qed.

Lemma holds_notify n s (Q : unit -> Session -> Prop) E :
  (forall s', world s' = world s -> stdin s' = stdin s -> Q tt s') ->
  holds (Prog.notify n) s Q E.
Proof. intros H. apply H; reflexivity. Qed.

Lemma holds_for_each_notify {A} (n : A -> notice) items s
    (Q : unit -> Session -> Prop) E :
  (forall s', world s' = world s -> stdin s' = stdin s -> Q tt s') ->
  holds (Prog.for_each items (fun it => Prog.notify (n it))) s Q E.
Proof.
  revert s. induction items as [|x items IH]; intros s H; simpl.
  - apply H; reflexivity.
  - apply holds_bind. apply holds_notify. intros s1 Hw Hs.
    apply IH. intros s2 Hw2 Hs2. apply H; congruence.
Qed.

Lemma holds_input prompt s (Q : string -> Session -> Prop) (E : exn -> Session -> Prop) :
  (forall s', world s' = world s -> stdin s = [] ->
              E (Exception "EOF when reading a line") s') ->
  (forall line rest s',
      world s' = world s -> stdin s = line :: rest -> stdin s' = rest -> Q line s') ->
  holds (input_ prompt) s Q E.
Proof.
  intros He Hq. unfold holds, input_.
  destruct (stdin s) as [|line rest] eqn:Hs.
  - apply He; reflexivity.
  - apply (Hq line rest); reflexivity.
Qed.

Lemma ask_optional_unfold rounds optional_input :
  ask_optional rounds optional_input =
  if existsb (String.eqb optional_input) ["y"; "n"] then Prog.ret optional_input
  else
    Prog.bind (Prog.notify InvalidOptional)
      (fun _ =>
         Prog.bind (input_ "Is this field optional? (y/n): ")
           (fun line =>
              match rounds with
              | O => Prog.raise out_of_rounds
              | S n => ask_optional n (PyStr.lower line)
              end)).
Proof. destruct rounds; reflexivity. Qed.

Lemma eof_is_not_out_of_rounds : Exception "EOF when reading a line" <> out_of_rounds.
Proof. unfold out_of_rounds. intros H. inversion H. Qed.

Lemma ask_optional_holds rounds : forall optional_input s,
  List.length (stdin s) <= rounds ->
  holds (ask_optional rounds optional_input) s
    (fun answer s' =>
       (answer = "y" \/ answer = "n")
       /\ world s' = world s
       /\ List.length (stdin s') <= List.length (stdin s))
    (fun e s' => e <> out_of_rounds /\ world s' = world s).
Proof.
  induction rounds as [|n IH]; intros optional_input s Hlen;
    rewrite ask_optional_unfold;
    destruct (existsb (String.eqb optional_input) ["y"; "n"]) eqn:Hyn.
  - apply holds_ret. split; [|split; [reflexivity | lia]].
    simpl in Hyn. apply orb_true_iff in Hyn. destruct Hyn as [H|H].
    + left. apply String.eqb_eq. exact H.
    + apply orb_true_iff in H. destruct H as [H|H]; [|discriminate].
      right. apply String.eqb_eq. exact H.
  - apply holds_bind, holds_notify. intros s1 Hw1 Hs1.
    apply holds_bind, holds_input.
    + intros s2 Hw2 _. split; [apply eof_is_not_out_of_rounds | congruence].
    + intros line rest s2 Hw2 Hs Hs2. exfalso.
      rewrite Hs1 in Hs. rewrite Hs in Hlen. simpl in Hlen. lia.
  - apply holds_ret. split; [|split; [reflexivity | lia]].
    simpl in Hyn. apply orb_true_iff in Hyn. destruct Hyn as [H|H].
    + left. apply String.eqb_eq. exact H.
    + apply orb_true_iff in H. destruct H as [H|H]; [|discriminate].
      right. apply String.eqb_eq. exact H.
  - apply holds_bind, holds_notify. intros s1 Hw1 Hs1.
    apply holds_bind, holds_input.
    + intros s2 Hw2 _. split; [apply eof_is_not_out_of_rounds | congruence].
    + intros line rest s2 Hw2 Hs Hs2.
      assert (Hrest : List.length (stdin s2) <= n).
      { rewrite Hs2. rewrite Hs1 in Hs. rewrite Hs in Hlen. simpl in Hlen. lia. }
      specialize (IH (PyStr.lower line) s2 Hrest).
      unfold holds in *. destruct (ask_optional n (PyStr.lower line) s2) as [[e|a] s3].
      * destruct IH as [He Hw]. split; [exact He | congruence].
      * destruct IH as [Ha [Hw Hl]]. split; [exact Ha|]. split; [congruence|].
        rewrite Hs1 in Hs. rewrite Hs. rewrite Hs2 in Hl. simpl. lia.
Qed.

End Dialogue.

Section DialogueFields.

Variable host : Host.

Lemma py_index_In {A} (l : list A) i x : py_index l i = inr x -> In x l.
Proof.
  unfold py_index. intros H.
  repeat match type of H with
         | context [if ?c then _ else _] => destruct c
         end;
    try discriminate;
    match type of H with
    | context [nth_error l ?k] => destruct (nth_error l k) eqn:E; [|discriminate]
    end;
    inversion H; subst; eapply nth_error_In; exact E.
Qed.

Lemma define_fields_unfold rounds model_fields :
  define_fields host rounds model_fields =
  Prog.bind (input_ "Enter field name (or press Enter to finish): ")
    (fun name =>
       if negb (PyStr.truthy name) then
         match model_fields with
         | [] => Prog.bind (Prog.notify AtLeastOneField) (fun _ => again host rounds model_fields)
         | _ => Prog.ret model_fields
         end
       else
         Prog.bind (Prog.notify AvailableTypes)
           (fun _ =>
              Prog.bind
                (Prog.for_each (enumerate 1 type_options)
                   (fun it => Prog.notify (TypeOption (fst it) (snd it))))
                (fun _ =>
                   Prog.bind (input_ "Choose field type (enter number): ")
                     (fun choice =>
                        Prog.bind (int_ host choice)
                          (fun number =>
                             Prog.bind (Prog.lift (py_index type_options (number - 1)%Z))
                               (fun field_type =>
                                  Prog.bind (input_ "Is this field optional? (y/n): ")
                                    (fun line =>
                                       Prog.bind (ask_optional rounds (PyStr.lower line))
                                         (fun optional_input =>
                                            again host rounds
                                              (model_fields
                                               ++ [Field name field_type
                                                     (String.eqb optional_input "y")]))))))))).
Proof. destruct rounds; reflexivity. Qed.

Lemma define_fields_holds rounds : forall model_fields s,
  List.length (stdin s) <= rounds ->
  Forall from_dialogue model_fields ->
  holds (define_fields host rounds model_fields) s
    (fun fields s' =>
       fields <> [] /\ Forall from_dialogue fields /\ world s' = world s)
    (fun e s' => e <> out_of_rounds /\ world s' = world s).
Proof.
  induction rounds as [|n IH]; intros model_fields s Hlen Hinv;
    rewrite define_fields_unfold; apply holds_bind, holds_input;
    try (intros s1 Hw1 _; split; [apply eof_is_not_out_of_rounds | exact Hw1]).
  - intros name rest s1 _ Hs _. exfalso. rewrite Hs in Hlen. simpl in Hlen. lia.
  - intros name rest s1 Hw1 Hs Hs1.
    assert (Hrest : List.length rest <= n) by (rewrite Hs in Hlen; simpl in Hlen; lia).
    destruct (PyStr.truthy name) eqn:Hname; simpl negb; cbv iota.
    + (* a name was given *)
      apply holds_bind, holds_notify. intros s2 Hw2 Hs2.
      apply holds_bind, holds_for_each_notify. intros s3 Hw3 Hs3.
      apply holds_bind, holds_input.
      { intros s4 Hw4 _. split; [apply eof_is_not_out_of_rounds | congruence]. }
      intros choice rest2 s4 Hw4 Hs4 Hs4'.
      apply holds_bind. unfold int_.
      destruct (int_of_str host choice) as [number|];
        [|apply holds_raise; split; [discriminate | congruence]].
      apply holds_ret. apply holds_bind.
      destruct (py_index type_options (number - 1)) as [e|field_type] eqn:Hidx;
        unfold Prog.lift;
        [apply holds_raise; split; [|congruence];
         unfold py_index in Hidx;
         repeat match type of Hidx with
                | context [if ?c then _ else _] => destruct c
                | context [match ?c with _ => _ end] => destruct c
                end; inversion Hidx; discriminate|].
      apply holds_ret. apply holds_bind, holds_input.
      { intros s5 Hw5 _. split; [apply eof_is_not_out_of_rounds | congruence]. }
      intros line rest3 s5 Hw5 Hs5 Hs5'.
      assert (Hlen5 : List.length (stdin s5) <= n).
      { rewrite Hs5'. rewrite Hs4' in Hs5. rewrite Hs5 in Hs4.
        rewrite Hs3, Hs2, Hs1 in Hs4. rewrite Hs4 in Hrest. simpl in Hrest. lia. }
      apply holds_bind.
      pose proof (ask_optional_holds (S n) (PyStr.lower line) s5 (le_S _ _ Hlen5)) as Hask.
      unfold holds in Hask |- *.
      destruct (ask_optional (S n) (PyStr.lower line) s5) as [[e|answer] s6].
      { destruct Hask as [He Hw]. split; [exact He | congruence]. }
      destruct Hask as [_ [Hw6 Hl6]].
      assert (Hgo := IH (model_fields ++ [Field name field_type (String.eqb answer "y")])
                       s6 (Nat.le_trans _ _ _ Hl6 Hlen5)).
      assert (Hinv' : Forall from_dialogue
                        (model_fields ++ [Field name field_type (String.eqb answer "y")])).
      { apply Forall_app. split; [exact Hinv|]. constructor; [|constructor].
        split.
        - simpl. intros ->. discriminate.
        - exact (py_index_In _ _ _ Hidx). }
      specialize (Hgo Hinv'). unfold holds in Hgo. simpl again.
      destruct (define_fields host n _ s6) as [[e|fields] s7].
      * destruct Hgo as [He Hw]. split; [exact He | congruence].
      * destruct Hgo as [Hne [Hf Hw]]. split; [exact Hne|]. split; [exact Hf | congruence].
    + (* no name *)
      destruct model_fields as [|f fields'].
      * apply holds_bind, holds_notify. intros s2 Hw2 Hs2. simpl again.
        assert (Hlen2 : List.length (stdin s2) <= n) by (rewrite Hs2, Hs1; exact Hrest).
        specialize (IH [] s2 Hlen2 Hinv). unfold holds in IH |- *.
        destruct (define_fields host n [] s2) as [[e|fields] s3].
        -- destruct IH as [He Hw]. split; [exact He | congruence].
        -- destruct IH as [Hne [Hf Hw]]. split; [exact Hne|]. split; [exact Hf | congruence].
      * apply holds_ret. split; [discriminate|]. split; [exact Hinv | exact Hw1].
Qed.

End DialogueFields.

Lemma named_type_of_option kind :
  In kind type_options -> named_type kind = Some (field_type kind).
Proof.
  intros H. simpl in H.
  repeat (destruct H as [<-|H]; [reflexivity|]). contradiction.
Qed.

(** X15: the dialogue of the command line, given as many rounds as there
    are lines to read, never runs out of rounds.  When it ends with a field
    list, the list is not empty, every name in it is not empty, every kind
    is one of the eight kinds offered, and the model gives the field the
    type that its kind names.  Whether it ends with a list or with an
    exception, it makes no request, writes no file and prints none of the
    messages of the extractor. *)
Theorem dialogue_fields :
  forall host rounds s,
    List.length (stdin s) <= rounds ->
    holds (define_fields host rounds []) s
      (fun fields s' =>
         fields <> []
         /\ Forall (fun f =>
                      name f <> EmptyString
                      /\ In (type f) type_options
                      /\ named_type (type f) = Some (field_type (type f)))
              fields
         /\ world s' = world s)
      (fun e s' => e <> out_of_rounds /\ world s' = world s).
Proof.
  intros host rounds s Hlen.
  pose proof (define_fields_holds host rounds [] s Hlen (Forall_nil _)) as H.
  unfold holds in *. destruct (define_fields host rounds [] s) as [[e|fields] s'].
  - exact H.
  - destruct H as [Hne [Hall Hw]]. split; [exact Hne|]. split; [|exact Hw].
    apply Forall_forall. intros f Hf. rewrite Forall_forall in Hall.
    destruct (Hall f Hf) as [Hn Ht]. split; [exact Hn|]. split; [exact Ht|].
    apply named_type_of_option. exact Ht.
Qed.

Lemma dialogue_fields_witness :
  holds (define_fields SampleHost.host 5 [])
    (SampleHost.start ["title"; "4"; "yes"; "Y"; EmptyString])
    (fun fields s' =>
       fields <> []
       /\ Forall (fun f =>
                    name f <> EmptyString
                    /\ In (type f) type_options
                    /\ named_type (type f) = Some (field_type (type f)))
            fields
       /\ world s' = Sample.empty_world)
    (fun e s' => e <> out_of_rounds /\ world s' = Sample.empty_world).
Proof.
  apply (dialogue_fields SampleHost.host 5
           (SampleHost.start ["title"; "4"; "yes"; "Y"; EmptyString])).
  simpl. lia.
Defined.

(** ** The export of the command line *)

Lemma rfind_app c pre s :
  PyStr.rfind c (pre ++ s) =
  match PyStr.rfind c s with
  | Some i => Some (String.length pre + i)
  | None => PyStr.rfind c pre
  end.
Proof.
  induction pre as [|a pre IH]; simpl.
  - destruct (PyStr.rfind c s); reflexivity.
  - rewrite IH. destruct (PyStr.rfind c s); reflexivity.
Qed.

Lemma get_app pre s k :
  String.get (String.length pre + k) (pre ++ s) = String.get k s.
Proof. induction pre as [|a pre IH]; simpl; [reflexivity | exact IH]. Qed.

Lemma substring_app pre s k m :
  String.substring (String.length pre + k) m (pre ++ s) = String.substring k m s.
Proof. induction pre as [|a pre IH]; simpl; [reflexivity | exact IH]. Qed.

Lemma drop_app pre s k :
  PyStr.drop (String.length pre + k) (pre ++ s) = PyStr.drop k s.
Proof.
  unfold PyStr.drop. rewrite length_app_string, substring_app.
  replace (String.length pre + String.length s - (String.length pre + k))
    with (String.length s - k) by lia.
  reflexivity.
Qed.

(** A path made by [os.path.join] for a name without a slash: the name
    after nothing, or after something that ends in a slash. *)
Lemma join_shape folder_path filename :
  occurs "/" filename = false ->
  exists pre,
    PyText.join folder_path filename = (pre ++ filename)%string
    /\ (pre = EmptyString \/ exists q, pre = (q ++ "/")%string).
Proof.
  intros Hs. unfold PyText.join.
  assert (Hstart : PyStr.startswith "/" filename = false).
  { destruct filename as [|c f]; [reflexivity|].
    cbn [occurs] in Hs. cbn [PyStr.startswith].
    apply orb_false_iff in Hs. destruct Hs as [Hc _].
    rewrite Ascii.eqb_sym, Hc. reflexivity. }
  rewrite Hstart.
  destruct folder_path as [|a rest] eqn:Hf.
  - exists EmptyString. split; [reflexivity | left; reflexivity].
  - rewrite <- Hf. replace (PyStr.truthy folder_path) with true by (subst; reflexivity).
    simpl negb. simpl orb.
    destruct (PyText.endswith "/" folder_path) eqn:He.
    + exists folder_path. split; [reflexivity|]. right.
      apply endswith_spec in He. exact He.
    + exists (folder_path ++ "/")%string. split.
      * apply append_assoc_string.
      * right. exists folder_path. reflexivity.
Qed.

Lemma splitext_in_folder pre filename k ch rest :
  (pre = EmptyString \/ exists q, pre = (q ++ "/")%string) ->
  occurs "/" filename = false ->
  PyStr.rfind "." filename = Some (S k) ->
  filename = String ch rest ->
  Ascii.eqb ch "." = false ->
  snd (OsPath.splitext (pre ++ filename)) = PyStr.drop (S k) filename.
Proof.
  intros Hpre Hslash Hdot Hname Hch.
  unfold OsPath.splitext, OsPath.sep, OsPath.extsep.
  rewrite !rfind_app, Hdot, (rfind_absent "/" filename Hslash).
  assert (Hidx : match PyStr.rfind "/" pre with Some i => S i | None => 0 end
                 = String.length pre).
  { destruct Hpre as [->|[q ->]]; [reflexivity|].
    rewrite (rfind_last "/" q EmptyString eq_refl).
    rewrite length_app_string. simpl. lia. }
  rewrite Hidx.
  assert (Hle : (String.length pre <=? String.length pre + S k)%nat = true)
    by (apply Nat.leb_le; lia).
  rewrite Hle.
  replace (String.length pre + S k - String.length pre) with (S k) by lia.
  assert (Hnon : OsPath.has_non_dot (pre ++ filename) (String.length pre) (S k) = true).
  { cbn [OsPath.has_non_dot].
    replace (String.length pre) with (String.length pre + 0) at 1 by lia.
    rewrite get_app, Hname. simpl String.get. unfold OsPath.extsep. rewrite Hch.
    reflexivity. }
  rewrite Hnon. simpl. apply drop_app.
Qed.

Lemma export_path_extension host export :
  export = "json" \/ export = "csv" ->
  PyStr.lower
    (snd (OsPath.splitext
            (PyText.join (os_getcwd host) ("extraction_results." ++ export))))
  = ("." ++ export)%string.
Proof.
  intros [->| ->].
  - change ("extraction_results." ++ "json")%string with "extraction_results.json".
    destruct (join_shape (os_getcwd host) "extraction_results.json" eq_refl)
      as [pre [-> Hpre]].
    rewrite (splitext_in_folder pre "extraction_results.json" 17 "e"
               "xtraction_results.json" Hpre); reflexivity.
  - change ("extraction_results." ++ "csv")%string with "extraction_results.csv".
    destruct (join_shape (os_getcwd host) "extraction_results.csv" eq_refl)
      as [pre [-> Hpre]].
    rewrite (splitext_in_folder pre "extraction_results.csv" 17 "e"
               "xtraction_results.csv" Hpre); reflexivity.
Qed.

Lemma export_message_is_error output_file e :
  export_message output_file e <> NoResultsToExport
  /\ forall ext, export_message output_file e <> UnsupportedFileFormat ext.
Proof. destruct e; split; try intros ext; discriminate. Qed.

(** X18: the export that [main] makes, of a result list that is not empty
    and in the format [json] or [csv], is always to a path of a supported
    format.  It leaves the notices and the input as they were, and either
    returns with exactly one message, which is never that the format is
    not supported nor that there is nothing to export, or raises the
    MarkupError of a message that is not well-formed console markup,
    with nothing printed. *)
Theorem export_from_main_supported :
  forall host lib sys results export s r s',
    results <> [] ->
    export = "json" \/ export = "csv" ->
    export_from_main host lib sys results export s = (r, s') ->
    notices s' = notices s /\ stdin s' = stdin s
    /\ ((r = inr tt
         /\ exists m,
              console (world s') = console (world s) ++ [m]
              /\ m <> NoResultsToExport
              /\ forall ext, m <> UnsupportedFileFormat ext)
        \/ (exists msg,
              r = inl (MarkupError msg) /\ console (world s') = console (world s))).
Proof.
  intros host lib sys results export s r s' Hne Hfmt Hrun.
  unfold export_from_main, Prog.in_world in Hrun.
  pose proof (export_path_extension host export Hfmt) as Hext.
  set (path := PyText.join (os_getcwd host) ("extraction_results." ++ export)) in *.
  destruct (export_results lib sys results path (world s)) as [r0 w'] eqn:Hexp.
  inversion Hrun; subst r s'. clear Hrun. simpl.
  split; [reflexivity|]. split; [reflexivity|].
  assert (Hshown : forall e w0,
             console w0 = console (world s) ->
             shown lib (export_message path e) tt w0 = (r0, w') ->
             (r0 = inr tt
              /\ exists m,
                   console w' = console (world s) ++ [m]
                   /\ m <> NoResultsToExport
                   /\ forall ext, m <> UnsupportedFileFormat ext)
             \/ (exists msg, r0 = inl (MarkupError msg) /\ console w' = console (world s))).
  { intros e w0 Hc H. apply shown_frame in H.
    destruct H as [_ [_ [[-> Hcons]|[msg [-> ->]]]]].
    - left. split; [reflexivity|]. exists (export_message path e).
      rewrite Hcons, Hc. split; [reflexivity|]. apply export_message_is_error.
    - right. eauto. }
  assert (Hended : forall m w0,
             console w0 = console (world s) ->
             m <> NoResultsToExport ->
             (forall ext, m <> UnsupportedFileFormat ext) ->
             ended lib m w0 = (r0, w') ->
             (r0 = inr tt
              /\ exists m,
                   console w' = console (world s) ++ [m]
                   /\ m <> NoResultsToExport
                   /\ forall ext, m <> UnsupportedFileFormat ext)
             \/ (exists msg, r0 = inl (MarkupError msg) /\ console w' = console (world s))).
  { intros m w0 Hc Hm1 Hm2 H. apply ended_frame in H.
    destruct H as [_ [_ [[-> [m' [Hcons Hm']]]|[msg [-> ->]]]]].
    - left. split; [reflexivity|]. exists m'. rewrite Hcons, Hc.
      split; [reflexivity|].
      destruct Hm' as [->|[msg ->]]; [split; assumption|].
      split; [discriminate | intros ext; discriminate].
    - right. eauto. }
  rewrite export_results_unfold in Hexp. cbv zeta in Hexp. rewrite Hext in Hexp.
  destruct (os_makedirs sys (export_dir path)) as [e|].
  { apply (Hshown e (world s) eq_refl Hexp). }
  destruct Hfmt as [->| ->].
  - change (String.eqb ("." ++ "json") ".json") with true in Hexp. cbv iota in Hexp.
    destruct (open_write sys path) as [e|].
    + eapply Hshown; [|exact Hexp]; reflexivity.
    + eapply Hended; [| | |exact Hexp];
        [reflexivity | discriminate | intros ext; discriminate].
  - change (String.eqb ("." ++ "csv") ".json") with false in Hexp.
    change (String.eqb ("." ++ "csv") ".csv") with true in Hexp. cbv iota in Hexp.
    destruct results as [|first rest]; [congruence|].
    destruct (open_write sys path) as [e|].
    + eapply Hshown; [|exact Hexp]; reflexivity.
    + match type of Hexp with
      | match for_each ?items ?body ?w1 with _ => _ end = _ =>
          destruct (for_each_writerow lib path (csv_fieldnames first) row_of items w1)
            as [r1 [w2 [later [Hloop [Hc _]]]]];
          rewrite Hloop in Hexp
      end.
      destruct r1 as [e|u].
      * apply (Hshown e w2); [exact Hc | exact Hexp].
      * eapply Hended; [| | |exact Hexp];
          [exact Hc | discriminate | intros ext; discriminate].
Qed.

Lemma export_from_main_supported_witness :
  exists w',
    export_from_main SampleHost.host Sample.library Sample.system
      [Result "foo" [("title", VStr "Foo")]] "csv" (SampleHost.start [])
    = (inr tt, mkSession w' [] [])
    /\ exists m,
         console w' = [m]
         /\ m <> NoResultsToExport
         /\ forall ext, m <> UnsupportedFileFormat ext.
Proof.
  eexists. split; [vm_compute; reflexivity|].
  destruct (export_from_main_supported SampleHost.host Sample.library Sample.system
              [Result "foo" [("title", VStr "Foo")]] "csv" (SampleHost.start [])
              _ _ ltac:(discriminate) (or_intror eq_refl) eq_refl)
    as [_ [_ [[_ H]|[msg [H _]]]]]; [exact H | discriminate H].
Defined.

(** ** The runs of the command line *)

(** X16: when the dialogue of the fields ends with an exception (the end
    of the input, a choice that is not a number, a choice out of range),
    [main] goes to its [except] clause, whatever input was asked for on
    the command line: no request is made and no file is written.  The
    clause prints the exception as an unexpected error, with its text,
    and [main] returns; when that text is not well-formed console markup
    (the text of the error of [int] holds the choice as it was typed)
    nothing is printed and [main] raises the MarkupError. *)
Theorem main_after_failed_dialogue :
  forall host lib sys args s e s1,
    define_fields host (List.length (stdin s)) [] s = (inl e, s1) ->
    main host lib sys args s = noticed lib (UnexpectedError e) tt s1
    /\ world s1 = world s.
Proof.
  intros host lib sys args s e s1 H.
  split.
  - unfold main, Prog.try_except, Prog.bind at 1. rewrite H.
    cbn [Prog.find_handler]. rewrite isinstance_Exception. reflexivity.
  - pose proof (define_fields_holds host (List.length (stdin s)) [] s
                  (le_n _) (Forall_nil _)) as Hd.
    unfold holds in Hd. rewrite H in Hd. apply Hd.
Qed.

Lemma main_after_failed_dialogue_witness :
  exists s1,
    main SampleHost.host Sample.library Sample.system
      {| arg_text := Some "foo"; arg_image := None; arg_bulk_text := None;
         arg_bulk_images := None; arg_display := "json"; arg_export := "csv" |}
      (SampleHost.start ["title"; "[/x]"; "n"; EmptyString])
    = (inl (MarkupError "closing tag '[/x]' at position 81 doesn't match any open tag"),
       s1)
    /\ world s1 = Sample.empty_world
    /\ stdin s1 = ["n"; EmptyString].
Proof.
  eexists. split.
  - refine (proj1 (main_after_failed_dialogue SampleHost.host Sample.library Sample.system
                     _ (SampleHost.start ["title"; "[/x]"; "n"; EmptyString])
                     (ValueError "invalid literal for int() with base 10: '[/x]'")
                     (mkSession Sample.empty_world _ ["n"; EmptyString]) _)).
    vm_compute. reflexivity.
  - split; reflexivity.
Defined.

(** X17: when none of the four inputs is given on the command line (or
    only empty ones), [main] makes no request, writes no file and prints
    no message of the extractor, however the dialogue of the fields ends;
    and when the dialogue returns fields, [main] prints that no input
    was specified, after the notices of the dialogue, and returns. *)
Theorem main_without_input :
  forall host lib sys args s,
    given (arg_text args) = None ->
    given (arg_image args) = None ->
    given (arg_bulk_text args) = None ->
    given (arg_bulk_images args) = None ->
    world (snd (main host lib sys args s)) = world s
    /\ forall fields s1,
         define_fields host (List.length (stdin s)) [] s = (inr fields, s1) ->
         main host lib sys args s
         = (inr tt, mkSession (world s) (notices s1 ++ [NoInputSpecified]) (stdin s1)).
Proof.
  intros host lib sys args s Ht Hi Hb Hbi.
  pose proof (define_fields_holds host (List.length (stdin s)) [] s (le_n _) (Forall_nil _))
    as Hd.
  unfold holds in Hd.
  assert (Hmain : main host lib sys args s =
                  match define_fields host (List.length (stdin s)) [] s with
                  | (inl e, s1) => noticed lib (UnexpectedError e) tt s1
                  | (inr _, s1) =>
                      (inr tt,
                       mkSession (world s1) (notices s1 ++ [NoInputSpecified]) (stdin s1))
                  end).
  { unfold main, Prog.try_except, Prog.bind at 1.
    destruct (define_fields host (List.length (stdin s)) [] s) as [[e|fields] s1].
    - cbn [Prog.find_handler]. rewrite isinstance_Exception. reflexivity.
    - rewrite Ht, Hi, Hb, Hbi. reflexivity. }
  rewrite Hmain.
  destruct (define_fields host (List.length (stdin s)) [] s) as [[e|fields] s1].
  - split; [|intros fields s2 H; discriminate H].
    destruct Hd as [_ Hw]. rewrite <- Hw.
    destruct (noticed lib (UnexpectedError e) tt s1) as [r s'] eqn:Hn.
    apply noticed_frame in Hn. apply Hn.
  - destruct Hd as [_ [_ Hw]]. split; [simpl; exact Hw|].
    intros fields' s2 H. inversion H; subst. rewrite Hw. reflexivity.
Qed.

Lemma main_without_input_witness :
  exists said,
    main SampleHost.host Sample.library Sample.system
      {| arg_text := Some EmptyString; arg_image := None; arg_bulk_text := None;
         arg_bulk_images := None; arg_display := "json"; arg_export := "csv" |}
      (SampleHost.start ["title"; "1"; "n"; EmptyString])
    = (inr tt, mkSession Sample.empty_world (said ++ [NoInputSpecified]) []).
Proof.
  eexists.
  refine (proj2 (main_without_input SampleHost.host Sample.library Sample.system
                   {| arg_text := Some EmptyString; arg_image := None;
                      arg_bulk_text := None; arg_bulk_images := None;
                      arg_display := "json"; arg_export := "csv" |}
                   (SampleHost.start ["title"; "1"; "n"; EmptyString])
                   eq_refl eq_refl eq_refl eq_refl)
            [Field "title" "str" false]
            (mkSession Sample.empty_world _ []) _).
  vm_compute. reflexivity.
Defined.

(** ** What a run leaves as it was *)

Section Kept.

Variable R : World -> World -> Prop.
Hypothesis R_refl : forall w, R w w.
Hypothesis R_trans : forall w1 w2 w3, R w1 w2 -> R w2 w3 -> R w1 w3.

Lemma kept_ret {A} (a : A) : kept R (Prog.ret a).
Proof. intros s r s' H. inversion H. apply R_refl. Qed.

Lemma kept_bind {A B} (m : Prog.T A) (k : A -> Prog.T B) :
  kept R m -> (forall a, kept R (k a)) -> kept R (Prog.bind m k).
Proof.
  intros Hm Hk s r s' H. unfold Prog.bind in H.
  destruct (m s) as [[e|a] s1] eqn:E.
  - inversion H; subst. apply (Hm _ _ _ E).
  - eapply R_trans; [apply (Hm _ _ _ E) | apply (Hk a _ _ _ H)].
Qed.

Lemma kept_notify n : kept R (Prog.notify n).
Proof. intros s r s' H. inversion H. apply R_refl. Qed.

Lemma kept_print lib n : kept R (Prog.print lib n).
Proof.
  intros s r s' H. unfold Prog.print in H.
  destruct (notice_error lib n); inversion H; apply R_refl.
Qed.

Lemma kept_in_world {A} (m : M A) :
  (forall w r w', m w = (r, w') -> R w w') -> kept R (Prog.in_world m).
Proof.
  intros Hm s r s' H. unfold Prog.in_world in H.
  destruct (m (world s)) as [r0 w'] eqn:E. inversion H; subst. simpl.
  apply (Hm _ _ _ E).
Qed.

Lemma kept_try_except {A} (body : Prog.T A) (h : exn -> Prog.T A) :
  kept R body -> (forall e, kept R (h e)) ->
  kept R (Prog.try_except body [(CException, h)]).
Proof.
  intros Hb Hh s r s' H. unfold Prog.try_except in H.
  destruct (body s) as [[e|a] s1] eqn:E.
  - cbn [Prog.find_handler] in H. rewrite isinstance_Exception in H.
    eapply R_trans; [apply (Hb _ _ _ E) | apply (Hh e _ _ _ H)].
  - inversion H; subst. apply (Hb _ _ _ E).
Qed.

Lemma kept_define_fields host :
  kept R (fun s => define_fields host (List.length (stdin s)) [] s).
Proof.
  intros s r s' H.
  pose proof (define_fields_holds host (List.length (stdin s)) [] s (le_n _) (Forall_nil _))
    as Hd.
  unfold holds in Hd. rewrite H in Hd.
  destruct r as [e|fields].
  - destruct Hd as [_ ->]. apply R_refl.
  - destruct Hd as [_ [_ ->]]. apply R_refl.
Qed.

Lemma kept_display_results host lib results display_type :
  kept R (display_results host lib results display_type).
Proof.
  unfold display_results.
  destruct (String.eqb display_type "json").
  - apply kept_try_except; [|intros e; apply kept_print].
    first [apply kept_notify | apply kept_print].
  - destruct (String.eqb display_type "table").
    + apply kept_try_except; [|intros e; apply kept_print].
      first [apply kept_notify | apply kept_print].
    + apply kept_try_except; [|intros e; apply kept_print].
      first [apply kept_ret | apply kept_notify | apply kept_print].
Qed.

End Kept.

Lemma same_fs_refl w : same_fs w w.
Proof. reflexivity. Qed.

Lemma same_fs_trans w1 w2 w3 : same_fs w1 w2 -> same_fs w2 w3 -> same_fs w1 w3.
Proof. unfold same_fs. congruence. Qed.

(** The loop over the units touches no file, however it ends. *)
Lemma for_extend_fs {A} (f : A -> M (list result)) (xs : list A) :
  (forall x w r w', f x w = (r, w') -> fs w' = fs w) ->
  forall acc w r w', for_extend xs f acc w = (r, w') -> fs w' = fs w.
Proof.
  intros Hf. induction xs as [|x xs IH]; intros acc w r w' H; simpl in H.
  - inversion H. reflexivity.
  - unfold bind in H. destruct (f x w) as [[e|rs] w1] eqn:Hx.
    + inversion H; subst. apply (Hf _ _ _ _ Hx).
    + rewrite (IH _ _ _ _ H). apply (Hf _ _ _ _ Hx).
Qed.

Lemma process_unit_fs lib sys self fields u w r w' :
  process_unit lib sys self fields u w = (r, w') -> fs w' = fs w.
Proof.
  unfold process_unit. destruct (PyStr.truthy (PyStr.strip u)); intros H.
  - apply (process_text_frame _ _ _ _ _ _ _ _ H).
  - inversion H. reflexivity.
Qed.

(** [process_bulk_text] touches no file, however it ends. *)
Lemma process_bulk_text_fs lib sys self file_path fields w r w' :
  process_bulk_text lib sys self file_path fields w = (r, w') -> fs w' = fs w.
Proof.
  intros H. unfold process_bulk_text, try_except in H.
  match type of H with
  | match ?body w with _ => _ end = _ =>
      assert (Hbody : forall r1 w1, body w = (r1, w1) -> fs w1 = fs w);
        [|destruct (body w) as [[e|rs] w1] eqn:Hb]
  end.
  - intros r1 w1 Hb.
    destruct (String.eqb (PyStr.lower (snd (OsPath.splitext file_path))) ".txt").
    + unfold bind at 1, open_and_read in Hb.
      destruct (open_read sys file_path) as [e|contents]; simpl lift in Hb.
      * inversion Hb. reflexivity.
      * unfold ret at 1 in Hb.
        apply (for_extend_fs _ _ (process_unit_fs lib sys self fields) _ _ _ _ Hb).
    + destruct (String.eqb (PyStr.lower (snd (OsPath.splitext file_path))) ".csv").
      * unfold bind at 1, open_and_read in Hb.
        destruct (open_read sys file_path) as [e|contents]; simpl lift in Hb.
        -- inversion Hb. reflexivity.
        -- unfold ret at 1 in Hb. unfold bind at 1 in Hb.
           destruct (csv_reader lib contents) as [e|rows]; simpl lift in Hb.
           ++ inversion Hb. reflexivity.
           ++ unfold ret at 1 in Hb.
              apply (for_extend_fs _ _
                       (fun row => process_unit_fs lib sys self fields (PyStr.join " " row))
                       _ _ _ _ Hb).
      * inversion Hb. reflexivity.
  - cbn [find_handler] in H. rewrite isinstance_Exception in H.
    rewrite print_and_return in H. apply shown_frame in H.
    destruct H as [_ [Hf _]]. rewrite Hf. apply (Hbody _ _ eq_refl).
  - inversion H; subst. apply (Hbody _ _ eq_refl).
Qed.

(** [process_bulk_images] touches no file, however it ends. *)
Lemma process_bulk_images_fs host lib sys self folder_path fields :
  kept same_fs (process_bulk_images host lib sys self folder_path fields).
Proof.
  intros s r s' H. unfold same_fs.
  rewrite process_bulk_images_unfold in H.
  destruct (os_listdir host folder_path) as [e|names].
  - apply noticed_frame in H. destruct H as [Hw _]. rewrite Hw. reflexivity.
  - match type of H with
    | match ?loop with _ => _ end = _ => destruct loop as [[e|rs] s0] eqn:Hloop
    end.
    + apply noticed_frame in H. destruct H as [Hw _]. rewrite Hw.
      apply (for_extend_images_frame _ _ _ _ _ _ _ _ _ _ Hloop).
    + inversion H; subst. apply (for_extend_images_frame _ _ _ _ _ _ _ _ _ _ Hloop).
Qed.

(** X19: a run of [main] that is not asked to export writes no file, makes
    no directory and opens nothing for writing, whatever the input, the
    mode and the display are, whether the run returns or raises. *)
Theorem main_writes_only_on_export :
  forall host lib sys args s r s',
    arg_export args = "none" ->
    main host lib sys args s = (r, s') ->
    fs (world s') = fs (world s).
Proof.
  intros host lib sys args s r s' Hexp Hrun.
  revert s r s' Hrun. change (kept same_fs (main host lib sys args)).
  pose proof same_fs_refl as Hrefl. pose proof same_fs_trans as Htrans.
  unfold main. apply kept_try_except; try assumption;
    [|intros e; apply kept_print; assumption].
  apply kept_bind; try assumption; [apply kept_define_fields; assumption|].
  intros fields. apply kept_bind; try assumption.
  - destruct (given (arg_text args)) as [text|].
    { apply kept_bind; try assumption; [|intros a; apply kept_ret; assumption].
      apply kept_in_world. intros w r w' H.
      apply (process_text_frame _ _ _ _ _ _ _ _ H). }
    destruct (given (arg_image args)) as [image|].
    { apply kept_bind; try assumption; [|intros a; apply kept_ret; assumption].
      apply kept_in_world. intros w r w' H.
      apply (process_image_frame _ _ _ _ _ _ _ _ H). }
    destruct (given (arg_bulk_text args)) as [bulk_text|].
    { apply kept_bind; try assumption; [|intros a; apply kept_ret; assumption].
      apply kept_in_world. intros w r w' H.
      apply (process_bulk_text_fs _ _ _ _ _ _ _ _ H). }
    destruct (given (arg_bulk_images args)) as [bulk_images|].
    { apply kept_bind; try assumption; [|intros a; apply kept_ret; assumption].
      apply process_bulk_images_fs. }
    apply kept_bind; try assumption; [apply kept_notify; assumption|].
    intros a; apply kept_ret; assumption.
  - intros [[|first rest]|].
    + apply kept_notify; assumption.
    + rewrite Hexp. change (negb (String.eqb "none" "none")) with false. cbv iota.
      apply kept_bind; try assumption; [|intros a; apply kept_ret; assumption].
      destruct (negb (String.eqb (arg_display args) "none")).
      * apply kept_display_results; assumption.
      * apply kept_ret; assumption.
    + apply kept_ret; assumption.
Qed.

Lemma main_writes_only_on_export_witness :
  fs (world (snd (main SampleHost.host Sample.library Sample.system
                    {| arg_text := None; arg_image := None;
                       arg_bulk_text := Some "units.txt";
                       arg_bulk_images := None; arg_display := "table";
                       arg_export := "none" |}
                    (SampleHost.start ["title"; "1"; "n"; EmptyString]))))
  = [].
Proof.
  exact (main_writes_only_on_export SampleHost.host Sample.library Sample.system
           {| arg_text := None; arg_image := None; arg_bulk_text := Some "units.txt";
              arg_bulk_images := None; arg_display := "table"; arg_export := "none" |}
           (SampleHost.start ["title"; "1"; "n"; EmptyString]) _ _ eq_refl
           (surjective_pairing _)).
Defined.

(** ** Splitting loses nothing *)

(** X20: splitting loses nothing and adds nothing: for a separator that is
    not empty, the pieces of a text joined again by the separator are the
    text; so the units of a bulk text file, with [,,] between them, are the
    contents of the file. *)
Theorem join_split :
  forall sep s,
    sep <> EmptyString ->
    PyStr.join sep (PyStr.split sep s) = s.
Proof.
  intros sep s Hsep. unfold PyStr.split.
  rewrite (join_split_go sep (String.length s) s EmptyString Hsep (le_n _)). reflexivity.
Qed.

Lemma join_split_witness :
  PyStr.join ",," (PyStr.split ",," "a,,,b,,") = "a,,,b,,".
Proof. apply join_split. discriminate. Defined.
